(** * PyDiscordish chat server: session, room and command engine

    A shallow embedding of [server.py] (the registry of clients, rooms and
    bans, [remove_client], [handle_join], [handle_command] and the two phases
    of [handle_client], the ban file and the line framing) and of
    [upload_file] and the framing loop of [reader_thread] from [client.py],
    followed by the properties of the specification that can be stated about
    them.

    Conventions of the embedding.
    - Python [str] values are byte strings; whitespace, [lower] and the digits
      accepted by [int] are the ASCII ones.
    - A decoded JSON value is a [json]; JSON numbers are integers.
    - [time.time()] is read at a resolution of one second, as an integer.
    - The process-wide dictionaries are the fields of [server]; every handler
      is a computation in the monad [M], which threads the registry, collects
      the socket and log-file effects in order as [event]s, and may raise a
      Python exception.  A handler runs atomically: the interleaving of
      threads is that of whole handler steps.
    - A failed [sendall] is swallowed by [send_json]; a [Send] event records
      the attempt.  Calls on [gui_app] are not part of the model. *)

From Stdlib Require Import Ascii.
From stdpp Require Import gmap strings list fin_maps pretty sorting.

Set Warnings "-register-all".
#[local] Open Scope string_scope.
#[local] Open Scope Z_scope.

(** ** Python strings *)

Module Py.

(** [str.isspace] on one ASCII character. *)
Definition is_space (c : ascii) : bool :=
  let n := nat_of_ascii c in
  ((9 <=? n)%nat && (n <=? 13)%nat) || ((28 <=? n)%nat && (n <=? 32)%nat).

(** Dropping the leading, or the trailing, characters that satisfy [f]. *)
Fixpoint lstrip_by (f : ascii → bool) (s : string) : string :=
  match s with
  | String c s' => if f c then lstrip_by f s' else s
  | EmptyString => EmptyString
  end.

Fixpoint rstrip_by (f : ascii → bool) (s : string) : string :=
  match s with
  | String c s' =>
      match rstrip_by f s' with
      | EmptyString => if f c then EmptyString else String c EmptyString
      | t => String c t
      end
  | EmptyString => EmptyString
  end.

Definition strip_by (f : ascii → bool) (s : string) : string :=
  rstrip_by f (lstrip_by f s).

(** [s.strip()] *)
Definition strip (s : string) : string := strip_by is_space s.

(** [s.split(maxsplit=n)] ([maxsplit = None] for [s.split()]): maximal runs
    of non-blank characters; once [n] cuts are made the rest of the string,
    without its leading blanks, is the last piece.  [cur] is the word being
    read, reversed. *)
Fixpoint split_go (maxsplit : option nat) (cur : option string) (s : string)
  : list string :=
  match s with
  | EmptyString =>
      match cur with Some w => [String.rev w] | None => [] end
  | String c s' =>
      match cur with
      | None =>
          if is_space c then split_go maxsplit None s'
          else match maxsplit with
               | Some O => [s]
               | _ => split_go maxsplit (Some (String c EmptyString)) s'
               end
      | Some w =>
          if is_space c
          then String.rev w :: split_go (Nat.pred <$> maxsplit) None s'
          else split_go maxsplit (Some (String c w)) s'
      end
  end.

Definition split (maxsplit : option nat) (s : string) : list string :=
  split_go maxsplit None s.

Definition lower_ascii (c : ascii) : ascii :=
  let n := nat_of_ascii c in
  if (65 <=? n)%nat && (n <=? 90)%nat then ascii_of_nat (n + 32) else c.

(** [s.lower()] *)
Fixpoint lower (s : string) : string :=
  match s with
  | String c s' => String (lower_ascii c) (lower s')
  | EmptyString => EmptyString
  end.

(** [sep.join(l)] *)
Fixpoint join (sep : string) (l : list string) : string :=
  match l with
  | [] => ""
  | [x] => x
  | x :: l' => x ++ sep ++ join sep l'
  end.

(** [sorted(l)] on strings. *)
Definition sorted (l : list string) : list string := merge_sort String.le l.

Definition digit (c : ascii) : option Z :=
  let n := nat_of_ascii c in
  if (48 <=? n)%nat && (n <=? 57)%nat then Some (Z.of_nat n - 48) else None.

(** The digits of a decimal literal; single underscores may separate
    digits.  [prev] tells whether the previous character was a digit. *)
Fixpoint digits_go (acc : Z) (prev : bool) (s : string) : option Z :=
  match s with
  | EmptyString => if prev then Some acc else None
  | String c s' =>
      match digit c with
      | Some d => digits_go (10 * acc + d) true s'
      | None =>
          if Ascii.eqb c "_" && prev then digits_go acc false s' else None
      end
  end.

(** The blanks that [int] skips around a literal. *)
Definition is_int_space (c : ascii) : bool :=
  let n := nat_of_ascii c in
  ((9 <=? n)%nat && (n <=? 13)%nat) || (n =? 32)%nat.

(** [int(s)]; [None] stands for [ValueError]. *)
Definition int (s : string) : option Z :=
  match strip_by is_int_space s with
  | String "+" s' => digits_go 0 false s'
  | String "-" s' => Z.opp <$> digits_go 0 false s'
  | s' => digits_go 0 false s'
  end.

(** [str(n)] for an integer. *)
Definition str_int (n : Z) : string := pretty n.

End Py.

(** ** Decoded JSON values *)

Inductive json : Type :=
| JNull
| JBool (b : bool)
| JNum (n : Z)
| JStr (s : string)
| JList (l : list json)
| JDict (d : list (string * json)).

(** Python exceptions, each with the text that [str(e)] gives. *)
Inductive exn : Type :=
| AttributeError (msg : string)
| TypeError (msg : string)
| KeyError (msg : string)
| OverflowError (msg : string).

Definition exn_str (e : exn) : string :=
  match e with
  | AttributeError m | TypeError m | KeyError m | OverflowError m => m
  end.

Definition type_name (v : json) : string :=
  match v with
  | JNull => "NoneType"
  | JBool _ => "bool"
  | JNum _ => "int"
  | JStr _ => "str"
  | JList _ => "list"
  | JDict _ => "dict"
  end.

(** Truth value of a Python object, as tested by [if v] and [not v]. *)
Definition truthy (v : json) : bool :=
  match v with
  | JNull => false
  | JBool b => b
  | JNum n => negb (n =? 0)
  | JStr s => negb (String.eqb s "")
  | JList l => match l with [] => false | _ => true end
  | JDict d => match d with [] => false | _ => true end
  end.

Fixpoint assoc_get (d : list (string * json)) (k : string) : option json :=
  match d with
  | [] => None
  | (k', v) :: d' => if String.eqb k' k then Some v else assoc_get d' k
  end.

(** ** Wire messages *)

Definition system (text : string) : json :=
  JDict [("type", JStr "system"); ("message", JStr text)].

(** ** The registry *)

Record client : Type := {
  conn : nat;
  addr : string * Z;
  muted_until : Z;
  is_admin : bool;
  joined : Z
}.

Record server : Type := {
  clients : gmap string client;
  banned : gset string;
  rooms : gmap string (gset string);
  user_rooms : gmap string string;
  room_passwords : gmap string string;
  users_db : gmap string string
}.

(** One piece of an f-string written to the log: literal text, or a value
    rendered by [str()] when the line is written. *)
Inductive piece : Type :=
| Lit (s : string)
| Val (v : json).

Inductive event : Type :=
| Send (c : nat) (obj : json)
| Close (c : nat)
| Log (line : list piece)
| SaveBanned (names : list string).

Record clock : Type := { time_time : Z; now_ts : string }.

(** ** The handler monad *)

Inductive outcome (A : Type) : Type :=
| Done (a : A)
| Raised (e : exn).
Arguments Done {A} a.
Arguments Raised {A} e.

Definition M (A : Type) : Type :=
  clock → server → outcome A * server * list event.

Definition ret {A} (a : A) : M A := λ _ s, (Done a, s, []).

Definition bind {A B} (m : M A) (k : A → M B) : M B :=
  λ c s,
    match m c s with
    | (Done a, s1, o1) =>
        match k a c s1 with (r, s2, o2) => (r, s2, (o1 ++ o2)%list) end
    | (Raised e, s1, o1) => (Raised e, s1, o1)
    end.

Definition raise {A} (e : exn) : M A := λ _ s, (Raised e, s, []).

(** [try: m  except Exception as e: h e] *)
Definition try_except {A} (m : M A) (h : exn → M A) : M A :=
  λ c s,
    match m c s with
    | (Done a, s1, o1) => (Done a, s1, o1)
    | (Raised e, s1, o1) =>
        match h e c s1 with (r, s2, o2) => (r, s2, (o1 ++ o2)%list) end
    end.

Definition gets {A} (f : server → A) : M A := λ _ s, (Done (f s), s, []).
Definition modify (f : server → server) : M unit := λ _ s, (Done tt, f s, []).
Definition emit (e : event) : M unit := λ _ s, (Done tt, s, [e]).
Definition ask : M clock := λ c s, (Done c, s, []).

Notation "'let*' x := m 'in' k" := (bind m (λ x, k))
  (at level 10, x name, m at level 100, k at level 200).
Notation "m >> k" := (bind m (λ _, k))
  (at level 100, k at level 200, right associativity).

Definition state_of {A} (r : outcome A * server * list event) : server := r.1.2.
Definition events_of {A} (r : outcome A * server * list event) : list event := r.2.
Definition result_of {A} (r : outcome A * server * list event) : outcome A := r.1.1.

(** ** Message texts *)

Definition nl : string := String (ascii_of_nat 10) EmptyString.

Definition help_basic : string :=
    "ğŸ“š AVAILABLE COMMANDS" ++ nl
    ++ "â”â”â”â”â”â”â”â”â”â”â”â”â”â”â”â”â”â”â”â”â”â”â”â”â”â”â”â”â”â”â”â”â”â”â”â”" ++ nl ++ nl
    ++ "ğŸ¯ BASIC COMMANDS:" ++ nl
    ++ "/help or /? - Show this help" ++ nl
    ++ "/list or /users - Show online users" ++ nl
    ++ "/whoami - Show your username" ++ nl
    ++ "/me <action> - Send action message" ++ nl ++ nl
    ++ "ğŸ’¬ ROOM COMMANDS:" ++ nl
    ++ "/create <room> [pwd] - Create room" ++ nl
    ++ "/join <room> [pwd] - Join room" ++ nl
    ++ "/leave - Leave current room" ++ nl
    ++ "/rooms - List all rooms" ++ nl ++ nl
    ++ "/admin <password> - Become admin".

Definition help_admin : string :=
    nl ++ nl ++ "ğŸ‘‘ ADMIN COMMANDS:" ++ nl
    ++ "/kick <user> - Kick user" ++ nl
    ++ "/ban <user> - Ban user" ++ nl
    ++ "/unban <user> - Unban user" ++ nl
    ++ "/mute <user> <sec> - Mute user" ++ nl
    ++ "/unmute <user> - Unmute user" ++ nl
    ++ "/listbans - List banned users" ++ nl
    ++ "/announce <msg> - Send announcement".

(** ** Configuration *)

Definition MAX_FILE_SIZE : Z := 200 * 1024.
Definition ADMIN_PASSWORD : string := "admin123".

(** ** Field updates *)

Definition set_clients (f : gmap string client → gmap string client) (s : server) : server :=
  {| clients := f (clients s); banned := banned s; rooms := rooms s;
     user_rooms := user_rooms s; room_passwords := room_passwords s;
     users_db := users_db s |}.

Definition set_banned (f : gset string → gset string) (s : server) : server :=
  {| clients := clients s; banned := f (banned s); rooms := rooms s;
     user_rooms := user_rooms s; room_passwords := room_passwords s;
     users_db := users_db s |}.

Definition set_rooms (f : gmap string (gset string) → gmap string (gset string))
    (s : server) : server :=
  {| clients := clients s; banned := banned s; rooms := f (rooms s);
     user_rooms := user_rooms s; room_passwords := room_passwords s;
     users_db := users_db s |}.

Definition set_user_rooms (f : gmap string string → gmap string string)
    (s : server) : server :=
  {| clients := clients s; banned := banned s; rooms := rooms s;
     user_rooms := f (user_rooms s); room_passwords := room_passwords s;
     users_db := users_db s |}.

Definition set_room_passwords (f : gmap string string → gmap string string)
    (s : server) : server :=
  {| clients := clients s; banned := banned s; rooms := rooms s;
     user_rooms := user_rooms s; room_passwords := f (room_passwords s);
     users_db := users_db s |}.

Definition set_users_db (f : gmap string string → gmap string string)
    (s : server) : server :=
  {| clients := clients s; banned := banned s; rooms := rooms s;
     user_rooms := user_rooms s; room_passwords := room_passwords s;
     users_db := f (users_db s) |}.

Definition set_muted_until (t : Z) (i : client) : client :=
  {| conn := conn i; addr := addr i; muted_until := t; is_admin := is_admin i;
     joined := joined i |}.

Definition set_is_admin (b : bool) (i : client) : client :=
  {| conn := conn i; addr := addr i; muted_until := muted_until i; is_admin := b;
     joined := joined i |}.

(** ** Utility functions *)

(** [register_user]: the credential file is [users_db]. *)
Definition register_user (username password : string) : M bool :=
  let* users := gets users_db in
  match users !! username with
  | Some _ => ret false
  | None => modify (set_users_db (insert username password)) >> ret true
  end.

(** [authenticate_user] *)
Definition authenticate_user (username password : string) : M bool :=
  let* users := gets users_db in
  ret (bool_decide (users !! username = Some password)).

Definition send_json (c : nat) (obj : json) : M unit := emit (Send c obj).

Definition save_log (line : list piece) : M unit := emit (Log line).

(** [save_banned] writes the sorted ban list to the ban file. *)
Definition save_banned : M unit :=
  let* b := gets banned in
  emit (SaveBanned (Py.sorted (elements b))).

(** The test [room and user_rooms.get(uname) != room] of [broadcast],
    negated: an absent or empty [room] filters nothing. *)
Definition in_scope (s : server) (room : option string) (uname : string) : bool :=
  match room with
  | Some r =>
      if String.eqb r "" then true
      else bool_decide (user_rooms s !! uname = Some r)
  | None => true
  end.

(** The sessions that [broadcast] sends to. *)
Definition receives (s : server) (exclude : list string) (room : option string)
    (p : string * client) : bool :=
  bool_decide (fst p ∉ exclude) && in_scope s room (fst p).

Definition recipients (s : server) (exclude : list string) (room : option string)
  : list (string * client) :=
  List.filter (receives s exclude room) (map_to_list (clients s)).

Definition send_all (l : list (string * client)) (obj : json) : M unit :=
  λ _ s, (Done tt, s, (λ p, Send (conn p.2) obj) <$> l).

(** [broadcast(obj, exclude, room)] *)
Definition broadcast (obj : json) (exclude : list string) (room : option string) : M unit :=
  let* s := gets id in
  send_all (recipients s exclude room) obj.

Definition userlist (s : server) : json :=
  JDict [("type", JStr "userlist");
         ("users", JList (JStr <$> (map_to_list (clients s)).*1));
         ("rooms", JDict ((λ p, (p.1, JList (JStr <$> elements p.2)))
                            <$> map_to_list (rooms s)));
         ("user_rooms", JDict ((λ p, (p.1, JStr p.2))
                                 <$> map_to_list (user_rooms s)))].

(** [send_userlist] *)
Definition send_userlist : M unit :=
  let* s := gets id in
  send_all (map_to_list (clients s)) (userlist s).

(** ** Client management *)

(** [rooms[room].discard(username)], then [del rooms[room]] when the member
    set has become empty. *)
Definition discard_member (room username : string) (members : gset string)
    (rs : gmap string (gset string)) : gmap string (gset string) :=
  let members' := members ∖ {[username]} in
  if decide (members' = ∅) then delete room rs else <[room := members']> rs.

(** [remove_client(username)] *)
Definition remove_client (username : string) : M unit :=
  let* info := gets (λ s, clients s !! username) in
  modify (set_clients (delete username)) >>
  let* room := gets (λ s, user_rooms s !! username) in
  modify (set_user_rooms (delete username)) >>
  (match room with
   | Some r =>
       let* members := gets (λ s, rooms s !! r) in
       if negb (String.eqb r "") && bool_decide (username ∈ default ∅ members)
       then modify (set_rooms (discard_member r username (default ∅ members)))
       else ret tt
   | None => ret tt
   end) >>
  match info with
  | Some i =>
      emit (Close (conn i)) >>
      let msg := username ++ " left the chat." in
      broadcast (system msg) [] None >>
      let* c := ask in
      save_log [Lit ("[" ++ now_ts c ++ "] LEAVE: " ++ msg)]
  | None => ret tt
  end.

(** [handle_join(conn, addr, username)] *)
Definition handle_join (cn : nat) (ad : string * Z) (username : string) : M bool :=
  let username := Py.strip username in
  if String.eqb username "" then
    send_json cn (system "Empty username rejected.") >>
    emit (Close cn) >> ret false
  else
    let* b := gets banned in
    if bool_decide (username ∈ b) then
      send_json cn (system "You are banned from this server.") >>
      emit (Close cn) >> ret false
    else
      let* cs := gets clients in
      match cs !! username with
      | Some _ =>
          send_json cn (system "Username already in use.") >>
          emit (Close cn) >> ret false
      | None =>
          let* c := ask in
          modify (set_clients (insert username
            {| conn := cn; addr := ad; muted_until := 0; is_admin := false;
               joined := time_time c |})) >>
          let msg := username ++ " joined the chat." in
          broadcast (system msg) [] None >>
          send_userlist >>
          save_log [Lit ("[" ++ now_ts c ++ "] JOIN: " ++ username ++ " from "
                         ++ ad.1 ++ ":" ++ Py.str_int ad.2)] >>
          ret true
      end.

(** ** Command handler *)

(** [admin_required()]: replies to a sender without the admin flag. *)
Definition admin_required (sender_info : client) : M bool :=
  if is_admin sender_info then ret true
  else send_json (conn sender_info) (system "âš ï¸ Admin rights required.") >>
       ret false.

(** The test [cmd0 == name and admin_required()] of the [elif] chain. *)
Definition admin_gate (cmd0 name : string) (sender_info : client) : M bool :=
  if String.eqb cmd0 name then admin_required sender_info else ret false.

(** The float addition [time.time() + seconds]: converting an integer that
    does not fit a double raises. *)
Definition float_add (t n : Z) : M Z :=
  if Z.abs n <? 2 ^ 1024 - 2 ^ 970 then ret (t + n)
  else raise (OverflowError "int too large to convert to float").

Section commands.
Variables (sender : string) (sender_info : client) (cmd ts : string).

Definition cmd_admin : M unit :=
  if bool_decide (Py.split None cmd !! 1%nat = Some ADMIN_PASSWORD) then
    modify (set_clients (alter (set_is_admin true) sender)) >>
    let msg := "ğŸ‘‘ " ++ sender ++ " is now an admin." in
    broadcast (system msg) [] None >>
    save_log [Lit ("[" ++ ts ++ "] ADMIN: " ++ msg)]
  else send_json (conn sender_info) (system "âŒ Invalid admin password.").

Definition cmd_list : M unit :=
  let* cs := gets clients in
  let user_list :=
    if decide (cs = ∅) then "(none)"
    else Py.join ", " (Py.sorted (map_to_list cs).*1) in
  send_json (conn sender_info) (system ("ğŸ‘¥ Online Users: " ++ user_list)).

Definition cmd_whoami : M unit :=
  send_json (conn sender_info) (system ("You are: " ++ sender)).

Definition cmd_create : M unit :=
  match Py.split (Some 2%nat) cmd with
  | _ :: room_name :: rest =>
      let pwd := match rest with p :: _ => p | [] => "" end in
      let* rs := gets rooms in
      if bool_decide (is_Some (rs !! room_name)) then
        send_json (conn sender_info)
          (system ("âŒ Room '" ++ room_name ++ "' already exists."))
      else
        modify (set_rooms (insert room_name {[sender]})) >>
        modify (set_user_rooms (insert sender room_name)) >>
        (if String.eqb pwd "" then ret tt
         else modify (set_room_passwords (insert room_name pwd))) >>
        let msg := "âœ… Created room '" ++ room_name ++ "'"
                   ++ (if String.eqb pwd "" then "" else " (password protected)") in
        send_json (conn sender_info) (system msg) >>
        broadcast (system ("ğŸ“¢ " ++ sender ++ " created room '" ++ room_name ++ "'"))
          [] None >>
        save_log [Lit ("[" ++ ts ++ "] ROOM: " ++ sender ++ " created '"
                       ++ room_name ++ "'")] >>
        send_userlist
  | _ =>
      send_json (conn sender_info) (system "Usage: /create room_name [password]")
  end.

Definition cmd_join : M unit :=
  match Py.split (Some 2%nat) cmd with
  | _ :: room_name :: rest =>
      let pwd := match rest with p :: _ => p | [] => "" end in
      let* pws := gets room_passwords in
      let* rs := gets rooms in
      let* pass :=
        match pws !! room_name with
        | Some stored => ret (String.eqb stored pwd)
        | None =>
            (if negb (String.eqb pwd "") && bool_decide (rs !! room_name = None)
             then modify (set_room_passwords (insert room_name pwd))
             else ret tt) >> ret true
        end in
      if negb pass then
        send_json (conn sender_info) (system "âŒ Incorrect room password.")
      else
        let* prev_room := gets (λ s, user_rooms s !! sender) in
        (match prev_room with
         | Some prev =>
             let* members := gets (λ s, rooms s !! prev) in
             if negb (String.eqb prev "")
                && bool_decide (sender ∈ default ∅ members)
             then
               modify (set_rooms (discard_member prev sender (default ∅ members))) >>
               broadcast (system ("ğŸ“¢ " ++ sender ++ " left room '" ++ prev ++ "'"))
                 [] None
             else ret tt
         | None => ret tt
         end) >>
        modify (set_rooms (λ rs,
          <[room_name := default ∅ (rs !! room_name) ∪ {[sender]}]> rs)) >>
        modify (set_user_rooms (insert sender room_name)) >>
        send_json (conn sender_info)
          (system ("âœ… You joined room '" ++ room_name ++ "'.")) >>
        broadcast (system ("ğŸ“¢ " ++ sender ++ " joined room '" ++ room_name ++ "'."))
          [] (Some room_name) >>
        save_log [Lit ("[" ++ ts ++ "] ROOM: " ++ sender ++ " joined '"
                       ++ room_name ++ "'")] >>
        send_userlist
  | _ =>
      send_json (conn sender_info) (system "Usage: /join room_name [password]")
  end.

Definition cmd_leave : M unit :=
  let* cur := gets (λ s, user_rooms s !! sender) in
  match cur with
  | Some current_room =>
      if String.eqb current_room "" then
        send_json (conn sender_info) (system "You are not in any room.")
      else
        let* members := gets (λ s, rooms s !! current_room) in
        match members with
        | None => raise (KeyError ("'" ++ current_room ++ "'"))
        | Some ms =>
            modify (set_rooms (discard_member current_room sender ms)) >>
            modify (set_user_rooms (delete sender)) >>
            send_json (conn sender_info)
              (system ("âœ… You left room '" ++ current_room ++ "'.")) >>
            broadcast (system ("ğŸ“¢ " ++ sender ++ " left room '" ++ current_room
                               ++ "'.")) [] None >>
            save_log [Lit ("[" ++ ts ++ "] ROOM: " ++ sender ++ " left '"
                           ++ current_room ++ "'")] >>
            send_userlist
        end
  | None => send_json (conn sender_info) (system "You are not in any room.")
  end.

Definition cmd_rooms : M unit :=
  let* rs := gets rooms in
  let room_list :=
    if decide (rs = ∅) then "(none)"
    else Py.join ", " (Py.sorted (map_to_list rs).*1) in
  send_json (conn sender_info) (system ("ğŸ’¬ Available rooms: " ++ room_list)).

Definition cmd_me (parts : list string) : M unit :=
  match parts with
  | _ :: action :: _ =>
      let* current_room := gets (λ s, user_rooms s !! sender) in
      broadcast
        (JDict [("type", JStr "broadcast"); ("from", JStr sender);
                ("message", JStr ("âœ¨ " ++ sender ++ " " ++ action));
                ("timestamp", JStr ts)])
        [sender] current_room >>
      save_log [Lit ("[" ++ ts ++ "] ACTION: " ++ sender ++ " " ++ action)]
  | _ => send_json (conn sender_info) (system "Usage: /me <action>")
  end.

Definition cmd_mute : M unit :=
  match Py.split None cmd with
  | _ :: target :: seconds_str :: _ =>
      match Py.int seconds_str with
      | None => send_json (conn sender_info) (system "âŒ Invalid seconds value")
      | Some seconds =>
          let* target_info := gets (λ s, clients s !! target) in
          match target_info with
          | Some ti =>
              let* c := ask in
              let* until := float_add (time_time c) seconds in
              modify (set_clients (alter (set_muted_until until) target)) >>
              send_json (conn ti)
                (system ("ğŸ”‡ You are muted for " ++ Py.str_int seconds
                         ++ " seconds.")) >>
              let msg := "ğŸ”‡ " ++ target ++ " was muted by " ++ sender ++ " for "
                         ++ Py.str_int seconds ++ "s." in
              broadcast (system msg) [] None >>
              save_log [Lit ("[" ++ ts ++ "] MUTE: " ++ msg)]
          | None =>
              send_json (conn sender_info)
                (system ("âŒ User '" ++ target ++ "' not found."))
          end
      end
  | _ => send_json (conn sender_info) (system "Usage: /mute username seconds")
  end.

Definition cmd_unmute : M unit :=
  match Py.split None cmd with
  | _ :: target :: _ =>
      let* target_info := gets (λ s, clients s !! target) in
      match target_info with
      | Some ti =>
          modify (set_clients (alter (set_muted_until 0) target)) >>
          send_json (conn ti) (system "ğŸ”Š You are no longer muted.") >>
          let msg := "ğŸ”Š " ++ target ++ " was unmuted by " ++ sender ++ "." in
          broadcast (system msg) [] None >>
          save_log [Lit ("[" ++ ts ++ "] UNMUTE: " ++ msg)]
      | None =>
          send_json (conn sender_info)
            (system ("âŒ User '" ++ target ++ "' not found."))
      end
  | _ => send_json (conn sender_info) (system "Usage: /unmute username")
  end.

Definition cmd_kick : M unit :=
  match Py.split None cmd with
  | _ :: target :: _ =>
      let* target_info := gets (λ s, clients s !! target) in
      match target_info with
      | Some ti =>
          send_json (conn ti) (system "âš ï¸ You were kicked by an admin.") >>
          remove_client target >>
          let msg := "ğŸ‘¢ " ++ target ++ " was kicked by " ++ sender ++ "." in
          broadcast (system msg) [] None >>
          save_log [Lit ("[" ++ ts ++ "] KICK: " ++ msg)]
      | None =>
          send_json (conn sender_info)
            (system ("âŒ User '" ++ target ++ "' not found."))
      end
  | _ => send_json (conn sender_info) (system "Usage: /kick username")
  end.

Definition cmd_ban : M unit :=
  match Py.split None cmd with
  | _ :: target :: _ =>
      modify (set_banned (λ b, b ∪ {[target]})) >>
      save_banned >>
      let msg := "ğŸš« " ++ target ++ " was banned by " ++ sender ++ "." in
      broadcast (system msg) [] None >>
      save_log [Lit ("[" ++ ts ++ "] BAN: " ++ msg)] >>
      remove_client target
  | _ => send_json (conn sender_info) (system "Usage: /ban username")
  end.

Definition cmd_unban : M unit :=
  match Py.split None cmd with
  | _ :: target :: _ =>
      let* b := gets banned in
      if bool_decide (target ∈ b) then
        modify (set_banned (λ b, b ∖ {[target]})) >>
        save_banned >>
        let msg := "âœ… " ++ target ++ " was unbanned by " ++ sender ++ "." in
        broadcast (system msg) [] None >>
        save_log [Lit ("[" ++ ts ++ "] UNBAN: " ++ msg)]
      else
        send_json (conn sender_info)
          (system ("âŒ User '" ++ target ++ "' is not banned."))
  | _ => send_json (conn sender_info) (system "Usage: /unban username")
  end.

Definition cmd_listbans : M unit :=
  let* b := gets banned in
  let joined_names := Py.join ", " (Py.sorted (elements b)) in
  send_json (conn sender_info)
    (system ("Banned users: "
             ++ (if String.eqb joined_names "" then "(none)" else joined_names))).

Definition cmd_announce (parts : list string) : M unit :=
  match parts with
  | _ :: announcement :: _ =>
      let msg := "ğŸ“¢ [ANNOUNCEMENT] " ++ announcement in
      broadcast (system msg) [] None >>
      save_log [Lit ("[" ++ ts ++ "] ANNOUNCE: " ++ msg)]
  | _ => send_json (conn sender_info) (system "Usage: /announce <message>")
  end.

Definition cmd_help : M unit :=
  send_json (conn sender_info)
    (system (help_basic ++ (if is_admin sender_info then help_admin else ""))).

Definition cmd_unknown : M unit :=
  send_json (conn sender_info) (system "âŒ Unknown command. Use /help for help.").

(** The [if]/[elif] chain on [cmd0]. *)
Definition dispatch_command (cmd0 : string) (parts : list string) : M unit :=
  if String.eqb cmd0 "/admin" then cmd_admin
  else if String.eqb cmd0 "/list" || String.eqb cmd0 "/users" then cmd_list
  else if String.eqb cmd0 "/whoami" then cmd_whoami
  else if String.eqb cmd0 "/create" then cmd_create
  else if String.eqb cmd0 "/join" then cmd_join
  else if String.eqb cmd0 "/leave" then cmd_leave
  else if String.eqb cmd0 "/rooms" then cmd_rooms
  else if String.eqb cmd0 "/me" then cmd_me parts
  else
    let* g := admin_gate cmd0 "/mute" sender_info in
    if g then cmd_mute else
    let* g := admin_gate cmd0 "/unmute" sender_info in
    if g then cmd_unmute else
    let* g := admin_gate cmd0 "/kick" sender_info in
    if g then cmd_kick else
    let* g := admin_gate cmd0 "/ban" sender_info in
    if g then cmd_ban else
    let* g := admin_gate cmd0 "/unban" sender_info in
    if g then cmd_unban else
    let* g := admin_gate cmd0 "/listbans" sender_info in
    if g then cmd_listbans else
    let* g := admin_gate cmd0 "/announce" sender_info in
    if g then cmd_announce parts else
    if String.eqb cmd0 "/help" || String.eqb cmd0 "/?" then cmd_help
    else cmd_unknown.

End commands.

(** [handle_command(sender, cmd)] for a command that is a string. *)
Definition handle_command_str (sender cmd : string) : M unit :=
  match Py.split (Some 1%nat) cmd with
  | [] => ret tt
  | p0 :: rest =>
      let cmd0 := Py.lower p0 in
      let* info := gets (λ s, clients s !! sender) in
      match info with
      | None => ret tt
      | Some sender_info =>
          let* c := ask in
          try_except
            (dispatch_command sender sender_info cmd (now_ts c) cmd0 (p0 :: rest))
            (λ e, send_json (conn sender_info)
                    (system ("âŒ Command error: " ++ exn_str e)))
      end
  end.

(** [handle_command(sender, cmd)]: [cmd] is the [command] field of the
    request, any JSON value; [cmd.split] exists on strings only. *)
Definition handle_command (sender : string) (cmd : json) : M unit :=
  match cmd with
  | JStr s => handle_command_str sender s
  | _ =>
      if truthy cmd
      then raise (AttributeError
                    ("'" ++ type_name cmd ++ "' object has no attribute 'split'"))
      else ret tt
  end.

(** ** Client handler *)

(** [obj.get(k, dflt)]: only a JSON object has the method. *)
Definition get (obj : json) (k : string) (dflt : json) : M json :=
  match obj with
  | JDict d => ret (default dflt (assoc_get d k))
  | _ => raise (AttributeError
                  ("'" ++ type_name obj ++ "' object has no attribute 'get'"))
  end.

(** [v.strip()]: only a string has the method. *)
Definition strip_value (v : json) : M string :=
  match v with
  | JStr s => ret (Py.strip s)
  | _ => raise (AttributeError
                  ("'" ++ type_name v ++ "' object has no attribute 'strip'"))
  end.

(** The hashable JSON values, which can be looked up in a dictionary. *)
Inductive key : Type :=
| KNone
| KBool (b : bool)
| KInt (n : Z)
| KStr (s : string).

Definition key_of (v : json) : option key :=
  match v with
  | JNull => Some KNone
  | JBool b => Some (KBool b)
  | JNum n => Some (KInt n)
  | JStr s => Some (KStr s)
  | JList _ | JDict _ => None
  end.

(** Hashing a list or an object raises. *)
Definition hashable (v : json) : M key :=
  match key_of v with
  | Some k => ret k
  | None => raise (TypeError ("unhashable type: '" ++ type_name v ++ "'"))
  end.

(** [str(k)] *)
Definition key_str (k : key) : string :=
  match k with
  | KNone => "None"
  | KBool true => "True"
  | KBool false => "False"
  | KInt n => Py.str_int n
  | KStr s => s
  end.

(** The keys of [clients] are strings: no other key is found. *)
Definition registered (s : server) (k : key) : option client :=
  match k with
  | KStr name => clients s !! name
  | _ => None
  end.

(** [clients.get(v)] *)
Definition clients_get (v : json) : M (option client) :=
  let* k := hashable v in
  gets (λ st, registered st k).

Definition is_str (v : json) (s : string) : bool :=
  match v with JStr t => String.eqb t s | _ => false end.

Definition close (cn : nat) : M unit := emit (Close cn).

(** What the first read of a connection yields: no complete line (end of
    stream, or the 30 second timeout), a line that is not JSON, or a decoded
    frame. *)
Inductive first_frame : Type :=
| NoFrame
| Undecodable
| Frame (obj : json).

(** [handle_client] from the assignment of [password] to the welcome
    message; [true] when the session enters the main loop. *)
Definition login (cn : nat) (ad : string * Z) (obj : json) (username : string) : M bool :=
  let* pw := get obj "password" (JStr "") in
  let* password := strip_value pw in
  let* is_register := get obj "register" (JBool false) in
  if String.eqb username "" then
    send_json cn (system "âŒ Username cannot be empty.") >> close cn >> ret false
  else if (String.length username <? 3)%nat then
    send_json cn (system "âŒ Username must be at least 3 characters.") >>
    close cn >> ret false
  else if String.eqb password "" then
    send_json cn (system "âŒ Password cannot be empty.") >> close cn >> ret false
  else if (String.length password <? 4)%nat then
    send_json cn (system "âŒ Password must be at least 4 characters.") >>
    close cn >> ret false
  else if truthy is_register then
    let* created := register_user username password in
    (if created
     then send_json cn (system ("âœ… Account '" ++ username
                                ++ "' created successfully! Please login."))
     else send_json cn (system ("âŒ Username '" ++ username
                                ++ "' already exists. Please choose another."))) >>
    close cn >> ret false
  else
    let* ok := authenticate_user username password in
    if negb ok then
      send_json cn (system "âŒ Invalid username or password. Please try again.") >>
      close cn >> ret false
    else
      send_json cn (system "âœ… Authentication successful!") >>
      let* joined_ok := handle_join cn ad username in
      if negb joined_ok then ret false
      else
        send_json cn (system ("ğŸ‰ Welcome to PyDiscordish, " ++ username
                              ++ "! Type /help for commands.")) >>
        ret true.

(** The [finally] clause of [handle_client]. *)
Definition finally_remove (username : string) : M unit :=
  if String.eqb username "" then ret tt else remove_client username.

(** [handle_client] up to the main loop.  The result is the username of the
    session that enters the main loop, or [None] when the handler has
    returned; every exception is swallowed by the outer [except] clauses,
    and the [finally] clause runs once [username] is bound. *)
Definition handle_client_auth (cn : nat) (ad : string * Z) (first : first_frame)
  : M (option string) :=
  match first with
  | NoFrame => ret None
  | Undecodable =>
      send_json cn (system "âŒ Invalid message format.") >> close cn >> ret None
  | Frame obj =>
      try_except
        (let* ty := get obj "type" JNull in
         if negb (is_str ty "auth") then
           send_json cn (system "âŒ Expected authentication message.") >>
           close cn >> ret None
         else
           let* u := get obj "username" (JStr "") in
           let* username := strip_value u in
           let* entered := try_except (login cn ad obj username) (λ _, ret false) in
           if entered then ret (Some username)
           else finally_remove username >> ret None)
        (λ _, ret None)
  end.

Inductive loop_ctl : Type := Next | Break.

Section requests.
Variables (username : string) (cn : nat).

(** The [try] block of the main loop: dispatch on the request type. *)
Definition dispatch_request (data mtype : json) (ts : string) : M unit :=
  if is_str mtype "broadcast" then
    let* msg := get data "message" (JStr "") in
    let* room := gets (λ s, user_rooms s !! username) in
    broadcast
      (JDict [("type", JStr "broadcast"); ("from", JStr username);
              ("message", msg); ("timestamp", JStr ts)])
      [username] room >>
    save_log [Lit ("[" ++ ts ++ "] " ++ username ++ " (room:");
              Val (from_option JStr JNull room); Lit "): "; Val msg]
  else if is_str mtype "private" then
    let* to := get data "to" JNull in
    let* msg := get data "message" (JStr "") in
    let* k := hashable to in
    let* recipient := gets (λ st, registered st k) in
    match recipient with
    | Some r =>
        let pm := JDict [("type", JStr "private"); ("from", JStr username);
                         ("message", msg); ("timestamp", JStr ts)] in
        send_json (conn r) pm >>
        send_json cn pm >>
        save_log [Lit ("[" ++ ts ++ "] " ++ username ++ " -> "); Val to;
                  Lit ": "; Val msg]
    | None =>
        send_json cn (system ("âŒ User '" ++ key_str k ++ "' not found."))
    end
  else if is_str mtype "command" then
    let* cmd := get data "command" (JStr "") in
    handle_command username cmd
  else if is_str mtype "typing" then
    let* status := get data "status" (JBool false) in
    broadcast
      (JDict [("type", JStr "typing"); ("user", JStr username);
              ("status", status)])
      [username] None
  else if is_str mtype "file" then
    let* filename := get data "filename" (JStr "unknown") in
    let* size := get data "size" (JNum 0) in
    let* to_target := get data "to" (JStr "All") in
    save_log [Lit ("[" ++ ts ++ "] FILE: " ++ username ++ " sent "); Val filename;
              Lit " ("; Val size; Lit "B) to "; Val to_target] >>
    if is_str to_target "All" then
      let* room := gets (λ s, user_rooms s !! username) in
      broadcast data [username] room
    else
      let* recipient := clients_get to_target in
      match recipient with
      | Some r => send_json (conn r) data
      | None => ret tt
      end
  else ret tt.

(** The body of the [for] loop for one decoded line.  [t_unmute] is the
    clock read by the auto-unmute test; the mute test reads the clock
    again, as [time_time]. *)
Definition process_line (t_unmute : Z) (data : json) : M loop_ctl :=
  let* info := gets (λ s, clients s !! username) in
  match info with
  | None => ret Break
  | Some i =>
      let expired := muted_until i <? t_unmute in
      (if expired
       then modify (set_clients (alter (set_muted_until 0) username))
       else ret tt) >>
      let mu := if expired then 0 else muted_until i in
      let* c := ask in
      let* suppressed :=
        (if time_time c <? mu then
           let* ty := get data "type" JNull in
           ret (is_str ty "broadcast" || is_str ty "private")
         else ret false) in
      if suppressed then
        send_json cn (system "ğŸ”‡ You are muted.") >> ret Next
      else
        let* mtype := get data "type" JNull in
        try_except (dispatch_request data mtype (now_ts c)) (λ _, ret tt) >>
        ret Next
  end.

(** The [for] loop over the complete lines of one chunk; [None] is a blank
    line or one that does not decode, which is skipped. *)
Fixpoint process_lines (t_unmute : Z) (lines : list (option json)) : M unit :=
  match lines with
  | [] => ret tt
  | None :: rest => process_lines t_unmute rest
  | Some data :: rest =>
      let* ctl := process_line t_unmute data in
      match ctl with
      | Next => process_lines t_unmute rest
      | Break => ret tt
      end
  end.

End requests.

Inductive session : Type := Active | Closed.

(** One round of the main loop: [None] when [recv] returns no data or fails,
    otherwise the lines received.  An exception that leaves the [for] loop
    ends the handler; the [finally] clause then removes the session. *)
Definition handle_chunk (username : string) (cn : nat) (t_unmute : Z)
    (chunk : option (list (option json))) : M session :=
  match chunk with
  | None => finally_remove username >> ret Closed
  | Some lines =>
      try_except
        (process_lines username cn t_unmute lines >> ret Active)
        (λ _, finally_remove username >> ret Closed)
  end.

(** ** The client's upload path ([client.py]) *)

Module Client.

Inductive ui_event : Type :=
| ShowError (title text : string)
| NetSend (obj : json)
| AppendMessage (text : string).

Record chosen_file : Type := {
  filename : string;
  size : Z;
  b64 : string
}.

(** [upload_file]: [file] is the file picked in the dialog ([None] when the
    dialog is cancelled), with its size on disk and its base64 encoding. *)
Definition upload_file (file : option chosen_file) (current_target : option string)
    (connected : bool) : list ui_event :=
  match file with
  | None => []
  | Some f =>
      if MAX_FILE_SIZE <? size f then
        [ShowError "File Too Large"
           ("File must be smaller than " ++ Py.str_int (MAX_FILE_SIZE `div` 1024)
            ++ " KB")]
      else
        let target :=
          match current_target with
          | Some t => if String.eqb t "" then "All" else t
          | None => "All"
          end in
        if connected then
          [NetSend (JDict [("type", JStr "file"); ("to", JStr target);
                           ("filename", JStr (filename f)); ("data", JStr (b64 f));
                           ("size", JNum (size f))]);
           AppendMessage ("üìé Uploaded: " ++ filename f ++ " ("
                          ++ Py.str_int (size f) ++ " bytes)")]
        else [ShowError "Error" "Not connected to server"]
  end.

End Client.

(** * Properties *)

(** ** Example registry

    Two sessions, alice on connection 1 and bob on connection 2, with their
    credentials on file; mallory and eve are banned, and eve has no account. *)

Definition ex_client (cn : nat) : client :=
  {| conn := cn; addr := ("10.0.0.1", 5000); muted_until := 0;
     is_admin := false; joined := 0 |}.

Definition ex_server : server :=
  {| clients := <["alice" := ex_client 1]> (<["bob" := ex_client 2]> ∅);
     banned := {["mallory"]} ∪ {["eve"]};
     rooms := ∅;
     user_rooms := ∅;
     room_passwords := ∅;
     users_db := <["alice" := "secret1"]> (<["bob" := "hunter2"]>
                   (<["mallory" := "pass1"]> ∅)) |}.

Definition ex_clock : clock :=
  {| time_time := 100; now_ts := "2024-01-01 00:00:00" |}.

Definition ex_auth (u p : string) (reg : bool) : first_frame :=
  Frame (JDict [("type", JStr "auth"); ("username", JStr u);
                ("password", JStr p); ("register", JBool reg)]).

(** The registry after alice has become an admin. *)
Definition ex_server_admin : server :=
  set_clients (alter (set_is_admin true) "alice") ex_server.

(** ** Vocabulary of the specification *)

(** The commands of the [elif] chain, and those behind [admin_required]. *)
Definition known_commands : list string :=
  ["/admin"; "/list"; "/users"; "/whoami"; "/create"; "/join"; "/leave"; "/rooms";
   "/me"; "/mute"; "/unmute"; "/kick"; "/ban"; "/unban"; "/listbans"; "/announce";
   "/help"; "/?"].

Definition admin_commands : list string :=
  ["/mute"; "/unmute"; "/kick"; "/ban"; "/unban"; "/listbans"; "/announce"].

Definition admin_required_text : string := "âš ï¸ Admin rights required.".
Definition unknown_command_text : string := "âŒ Unknown command. Use /help for help.".
Definition muted_text : string := "ğŸ”‡ You are muted.".

(** The outcome of the checks on a first frame. *)
Inductive verdict : Type :=
| EmptyUsername
| ShortUsername
| EmptyPassword
| ShortPassword
| AccountCreated
| AccountExists
| BadCredentials
| BannedUser
| NameInUse
| Accepted.

(** The order in which [handle_client] and [handle_join] apply the checks to
    the stripped username and password of an [auth] frame: the two username
    checks, the two password checks, then registration or the credential
    check, and after a successful credential check the ban list and the
    registry of active sessions. *)
Definition checks_in_order (s : server) (username password : string)
    (register : bool) : verdict :=
  if String.eqb username "" then EmptyUsername
  else if (String.length username <? 3)%nat then ShortUsername
  else if String.eqb password "" then EmptyPassword
  else if (String.length password <? 4)%nat then ShortPassword
  else if register then
    if bool_decide (is_Some (users_db s !! username)) then AccountExists
    else AccountCreated
  else if negb (bool_decide (users_db s !! username = Some password)) then BadCredentials
  else if bool_decide (username ∈ banned s) then BannedUser
  else if bool_decide (is_Some (clients s !! username)) then NameInUse
  else Accepted.

(** The registry once the checks are done: a new account, or a new session. *)
Definition after_login (s : server) (v : verdict) (username password : string)
    (cn : nat) (ad : string * Z) (c : clock) : server :=
  match v with
  | AccountCreated => set_users_db (insert username password) s
  | Accepted =>
      set_clients (insert username
        {| conn := cn; addr := ad; muted_until := 0; is_admin := false;
           joined := time_time c |}) s
  | _ => s
  end.

(** The texts sent to the connection, in order, for each verdict. *)
Definition replies (v : verdict) (username : string) : list string :=
  match v with
  | EmptyUsername => ["âŒ Username cannot be empty."]
  | ShortUsername => ["âŒ Username must be at least 3 characters."]
  | EmptyPassword => ["âŒ Password cannot be empty."]
  | ShortPassword => ["âŒ Password must be at least 4 characters."]
  | AccountCreated =>
      ["âœ… Account '" ++ username ++ "' created successfully! Please login."]
  | AccountExists =>
      ["âŒ Username '" ++ username ++ "' already exists. Please choose another."]
  | BadCredentials => ["âŒ Invalid username or password. Please try again."]
  | BannedUser => ["âœ… Authentication successful!"; "You are banned from this server."]
  | NameInUse => ["âœ… Authentication successful!"; "Username already in use."]
  | Accepted => ["âœ… Authentication successful!"]
  end.

(** The room maps agree: [u] is a member of room [r] exactly when the
    current-room pointer of [u] is [r]. *)
Definition rooms_consistent (s : server) : Prop :=
  ∀ r u, (∃ members, rooms s !! r = Some members ∧ u ∈ members)
         ↔ user_rooms s !! u = Some r.

(** Every current-room pointer leads to a room that lists the user. *)
Definition pointers_valid (s : server) : Prop :=
  ∀ r u, user_rooms s !! u = Some r →
         ∃ members, rooms s !! r = Some members ∧ u ∈ members.

(** No member set is empty and no room is named by the empty string. *)
Definition rooms_nonempty (s : server) : Prop :=
  ∀ r members, rooms s !! r = Some members → members ≠ ∅.

(** The state after the auto-unmute test of the main loop. *)
Definition after_unmute (username : string) (t_unmute : Z) (s : server) : server :=
  match clients s !! username with
  | Some i =>
      if muted_until i <? t_unmute
      then set_clients (alter (set_muted_until 0) username) s
      else s
  | None => s
  end.

(** A file request of the wire protocol. *)
Definition file_request (to filename data : string) (size : Z) : json :=
  JDict [("type", JStr "file"); ("to", JStr to); ("filename", JStr filename);
         ("data", JStr data); ("size", JNum size)].

(** The [try] block of the main loop around a dispatch: [except Exception]
    with a handler that sends nothing. *)
Definition guarded (m : M unit) : M unit := try_except m (λ _, ret tt).

(** The mute test of the main loop, after the auto-unmute test: the expiry
    still lies ahead of the clock and the request is a broadcast or a private
    message. *)
Definition suppressed (i : client) (t_unmute : Z) (c : clock) (ty : json) : bool :=
  let mu := if muted_until i <? t_unmute then 0 else muted_until i in
  (time_time c <? mu) && (is_str ty "broadcast" || is_str ty "private").

(** Room [r] is gone from the room map while a password is still stored
    under its name. *)
Definition stale_password (s : server) (r p : string) : Prop :=
  rooms s !! r = None ∧ room_passwords s !! r = Some p.

(** The password argument of [/create] and [/join]: the third piece of
    [cmd.split(maxsplit=2)], or the empty string. *)
Definition password_arg (rest : list string) : string :=
  match rest with p :: _ => p | [] => "" end.

(** The example registry after alice has created the room gaming with the
    password pw123. *)
Definition ex_server_room : server :=
  state_of (handle_command "alice" (JStr "/create gaming pw123") ex_clock ex_server).

(** No current-room pointer is the empty string. *)
Definition names_nonempty (s : server) : Prop :=
  ∀ u r, user_rooms s !! u = Some r → r ≠ "".

(** [u] is listed as a member of room [r]. *)
Definition member (rs : gmap string (gset string)) (r u : string) : Prop :=
  ∃ members, rs !! r = Some members ∧ u ∈ members.

(** ** Further example registries *)


(** ** Footprints *)

(** What a step leaves alone for everybody but [sender]: the ban set, the
    credential file and the session records of all other users. *)
Definition others_untouched (sender : string) (s s' : server) : Prop :=
  banned s' = banned s ∧ users_db s' = users_db s ∧
  ∀ v, v ≠ sender → clients s' !! v = clients s !! v.

(** No connection is closed. *)
Definition no_close (evs : list event) : Prop :=
  Forall (λ e, match e with Close _ => False | _ => True end) evs.

(** No member set of a room map is empty. *)
Definition nonempty_sets (rs : gmap string (gset string)) : Prop :=
  ∀ r members, rs !! r = Some members → members ≠ ∅.

(** The texts of the moderation commands. *)
Definition kicked_notice : string := "âš ï¸ You were kicked by an admin.".

Definition kick_announcement (target sender : string) : string :=
  "ğŸ‘¢ " ++ target ++ " was kicked by " ++ sender ++ ".".

Definition ban_announcement (target sender : string) : string :=
  "ğŸš« " ++ target ++ " was banned by " ++ sender ++ ".".

Definition unban_announcement (target sender : string) : string :=
  "âœ… " ++ target ++ " was unbanned by " ++ sender ++ ".".

Definition not_found_text (target : string) : string :=
  "âŒ User '" ++ target ++ "' not found.".

Definition not_banned_text (target : string) : string :=
  "âŒ User '" ++ target ++ "' is not banned.".

Definition invalid_admin_password_text : string := "âŒ Invalid admin password.".

Definition admin_announcement (sender : string) : string :=
  "ğŸ‘‘ " ++ sender ++ " is now an admin.".

(** Every admin flag of [m'] was already set in [m]. *)
Definition admin_flags_kept (m m' : gmap string client) : Prop :=
  ∀ v i', m' !! v = Some i' → is_admin i' = true →
          ∃ i, m !! v = Some i ∧ is_admin i = true.

(** ** Text files and line framing *)

Definition is_lf (c : ascii) : bool := Ascii.eqb c (ascii_of_nat 10).
Definition is_cr (c : ascii) : bool := Ascii.eqb c (ascii_of_nat 13).

Definition crlf : string := String (ascii_of_nat 13) nl.

(** What a text file holds after [f.write(text)]: each LF becomes the line
    separator of the platform, [linesep]. *)
Fixpoint written (linesep text : string) : string :=
  match text with
  | EmptyString => EmptyString
  | String c t =>
      if is_lf c then linesep ++ written linesep t
      else String c (written linesep t)
  end.

(** The lines that [for x in f] yields for a text file: a line ends at LF,
    CR or CR LF, each read as LF, and keeps that LF; a last line without an
    end is yielded as it is. *)
Fixpoint file_lines (content : string) : list string :=
  match content with
  | EmptyString => []
  | String c t =>
      if is_lf c then nl :: file_lines t
      else if is_cr c then
        nl :: match t with
              | String c' t' => if is_lf c' then file_lines t' else file_lines t
              | EmptyString => []
              end
      else match file_lines t with
           | l :: ls => String c l :: ls
           | [] => [String c EmptyString]
           end
  end.

(** The content that [save_banned] leaves in the ban file: the names in
    sorted order, each followed by LF. *)
Definition ban_file (linesep : string) (b : gset string) : string :=
  written linesep (foldr (λ u acc, u ++ nl ++ acc) "" (Py.sorted (elements b))).

(** [load_banned]: [file] is the content of the ban file, [None] when the
    file does not exist; [b] is the ban set before the call.  The content is
    taken to decode as UTF-8. *)
Definition load_banned (file : option string) (b : gset string) : gset string :=
  match file with
  | Some content =>
      list_to_set
        (Py.strip <$> List.filter (λ x, negb (String.eqb (Py.strip x) ""))
                        (file_lines content))
  | None => b
  end.

(** No character of [s] is LF or CR. *)
Fixpoint no_line_break (s : string) : bool :=
  match s with
  | EmptyString => true
  | String c t => negb (is_lf c) && negb (is_cr c) && no_line_break t
  end.

(** [s.split('\n')] *)
Fixpoint split_lines (s : string) : list string :=
  match s with
  | EmptyString => [EmptyString]
  | String c t =>
      if is_lf c then EmptyString :: split_lines t
      else match split_lines t with
           | l :: ls => String c l :: ls
           | [] => [String c EmptyString]
           end
  end.

(** The framing step of the main loop of [handle_client]: the decoded chunk
    is appended to the buffer, the pieces before the last LF are the lines
    to process and the text after it stays in the buffer. *)
Definition frame (buffer chunk : string) : list string * string :=
  let lines_to_process := split_lines (buffer ++ chunk) in
  (removelast lines_to_process, List.last lines_to_process EmptyString).

(** [buffer.split('\n', 1)], for a buffer that holds an LF. *)
Fixpoint cut_line (buffer : string) : option (string * string) :=
  match buffer with
  | EmptyString => None
  | String c t =>
      if is_lf c then Some (EmptyString, t)
      else match cut_line t with
           | Some (line, rest) => Some (String c line, rest)
           | None => None
           end
  end.

(** The loop [while '\n' in buffer] of the client's [reader_thread], run for
    at most [fuel] rounds: the lines cut off and the buffer that is left. *)
Fixpoint reader_lines (fuel : nat) (buffer : string) : list string * string :=
  match fuel with
  | O => ([], buffer)
  | S fuel' =>
      match cut_line buffer with
      | Some (line, rest) =>
          let (lines, buffer') := reader_lines fuel' rest in (line :: lines, buffer')
      | None => ([], buffer)
      end
  end.

(** ['\n' in s] *)
Fixpoint has_lf (s : string) : bool :=
  match s with
  | EmptyString => false
  | String c t => is_lf c || has_lf t
  end.

(** ** Running a handler *)

Lemma run_bind {A B} (m : M A) (k : A → M B) c s :
  bind m k c s =
    match m c s with
    | (Done a, s1, o1) =>
        match k a c s1 with (r, s2, o2) => (r, s2, (o1 ++ o2)%list) end
    | (Raised e, s1, o1) => (Raised e, s1, o1)
    end.
Proof. reflexivity. Qed.

Lemma run_bind_done {A B} (m : M A) (k : A → M B) c s a s1 o1 :
  m c s = (Done a, s1, o1) →
  bind m k c s =
    (result_of (k a c s1), state_of (k a c s1), (o1 ++ events_of (k a c s1))%list).
Proof.
  intros Hm. unfold bind, result_of, state_of, events_of. rewrite Hm.
  by destruct (k a c s1) as [[r s2] o2].
Qed.

Lemma run_bind_raised {A B} (m : M A) (k : A → M B) c s e s1 o1 :
  m c s = (Raised e, s1, o1) → bind m k c s = (Raised e, s1, o1).
Proof. intros Hm. unfold bind. by rewrite Hm. Qed.

Ltac unfold_monad :=
  unfold bind, ret, raise, try_except, gets, modify, emit, ask, send_json, save_log,
    close, broadcast, send_all, send_userlist in *.

(** [remove_client] never raises. *)
Lemma remove_client_run username c s :
  remove_client username c s
  = (Done tt, state_of (remove_client username c s),
     events_of (remove_client username c s)).
Proof.
  unfold remove_client, state_of, events_of. unfold_monad. cbn.
  destruct (user_rooms s !! username) as [r|]; cbn;
    [destruct (negb (String.eqb r "") && _); cbn |];
    destruct (clients s !! username); reflexivity.
Qed.

(** [remove_client] leaves the ban set, the stored room passwords and the
    credential file alone. *)
Lemma remove_client_frame username c s :
  let s' := state_of (remove_client username c s) in
  banned s' = banned s ∧ room_passwords s' = room_passwords s ∧
  users_db s' = users_db s.
Proof.
  unfold remove_client, state_of. unfold_monad. cbn.
  destruct (user_rooms s !! username) as [r|]; cbn;
    [destruct (negb (String.eqb r "") && _); cbn |];
    destruct (clients s !! username); done.
Qed.

(** ** Rejected logins *)

(** C1. A third connection that tries to log in as alice while alice is
    active is answered and closed, both with a wrong password and with the
    right one (duplicate username); in both cases the [finally] clause then
    removes alice's active session from the registry, closes her connection 1
    and announces that she left. *)
Theorem rejected_login_removes_active_session :
  let wrong := handle_client_auth 3 ("10.0.0.9", 6000)
                 (ex_auth "alice" "wrong" false) ex_clock ex_server in
  let dup := handle_client_auth 3 ("10.0.0.9", 6000)
               (ex_auth "alice" "secret1" false) ex_clock ex_server in
  clients ex_server !! "alice" = Some (ex_client 1) ∧
  result_of wrong = Done None ∧
  clients (state_of wrong) !! "alice" = None ∧
  events_of wrong =
    [Send 3 (system "âŒ Invalid username or password. Please try again.");
     Close 3;
     Close 1;
     Send 2 (system "alice left the chat.");
     Log [Lit "[2024-01-01 00:00:00] LEAVE: alice left the chat."]] ∧
  result_of dup = Done None ∧
  clients (state_of dup) !! "alice" = None ∧
  events_of dup =
    [Send 3 (system "âœ… Authentication successful!");
     Send 3 (system "Username already in use.");
     Close 3;
     Close 1;
     Send 2 (system "alice left the chat.");
     Log [Lit "[2024-01-01 00:00:00] LEAVE: alice left the chat."]].
Proof. vm_compute. repeat split; reflexivity. Qed.

(** ** Commands *)

Lemma eqb_false_of_not_elem (x y : string) (l : list string) :
  x ∉ l → y ∈ l → String.eqb x y = false.
Proof. intros Hx Hy. apply String.eqb_neq. intros ->. by apply Hx. Qed.

(** An unrecognized command name runs to the last [else] of the chain: one
    reply, no state change. *)
Lemma dispatch_unknown sender info cmd ts cmd0 parts c s :
  cmd0 ∉ known_commands →
  dispatch_command sender info cmd ts cmd0 parts c s
  = (Done tt, s, [Send (conn info) (system unknown_command_text)]).
Proof.
  intros Hun. unfold dispatch_command, admin_gate.
  rewrite !(eqb_false_of_not_elem cmd0 _ known_commands Hun)
    by (unfold known_commands;
        repeat first [apply list_elem_of_here | apply list_elem_of_further]).
  reflexivity.
Qed.

(** Without the admin flag, a gated command name fails its own test after
    [admin_required] has replied, no later test of the chain matches, and the
    last [else] replies as well. *)
Lemma dispatch_gated_without_flag sender info cmd ts cmd0 parts c s :
  cmd0 ∈ admin_commands →
  is_admin info = false →
  dispatch_command sender info cmd ts cmd0 parts c s
  = (Done tt, s, [Send (conn info) (system admin_required_text);
                  Send (conn info) (system unknown_command_text)]).
Proof.
  intros Hin Hadm. unfold admin_commands in Hin.
  repeat (apply elem_of_cons in Hin as [-> | Hin]);
    [.. | by apply elem_of_nil in Hin];
    unfold dispatch_command, admin_gate, admin_required, bind; cbn;
    rewrite Hadm; reflexivity.
Qed.

Lemma handle_command_str_dispatch sender cmd p0 rest info c s :
  Py.split (Some 1%nat) cmd = p0 :: rest →
  clients s !! sender = Some info →
  handle_command_str sender cmd c s
  = try_except
      (dispatch_command sender info cmd (now_ts c) (Py.lower p0) (p0 :: rest))
      (λ e, send_json (conn info) (system ("âŒ Command error: " ++ exn_str e))) c s.
Proof.
  intros Hsplit Hinfo. unfold handle_command_str. rewrite Hsplit.
  unfold bind, gets, ask. cbn. rewrite Hinfo. cbn.
  destruct (try_except _ _ c s) as [[r s2] o2]. reflexivity.
Qed.

(** The part of C7 that holds: an unrecognized command is answered with the
    generic error alone and changes nothing. *)
Lemma unknown_command_reply sender cmd p0 rest info c s :
  Py.split (Some 1%nat) cmd = p0 :: rest →
  clients s !! sender = Some info →
  Py.lower p0 ∉ known_commands →
  handle_command sender (JStr cmd) c s
  = (Done tt, s, [Send (conn info) (system unknown_command_text)]).
Proof.
  intros Hsplit Hinfo Hun. cbn.
  rewrite (handle_command_str_dispatch _ _ _ _ _ _ _ Hsplit Hinfo).
  unfold try_except. by rewrite dispatch_unknown.
Qed.

(** What a sender without the admin flag gets for any gated command: the
    admin-required error followed by the generic one, and no state change. *)
Lemma gated_command_reply sender cmd p0 rest info c s :
  Py.split (Some 1%nat) cmd = p0 :: rest →
  clients s !! sender = Some info →
  Py.lower p0 ∈ admin_commands →
  is_admin info = false →
  handle_command sender (JStr cmd) c s
  = (Done tt, s, [Send (conn info) (system admin_required_text);
                  Send (conn info) (system unknown_command_text)]).
Proof.
  intros Hsplit Hinfo Hin Hadm. cbn.
  rewrite (handle_command_str_dispatch _ _ _ _ _ _ _ Hsplit Hinfo).
  unfold try_except. by rewrite dispatch_gated_without_flag.
Qed.

(** C7. alice, who has no admin flag, issues each of the seven gated
    commands: the registry is unchanged, but every one of them is answered
    with two replies, the admin-required error and then the generic
    unknown-command error. *)
Theorem gated_command_gets_both_errors :
  Forall (λ cmd,
      handle_command "alice" (JStr cmd) ex_clock ex_server
      = (Done tt, ex_server,
         [Send 1 (system admin_required_text);
          Send 1 (system unknown_command_text)]))
    ["/mute bob 5"; "/unmute bob"; "/kick bob"; "/ban bob"; "/unban mallory";
     "/listbans"; "/announce hello"].
Proof.
  repeat constructor;
    (eapply gated_command_reply;
     [vm_compute; reflexivity | vm_compute; reflexivity
     | unfold admin_commands; vm_compute; set_solver | reflexivity]).
Qed.

(** ** File size limit *)

(** C3, as stated, fails: a file request that declares 300000 bytes, more
    than [MAX_FILE_SIZE], is logged and forwarded to bob; alice gets no
    error. *)
Lemma oversized_file_request_is_forwarded :
  let data := file_request "All" "big.bin" "QUJD" 300000 in
  let r := process_line "alice" 1 100 data ex_clock ex_server in
  MAX_FILE_SIZE < 300000 ∧
  result_of r = Done Next ∧
  events_of r =
    [Log [Lit "[2024-01-01 00:00:00] FILE: alice sent "; Val (JStr "big.bin");
          Lit " ("; Val (JNum 300000); Lit "B) to "; Val (JStr "All")];
     Send 2 data].
Proof. vm_compute. repeat split; reflexivity. Qed.

(** C3, amended. The limit is applied by the client: [upload_file] answers a
    file larger than [MAX_FILE_SIZE] with an error dialog that names the
    limit, and sends nothing to the server. *)
Theorem upload_file_rejects_oversized (f : Client.chosen_file)
    (current_target : option string) (connected : bool) :
  MAX_FILE_SIZE < Client.size f →
  Client.upload_file (Some f) current_target connected
  = [Client.ShowError "File Too Large" "File must be smaller than 200 KB"].
Proof.
  intros Hbig. unfold Client.upload_file.
  destruct (Z.ltb_spec MAX_FILE_SIZE (Client.size f)); [reflexivity | lia].
Qed.

Lemma upload_file_rejects_oversized_witness :
  MAX_FILE_SIZE < 204801 ∧
  Client.upload_file
    (Some {| Client.filename := "big.bin"; Client.size := 204801;
             Client.b64 := "QUJD" |}) (Some "bob") true
  = [Client.ShowError "File Too Large" "File must be smaller than 200 KB"].
Proof.
  split; [reflexivity |].
  apply (upload_file_rejects_oversized
           {| Client.filename := "big.bin"; Client.size := 204801;
              Client.b64 := "QUJD" |}).
  reflexivity.
Defined.

(** ** Order of the authentication checks *)

Lemma rstrip_by_idem f s : Py.rstrip_by f (Py.rstrip_by f s) = Py.rstrip_by f s.
Proof.
  induction s as [|c s IH]; [done |]. cbn.
  destruct (Py.rstrip_by f s) as [|a t] eqn:Hs.
  - destruct (f c) eqn:Hc; [done |]. cbn. by rewrite Hc.
  - change (Py.rstrip_by f (String c (String a t))) with
      (match Py.rstrip_by f (String a t) with
       | EmptyString => if f c then EmptyString else String c EmptyString
       | t' => String c t'
       end).
    by rewrite IH.
Qed.

Lemma lstrip_by_rstrip_by f s :
  Py.lstrip_by f (Py.rstrip_by f (Py.lstrip_by f s))
  = Py.rstrip_by f (Py.lstrip_by f s).
Proof.
  induction s as [|c s IH]; [done |]. cbn [Py.lstrip_by].
  destruct (f c) eqn:Hc; [done |]. cbn [Py.rstrip_by].
  destruct (Py.rstrip_by f s); rewrite ?Hc; cbn [Py.lstrip_by]; by rewrite Hc.
Qed.

(** [username.strip()] in [handle_join] finds nothing left to strip. *)
Lemma strip_idem s : Py.strip (Py.strip s) = Py.strip s.
Proof.
  unfold Py.strip, Py.strip_by. by rewrite lstrip_by_rstrip_by, rstrip_by_idem.
Qed.

(** The run of [login] on a frame whose password is a string: the replies
    of the first check that fails, in the order of [checks_in_order]. *)
Lemma login_run cn ad d u0 p0 c s :
  default (JStr "") (assoc_get d "password") = JStr p0 →
  let username := Py.strip u0 in
  let password := Py.strip p0 in
  let register := truthy (default (JBool false) (assoc_get d "register")) in
  let v := checks_in_order s username password register in
  ∃ rest,
    login cn ad (JDict d) username c s
    = (Done (match v with Accepted => true | _ => false end),
       after_login s v username password cn ad c,
       (((λ t, Send cn (system t)) <$> replies v username)
        ++ match v with Accepted => rest | _ => [Close cn] end)%list).
Proof.
  intros Hp username password register v. subst v. unfold checks_in_order, login.
  unfold get. rewrite Hp. unfold_monad. cbn -[Nat.ltb]. fold password register.
  destruct (String.eqb username "") eqn:H1; [exists []; reflexivity |].
  destruct (String.length username <? 3)%nat eqn:H2; [exists []; reflexivity |].
  destruct (String.eqb password "") eqn:H3; [exists []; reflexivity |].
  destruct (String.length password <? 4)%nat eqn:H4; [exists []; reflexivity |].
  destruct register eqn:H5.
  { unfold register_user. unfold_monad. cbn.
    destruct (users_db s !! username) eqn:Hdb; cbn.
    - exists []; reflexivity.
    - exists []. reflexivity. }
  unfold authenticate_user, handle_join. unfold_monad. cbn.
  destruct (bool_decide (users_db s !! username = Some password)) eqn:Hcred; cbn;
    [| exists []; reflexivity].
  unfold username. rewrite !strip_idem. fold username. rewrite H1.
  destruct (bool_decide (username ∈ banned s)) eqn:Hban; cbn;
    [exists []; reflexivity |].
  destruct (clients s !! username) eqn:Hcl; cbn.
  - exists []; reflexivity.
  - eexists. reflexivity.
Qed.

Lemma finally_remove_run username c s :
  finally_remove username c s
  = (Done tt, state_of (finally_remove username c s),
     events_of (finally_remove username c s)).
Proof.
  unfold finally_remove. destruct (String.eqb username ""); [done |].
  apply remove_client_run.
Qed.

Lemma finally_remove_frame username c s :
  users_db (state_of (finally_remove username c s)) = users_db s.
Proof.
  unfold finally_remove. destruct (String.eqb username ""); [done |].
  apply remove_client_frame.
Qed.

(** C4, as stated, fails: the ban list is consulted after the registration
    and credential steps.  The banned name eve registers an account, and a
    login as the banned mallory with a wrong password is answered by the
    credential check. *)
Lemma banned_name_reaches_registration_and_credential_check :
  let reg := handle_client_auth 3 ("10.0.0.9", 6000)
               (ex_auth "eve" "pass1" true) ex_clock ex_server in
  let bad := handle_client_auth 3 ("10.0.0.9", 6000)
               (ex_auth "mallory" "wrong" false) ex_clock ex_server in
  "eve" ∈ banned ex_server ∧ "mallory" ∈ banned ex_server ∧
  users_db ex_server !! "eve" = None ∧
  users_db (state_of reg) !! "eve" = Some "pass1" ∧
  events_of reg =
    [Send 3 (system "âœ… Account 'eve' created successfully! Please login.");
     Close 3] ∧
  events_of bad =
    [Send 3 (system "âŒ Invalid username or password. Please try again.");
     Close 3].
Proof. vm_compute. repeat split; try reflexivity; set_solver. Qed.

(** C4, amended.  For every [auth] frame whose username and password are
    strings, the handler answers with the replies of the first check that
    fails in the order of [checks_in_order]: username empty, username shorter
    than 3, password empty, password shorter than 4, then registration or the
    credential check, and only after a successful credential check the ban
    list and then the duplicate-session test.  Every verdict but [Accepted]
    closes the connection right after its replies, and only [Accepted]
    enters the main loop; [AccountCreated] is the only verdict that changes
    the credential file. *)
Theorem auth_checks_order cn ad d u0 p0 c s :
  assoc_get d "type" = Some (JStr "auth") →
  default (JStr "") (assoc_get d "username") = JStr u0 →
  default (JStr "") (assoc_get d "password") = JStr p0 →
  let username := Py.strip u0 in
  let password := Py.strip p0 in
  let register := truthy (default (JBool false) (assoc_get d "register")) in
  let v := checks_in_order s username password register in
  let r := handle_client_auth cn ad (Frame (JDict d)) c s in
  result_of r = Done (match v with Accepted => Some username | _ => None end) ∧
  (∃ rest,
     events_of r
     = (((λ t, Send cn (system t)) <$> replies v username)
        ++ match v with Accepted => rest | _ => Close cn :: rest end)%list) ∧
  users_db (state_of r)
  = match v with
    | AccountCreated => <[username := password]> (users_db s)
    | _ => users_db s
    end.
Proof.
  intros Hty Hu Hp username password register v r.
  destruct (login_run cn ad d u0 p0 c s Hp) as [rest Hlogin].
  fold username password register v in Hlogin.
  subst r. unfold handle_client_auth, get. rewrite Hty, Hu.
  unfold bind, ret, try_except, strip_value.
  cbn -[login finally_remove]. fold username. rewrite Hlogin.
  clearbody v. clear Hlogin.
  destruct v; cbn -[finally_remove];
    try match goal with
        | |- context [finally_remove ?u ?c0 ?s0] =>
            pose proof (finally_remove_run u c0 s0) as Hrun;
            pose proof (finally_remove_frame u c0 s0) as Hdb;
            destruct (finally_remove u c0 s0) as [[r2 s2] o2];
            unfold state_of, events_of in Hrun, Hdb; cbn in Hrun, Hdb;
            injection Hrun as ->; cbn
        end;
    (split; [reflexivity |]); (split; [eexists; reflexivity | done]).
Qed.

Lemma auth_checks_order_witness :
  let d := [("type", JStr "auth"); ("username", JStr " mallory ");
            ("password", JStr "pass1"); ("register", JBool false)] in
  let r := handle_client_auth 3 ("10.0.0.9", 6000) (Frame (JDict d))
             ex_clock ex_server in
  checks_in_order ex_server "mallory" "pass1" false = BannedUser ∧
  result_of r = Done None ∧
  (∃ rest,
     events_of r
     = [Send 3 (system "âœ… Authentication successful!");
        Send 3 (system "You are banned from this server.");
        Close 3] ++ rest)%list ∧
  users_db (state_of r) = users_db ex_server.
Proof.
  intros d r.
  assert (Hv : checks_in_order ex_server "mallory" "pass1" false = BannedUser)
    by (vm_compute; reflexivity).
  split; [exact Hv |].
  pose proof (auth_checks_order 3 ("10.0.0.9", 6000) d " mallory " "pass1"
                ex_clock ex_server eq_refl eq_refl eq_refl) as H.
  cbv zeta in H.
  change (Py.strip " mallory ") with "mallory" in H.
  change (Py.strip "pass1") with "pass1" in H.
  change (truthy (default (JBool false) (assoc_get d "register"))) with false in H.
  rewrite Hv in H. exact H.
Defined.

(** ** Requests of an active session *)

Lemma guarded_run m c s :
  guarded m c s = (Done tt, state_of (guarded m c s), events_of (guarded m c s)).
Proof.
  unfold guarded, try_except, ret, state_of, events_of.
  destruct (m c s) as [[[[]|e] s1] o1]; reflexivity.
Qed.

(** One request of a registered sender: either the mute notice, or the
    dispatch of the request inside the [try] block; in both cases the loop
    goes on to the next line. *)
Lemma process_line_run username cn t_unmute d c s i :
  clients s !! username = Some i →
  let ty := default JNull (assoc_get d "type") in
  let s1 := after_unmute username t_unmute s in
  let x := guarded (dispatch_request username cn (JDict d) ty (now_ts c)) c s1 in
  process_line username cn t_unmute (JDict d) c s
  = if suppressed i t_unmute c ty
    then (Done Next, s1, [Send cn (system muted_text)])
    else (Done Next, state_of x, events_of x).
Proof.
  intros Hi ty s1 x. subst x. unfold suppressed.
  set (mu := if muted_until i <? t_unmute then 0 else muted_until i).
  pose proof (guarded_run (dispatch_request username cn (JDict d) ty (now_ts c))
                c s1) as Hx.
  unfold guarded in *.
  destruct (try_except _ _ c s1) as [[r s2] o2] eqn:Hrun.
  unfold state_of, events_of in *. cbn in Hx. injection Hx as ->.
  unfold process_line, get. unfold bind, gets, modify, ask, ret, send_json, emit.
  unfold ret in Hrun. rewrite Hi. subst s1 mu. unfold after_unmute in *. rewrite Hi in *.
  fold ty. cbn -[try_except dispatch_request Z.ltb].
  destruct (muted_until i <? t_unmute) eqn:Hexp; cbn -[try_except dispatch_request Z.ltb];
    (destruct (time_time c <? _) eqn:Hmu; cbn -[try_except dispatch_request Z.ltb];
     [destruct (is_str ty "broadcast" || is_str ty "private");
      cbn -[try_except dispatch_request Z.ltb] |];
     rewrite ?Hrun; cbn; rewrite ?app_nil_r; reflexivity).
Qed.

(** The [broadcast] branch: the message goes to every other session in the
    scope of the sender's room, and one line is logged. *)
Lemma dispatch_broadcast_run username cn d ts c s :
  let msg := default (JStr "") (assoc_get d "message") in
  let room := user_rooms s !! username in
  dispatch_request username cn (JDict d) (JStr "broadcast") ts c s
  = (Done tt, s,
     ((λ p, Send (conn p.2)
              (JDict [("type", JStr "broadcast"); ("from", JStr username);
                      ("message", msg); ("timestamp", JStr ts)]))
        <$> recipients s [username] room)
     ++ [Log [Lit ("[" ++ ts ++ "] " ++ username ++ " (room:");
              Val (from_option JStr JNull room); Lit "): "; Val msg]])%list.
Proof. reflexivity. Qed.

(** The [file] branch: one line is logged, then the request itself goes to
    the room scope of the sender (target [All]) or to the named session. *)
Lemma dispatch_file_run username cn d ts c s k :
  let to_target := default (JStr "All") (assoc_get d "to") in
  key_of to_target = Some k →
  dispatch_request username cn (JDict d) (JStr "file") ts c s
  = (Done tt, s,
     Log [Lit ("[" ++ ts ++ "] FILE: " ++ username ++ " sent ");
          Val (default (JStr "unknown") (assoc_get d "filename")); Lit " (";
          Val (default (JNum 0) (assoc_get d "size")); Lit "B) to "; Val to_target]
     :: if is_str to_target "All"
        then (λ p, Send (conn p.2) (JDict d))
               <$> recipients s [username] (user_rooms s !! username)
        else match registered s k with
             | Some r => [Send (conn r) (JDict d)]
             | None => []
             end).
Proof.
  intros to_target Hk. unfold dispatch_request, get, clients_get, hashable.
  unfold_monad. cbn. fold to_target.
  destruct (is_str to_target "All"); [reflexivity |].
  rewrite Hk. cbn. destruct (registered s k); reflexivity.
Qed.

(** C6. A private request whose target is a hashable value: when the target
    is a registered username, one copy of the message goes to the target's
    connection and one to the sender's, both with the text of the request
    and the timestamp the server read, and the exchange is logged; otherwise
    the sender alone gets the not-found error.  The registry is unchanged. *)
Theorem private_routing username cn d ts c s k :
  key_of (default JNull (assoc_get d "to")) = Some k →
  let to := default JNull (assoc_get d "to") in
  let msg := default (JStr "") (assoc_get d "message") in
  let pm := JDict [("type", JStr "private"); ("from", JStr username);
                   ("message", msg); ("timestamp", JStr ts)] in
  dispatch_request username cn (JDict d) (JStr "private") ts c s
  = match registered s k with
    | Some recipient =>
        (Done tt, s,
         [Send (conn recipient) pm; Send cn pm;
          Log [Lit ("[" ++ ts ++ "] " ++ username ++ " -> "); Val to; Lit ": ";
               Val msg]])
    | None =>
        (Done tt, s, [Send cn (system ("âŒ User '" ++ key_str k ++ "' not found."))])
    end.
Proof.
  intros Hk to msg pm. unfold dispatch_request, get, hashable.
  unfold_monad. cbn. rewrite Hk. cbn.
  destruct (registered s k); reflexivity.
Qed.

Lemma private_routing_witness :
  let d := [("type", JStr "private"); ("to", JStr "bob"); ("message", JStr "hi")] in
  let pm := JDict [("type", JStr "private"); ("from", JStr "alice");
                   ("message", JStr "hi"); ("timestamp", JStr "2024-01-01 00:00:00")] in
  key_of (default JNull (assoc_get d "to")) = Some (KStr "bob") ∧
  dispatch_request "alice" 1 (JDict d) (JStr "private") "2024-01-01 00:00:00"
    ex_clock ex_server
  = (Done tt, ex_server,
     [Send 2 pm; Send 1 pm;
      Log [Lit "[2024-01-01 00:00:00] alice -> "; Val (JStr "bob"); Lit ": ";
           Val (JStr "hi")]]).
Proof.
  intros d pm. split; [reflexivity |].
  exact (private_routing "alice" 1 d "2024-01-01 00:00:00" ex_clock ex_server
           (KStr "bob") eq_refl).
Defined.

(** ** Mute window *)

(** [/mute target seconds] by a sender that passed the admin gate sets the
    target's expiry to the clock plus the seconds. *)
Lemma cmd_mute_sets_expiry sender info cmd ts c s c0 target secs rest n ti :
  Py.split None cmd = c0 :: target :: secs :: rest →
  Py.int secs = Some n →
  Z.abs n < 2 ^ 1024 - 2 ^ 970 →
  clients s !! target = Some ti →
  clients (state_of (cmd_mute sender info cmd ts c s)) !! target
  = Some (set_muted_until (time_time c + n) ti).
Proof.
  intros Hsplit Hint Hn Hti. unfold cmd_mute, float_add. rewrite Hsplit, Hint.
  unfold_monad. cbn -[Z.pow Z.sub]. rewrite Hti.
  destruct (Z.ltb_spec (Z.abs n) (2 ^ 1024 - 2 ^ 970)); [| lia].
  cbn. rewrite lookup_alter_eq, Hti. reflexivity.
Qed.

(** A sender whose expiry has been cleared is never suppressed. *)
Lemma process_line_unmuted username cn t_unmute d c s i :
  clients s !! username = Some i →
  muted_until i = 0 →
  0 ≤ t_unmute ≤ time_time c →
  let x := guarded (dispatch_request username cn (JDict d)
                      (default JNull (assoc_get d "type")) (now_ts c))
             c (after_unmute username t_unmute s) in
  process_line username cn t_unmute (JDict d) c s
  = (Done Next, state_of x, events_of x).
Proof.
  intros Hi Hmu Ht x. rewrite (process_line_run _ _ _ _ _ _ _ Hi).
  unfold suppressed. rewrite Hmu.
  destruct (0 <? t_unmute); destruct (Z.ltb_spec (time_time c) 0); try lia;
    reflexivity.
Qed.

(** The auto-unmute test changes nothing for a sender whose expiry is
    already cleared. *)
Lemma after_unmute_cleared username t_unmute s i :
  clients s !! username = Some i →
  muted_until i = 0 →
  after_unmute username t_unmute s = s.
Proof.
  intros Hi Hmu. unfold after_unmute. rewrite Hi.
  destruct (muted_until i <? t_unmute); [| done].
  destruct s as [cs bs rs us ps db]. unfold set_clients. cbn in *. f_equal.
  apply alter_id. intros x Hx. rewrite Hi in Hx. injection Hx as <-.
  destruct i. cbn in *. by subst.
Qed.

(** The whole path of a private request from a sender that is not muted:
    the outcome of the [private] branch, and the loop goes on. *)
Lemma private_request_unmuted username cn t_unmute d c s i k :
  clients s !! username = Some i →
  muted_until i = 0 →
  0 ≤ t_unmute ≤ time_time c →
  default JNull (assoc_get d "type") = JStr "private" →
  key_of (default JNull (assoc_get d "to")) = Some k →
  let to := default JNull (assoc_get d "to") in
  let msg := default (JStr "") (assoc_get d "message") in
  let pm := JDict [("type", JStr "private"); ("from", JStr username);
                   ("message", msg); ("timestamp", JStr (now_ts c))] in
  process_line username cn t_unmute (JDict d) c s
  = match registered s k with
    | Some recipient =>
        (Done Next, s,
         [Send (conn recipient) pm; Send cn pm;
          Log [Lit ("[" ++ now_ts c ++ "] " ++ username ++ " -> "); Val to;
               Lit ": "; Val msg]])
    | None =>
        (Done Next, s,
         [Send cn (system ("âŒ User '" ++ key_str k ++ "' not found."))])
    end.
Proof.
  intros Hi Hmu Ht Hty Hk to msg pm.
  rewrite (process_line_unmuted _ _ _ _ _ _ _ Hi Hmu Ht).
  rewrite (after_unmute_cleared _ _ _ _ Hi Hmu), Hty.
  unfold guarded, try_except, dispatch_request, get, hashable.
  unfold_monad. cbn. rewrite Hk. cbn.
  destruct (registered s k); reflexivity.
Qed.

(** C5. Let the expiry of a registered sender be [t + sec], as [/mute] sets
    it at time [t].  A broadcast or private request whose mute test reads a
    clock value in [t, t + sec) is answered with the mute notice alone: the
    registry is unchanged, nothing is delivered and nothing is logged.  From
    [t + sec] on the request is not suppressed: it is handled by the dispatch
    of its kind.  ([t_unmute] is the earlier clock value read by the
    auto-unmute test.) *)
Theorem mute_window username cn d c s i t sec t_unmute kind :
  clients s !! username = Some i →
  muted_until i = t + sec →
  default JNull (assoc_get d "type") = JStr kind →
  kind = "broadcast" ∨ kind = "private" →
  0 ≤ t_unmute ≤ time_time c →
  let x := guarded (dispatch_request username cn (JDict d) (JStr kind) (now_ts c))
             c (after_unmute username t_unmute s) in
  (t ≤ time_time c < t + sec →
   process_line username cn t_unmute (JDict d) c s
   = (Done Next, s, [Send cn (system muted_text)])) ∧
  (t + sec ≤ time_time c →
   process_line username cn t_unmute (JDict d) c s
   = (Done Next, state_of x, events_of x)).
Proof.
  intros Hi Hmu Hty Hkind Ht x. subst x.
  rewrite (process_line_run _ _ _ _ _ _ _ Hi). unfold suppressed. rewrite Hty, Hmu.
  assert (Hk : is_str (JStr kind) "broadcast" || is_str (JStr kind) "private" = true)
    by (destruct Hkind as [-> | ->]; reflexivity).
  rewrite Hk, andb_true_r. split; intros Hwin.
  - unfold after_unmute. rewrite Hi, Hmu.
    destruct (Z.ltb_spec (t + sec) t_unmute); [lia |].
    destruct (Z.ltb_spec (time_time c) (t + sec)); [reflexivity | lia].
  - destruct (Z.ltb_spec (t + sec) t_unmute);
      match goal with
      | |- context [time_time c <? ?m] => destruct (Z.ltb_spec (time_time c) m)
      end; try lia; reflexivity.
Qed.

Lemma mute_window_witness :
  let s := set_clients (alter (set_muted_until 102) "bob") ex_server in
  let d := [("type", JStr "broadcast"); ("message", JStr "hello")] in
  let at_ (now : Z) := {| time_time := now; now_ts := "2024-01-01 00:00:00" |} in
  process_line "bob" 2 101 (JDict d) (at_ 101) s
  = (Done Next, s, [Send 2 (system muted_text)]) ∧
  events_of (process_line "bob" 2 102 (JDict d) (at_ 102) s)
  = [Send 1 (JDict [("type", JStr "broadcast"); ("from", JStr "bob");
                    ("message", JStr "hello");
                    ("timestamp", JStr "2024-01-01 00:00:00")]);
     Log [Lit "[2024-01-01 00:00:00] bob (room:"; Val JNull; Lit "): ";
          Val (JStr "hello")]].
Proof.
  intros s d at_. split.
  - apply (mute_window "bob" 2 d (at_ 101) s (set_muted_until 102 (ex_client 2))
             100 2 101 "broadcast"); cbn; try reflexivity; try lia.
    left; reflexivity.
  - assert (H : 100 + 2 ≤ time_time (at_ 102)) by (cbn; lia).
    assert (Hb : 0 ≤ 102 ≤ time_time (at_ 102)) by (cbn; lia).
    rewrite (proj2 (mute_window "bob" 2 d (at_ 102) s
                      (set_muted_until 102 (ex_client 2)) 100 2 102 "broadcast"
                      eq_refl eq_refl eq_refl (or_introl eq_refl) Hb) H).
    vm_compute. reflexivity.
Defined.

(** The scenario of the specification: the admin alice mutes bob for 2
    seconds at time 100; bob's broadcast at 101 is dropped with the notice,
    the one at 103 reaches alice. *)
Example mute_scenario :
  let at_ (now : Z) := {| time_time := now; now_ts := "ts" |} in
  let d := JDict [("type", JStr "broadcast"); ("message", JStr "hello")] in
  let s := state_of (handle_command "alice" (JStr "/mute bob 2") (at_ 100)
                       ex_server_admin) in
  muted_until <$> clients s !! "bob" = Some 102 ∧
  events_of (process_line "bob" 2 101 d (at_ 101) s)
  = [Send 2 (system muted_text)] ∧
  events_of (process_line "bob" 2 103 d (at_ 103) s)
  = [Send 1 (JDict [("type", JStr "broadcast"); ("from", JStr "bob");
                    ("message", JStr "hello"); ("timestamp", JStr "ts")]);
     Log [Lit "[ts] bob (room:"; Val JNull; Lit "): "; Val (JStr "hello")]].
Proof. vm_compute. repeat split; reflexivity. Qed.

(** ** What the mute does not cover *)

(** C9. While the mute of a registered sender is active, a request of kind
    command, typing or file is not suppressed: it is handled by the dispatch
    of its kind, on the unchanged registry.  In particular a file request
    with a hashable target is logged and forwarded as it is: to the other
    sessions in the scope of the sender's room when the target is [All], to
    the named session otherwise. *)
Theorem muted_sender_other_kinds username cn d c s i t_unmute kind :
  clients s !! username = Some i →
  t_unmute ≤ time_time c < muted_until i →
  default JNull (assoc_get d "type") = JStr kind →
  kind = "command" ∨ kind = "typing" ∨ kind = "file" →
  let x := guarded (dispatch_request username cn (JDict d) (JStr kind) (now_ts c))
             c s in
  let to_target := default (JStr "All") (assoc_get d "to") in
  process_line username cn t_unmute (JDict d) c s
  = (Done Next, state_of x, events_of x) ∧
  (kind = "file" → ∀ k, key_of to_target = Some k →
   process_line username cn t_unmute (JDict d) c s
   = (Done Next, s,
      Log [Lit ("[" ++ now_ts c ++ "] FILE: " ++ username ++ " sent ");
           Val (default (JStr "unknown") (assoc_get d "filename")); Lit " (";
           Val (default (JNum 0) (assoc_get d "size")); Lit "B) to "; Val to_target]
      :: if is_str to_target "All"
         then (λ p, Send (conn p.2) (JDict d))
                <$> recipients s [username] (user_rooms s !! username)
         else match registered s k with
              | Some r => [Send (conn r) (JDict d)]
              | None => []
              end)).
Proof.
  intros Hi Ht Hty Hkind x to_target.
  assert (Hrun : process_line username cn t_unmute (JDict d) c s
                 = (Done Next, state_of x, events_of x)).
  { rewrite (process_line_run _ _ _ _ _ _ _ Hi). unfold suppressed. rewrite Hty.
    assert (Hk : is_str (JStr kind) "broadcast" || is_str (JStr kind) "private"
                 = false)
      by (destruct Hkind as [-> | [-> | ->]]; reflexivity).
    rewrite Hk, andb_false_r. unfold after_unmute. rewrite Hi.
    destruct (Z.ltb_spec (muted_until i) t_unmute); [lia | reflexivity]. }
  split; [exact Hrun |].
  intros -> k Hk. rewrite Hrun. subst x. unfold guarded, try_except.
  rewrite (dispatch_file_run _ _ _ _ _ _ k Hk). reflexivity.
Qed.

Lemma muted_sender_other_kinds_witness :
  let s := set_clients (alter (set_muted_until 500) "alice") ex_server in
  let d := [("type", JStr "file"); ("to", JStr "bob"); ("filename", JStr "a.txt");
            ("data", JStr "QUJD"); ("size", JNum 3)] in
  process_line "alice" 1 100 (JDict d) ex_clock s
  = (Done Next, s,
     [Log [Lit "[2024-01-01 00:00:00] FILE: alice sent "; Val (JStr "a.txt");
           Lit " ("; Val (JNum 3); Lit "B) to "; Val (JStr "bob")];
      Send 2 (JDict d)]).
Proof.
  intros s d.
  assert (Ht : 100 ≤ time_time ex_clock < muted_until (set_muted_until 500 (ex_client 1)))
    by (cbn; lia).
  exact (proj2 (muted_sender_other_kinds "alice" 1 d ex_clock s
                  (set_muted_until 500 (ex_client 1)) 100 "file"
                  eq_refl Ht eq_refl (or_intror (or_intror eq_refl)))
           eq_refl (KStr "bob") eq_refl).
Defined.

(** ** Exceptions while a request is handled *)

(** C8, as stated, fails: alice's private request names a list as its target,
    [clients.get] raises [TypeError], the handler of the main loop swallows
    it, and nothing at all is sent to alice. *)
Lemma unhashable_target_error_is_not_reported :
  let d := JDict [("type", JStr "private"); ("to", JList [JStr "bob"]);
                  ("message", JStr "hi")] in
  dispatch_request "alice" 1 d (JStr "private") "2024-01-01 00:00:00"
    ex_clock ex_server
  = (Raised (TypeError "unhashable type: 'list'"), ex_server, []) ∧
  process_line "alice" 1 100 d ex_clock ex_server = (Done Next, ex_server, []).
Proof. vm_compute. split; reflexivity. Qed.

(** A frame that is not an object raises outside the [try] block of the main
    loop: the exception leaves the loop and the handler removes the
    session. *)
Example non_object_frame_ends_session :
  let r := handle_chunk "alice" 1 100 (Some [Some (JList [])]) ex_clock ex_server in
  result_of r = Done Closed ∧ clients (state_of r) !! "alice" = None.
Proof. vm_compute. split; reflexivity. Qed.

Lemma process_lines_next username cn t_unmute data rest c s s1 o1 :
  process_line username cn t_unmute data c s = (Done Next, s1, o1) →
  let k := process_lines username cn t_unmute rest c s1 in
  process_lines username cn t_unmute (Some data :: rest) c s
  = (result_of k, state_of k, (o1 ++ events_of k)%list).
Proof.
  intros Hline k. cbn [process_lines]. by rewrite (run_bind_done _ _ _ _ _ _ _ Hline).
Qed.

(** C8, amended.  Take a request that is a JSON object, from a registered
    sender, that the mute test lets through.  If its dispatch raises, the
    handler of the main loop catches the exception and adds nothing: the
    result is the registry and the events as they were when the exception
    was raised, no message reports the error, and the loop goes on with the
    following lines.  If the request is a command and the exception is raised
    by the command dispatch inside [handle_command]'s own [try] block, that
    block catches it and sends the sender a [Command error] message with the
    text of the exception; the loop goes on as well. *)
Theorem request_exception_isolated username cn t_unmute d c s i e s1 o1 :
  clients s !! username = Some i →
  let ty := default JNull (assoc_get d "type") in
  let s0 := after_unmute username t_unmute s in
  suppressed i t_unmute c ty = false →
  (dispatch_request username cn (JDict d) ty (now_ts c) c s0 = (Raised e, s1, o1) →
   process_line username cn t_unmute (JDict d) c s = (Done Next, s1, o1) ∧
   ∀ rest,
     let k := process_lines username cn t_unmute rest c s1 in
     process_lines username cn t_unmute (Some (JDict d) :: rest) c s
     = (result_of k, state_of k, (o1 ++ events_of k)%list)) ∧
  (∀ cmd p0 rest info,
     ty = JStr "command" →
     default (JStr "") (assoc_get d "command") = JStr cmd →
     Py.split (Some 1%nat) cmd = p0 :: rest →
     clients s0 !! username = Some info →
     dispatch_command username info cmd (now_ts c) (Py.lower p0) (p0 :: rest) c s0
     = (Raised e, s1, o1) →
     let report := Send (conn info) (system ("âŒ Command error: " ++ exn_str e)) in
     process_line username cn t_unmute (JDict d) c s
     = (Done Next, s1, (o1 ++ [report])%list) ∧
     ∀ rest',
       let k := process_lines username cn t_unmute rest' c s1 in
       process_lines username cn t_unmute (Some (JDict d) :: rest') c s
       = (result_of k, state_of k, ((o1 ++ [report]) ++ events_of k)%list)).
Proof.
  intros Hi ty s0 Hsup.
  pose proof (process_line_run username cn t_unmute d c s i Hi) as Hrun.
  cbv zeta in Hrun. fold ty s0 in Hrun. rewrite Hsup in Hrun. split.
  - intros Hraise.
    assert (Hline : process_line username cn t_unmute (JDict d) c s
                    = (Done Next, s1, o1)).
    { rewrite Hrun. unfold guarded, try_except, ret, state_of, events_of.
      rewrite Hraise. cbn. by rewrite app_nil_r. }
    split; [exact Hline |]. intros rest. by apply process_lines_next.
  - intros cmd p0 rest info Hty Hcmd Hsplit Hinfo Hraise report.
    assert (Hline : process_line username cn t_unmute (JDict d) c s
                    = (Done Next, s1, (o1 ++ [report])%list)).
    { rewrite Hrun. unfold guarded, state_of, events_of.
      assert (Hd : dispatch_request username cn (JDict d) ty (now_ts c) c s0
                   = (Done tt, s1, (o1 ++ [report])%list)).
      { rewrite Hty. unfold dispatch_request, get. cbn [is_str String.eqb].
        unfold bind at 1, ret at 1. cbn -[handle_command]. rewrite Hcmd.
        cbn [handle_command].
        rewrite (handle_command_str_dispatch _ _ _ _ _ _ _ Hsplit Hinfo).
        unfold try_except at 1. rewrite Hraise.
        unfold send_json, emit. cbn. reflexivity. }
      unfold try_except. rewrite Hd. reflexivity. }
    split; [exact Hline |]. intros rest'. by apply process_lines_next.
Qed.

Lemma request_exception_isolated_witness :
  let private := [("type", JStr "private"); ("to", JList [JStr "bob"]);
                  ("message", JStr "hi")] in
  let mute := [("type", JStr "command");
               ("command", JStr ("/mute bob " ++ Py.str_int (10 ^ 400)))] in
  process_line "alice" 1 100 (JDict private) ex_clock ex_server
  = (Done Next, ex_server, []) ∧
  process_line "alice" 1 100 (JDict mute) ex_clock ex_server_admin
  = (Done Next, ex_server_admin,
     [Send 1 (system ("âŒ Command error: "
                      ++ exn_str (OverflowError "int too large to convert to float")))]).
Proof.
  intros private mute. split.
  - refine (proj1 (proj1 (request_exception_isolated "alice" 1 100 private ex_clock
                            ex_server (ex_client 1)
                            (TypeError "unhashable type: 'list'") ex_server []
                            eq_refl _) _)).
    + vm_compute. reflexivity.
    + vm_compute. reflexivity.
  - refine (proj1 (proj2 (request_exception_isolated "alice" 1 100 mute ex_clock
                            ex_server_admin (set_is_admin true (ex_client 1))
                            (OverflowError "int too large to convert to float")
                            ex_server_admin [] _ _)
                     ("/mute bob " ++ Py.str_int (10 ^ 400)) "/mute"
                     ["bob " ++ Py.str_int (10 ^ 400)]
                     (set_is_admin true (ex_client 1)) _ _ _ _ _)).
    all: vm_compute; reflexivity.
Defined.

(** ** Passwords of vacated rooms *)

Lemma discard_last_member r u (rs : gmap string (gset string)) :
  discard_member r u {[u]} rs = delete r rs.
Proof.
  unfold discard_member. destruct (decide (_ = ∅)) as [_ | Hne]; [done |].
  exfalso. apply Hne. apply set_eq. intros x.
  rewrite elem_of_difference, elem_of_empty. tauto.
Qed.

(** [/leave] by the only member of [r]. *)
Lemma leave_last_member u i cmd p0 rest c s r :
  Py.split (Some 1%nat) cmd = p0 :: rest →
  Py.lower p0 = "/leave" →
  clients s !! u = Some i →
  user_rooms s !! u = Some r →
  r ≠ "" →
  rooms s !! r = Some {[u]} →
  let s' := state_of (handle_command u (JStr cmd) c s) in
  rooms s' !! r = None ∧ user_rooms s' !! u = None ∧
  room_passwords s' = room_passwords s.
Proof.
  intros Hsplit Hlow Hi Hur Hr Hrooms. cbn [handle_command].
  rewrite (handle_command_str_dispatch _ _ _ _ _ _ _ Hsplit Hi), Hlow.
  change (dispatch_command u i cmd (now_ts c) "/leave" (p0 :: rest))
    with (cmd_leave u i (now_ts c)).
  unfold cmd_leave. unfold_monad. cbn. rewrite Hur.
  apply String.eqb_neq in Hr. rewrite Hr. cbn. rewrite Hrooms. cbn.
  rewrite discard_last_member, lookup_delete_eq, lookup_delete_eq. done.
Qed.

(** The disconnect path: [remove_client] of the only member of [r]. *)
Lemma disconnect_last_member u c s r :
  user_rooms s !! u = Some r →
  r ≠ "" →
  rooms s !! r = Some {[u]} →
  let s' := state_of (remove_client u c s) in
  rooms s' !! r = None ∧ user_rooms s' !! u = None ∧
  room_passwords s' = room_passwords s.
Proof.
  intros Hur Hr Hrooms. unfold remove_client. unfold_monad. cbn.
  rewrite Hur. cbn. rewrite Hrooms. cbn.
  apply String.eqb_neq in Hr. rewrite Hr. cbn.
  rewrite bool_decide_eq_true_2 by set_solver. cbn.
  destruct (clients s !! u); cbn;
    rewrite discard_last_member, lookup_delete_eq, lookup_delete_eq; done.
Qed.

(** [/join] of another room by the only member of [r], when the password
    test of the target room lets the sender in. *)
Lemma join_elsewhere_last_member u i cmd p0 rest c0 r2 rest2 c s r :
  Py.split (Some 1%nat) cmd = p0 :: rest →
  Py.lower p0 = "/join" →
  Py.split (Some 2%nat) cmd = c0 :: r2 :: rest2 →
  clients s !! u = Some i →
  user_rooms s !! u = Some r →
  r ≠ "" →
  rooms s !! r = Some {[u]} →
  r2 ≠ r →
  (∀ stored, room_passwords s !! r2 = Some stored → stored = password_arg rest2) →
  let s' := state_of (handle_command u (JStr cmd) c s) in
  rooms s' !! r = None ∧ user_rooms s' !! u = Some r2 ∧
  room_passwords s' !! r = room_passwords s !! r.
Proof.
  intros Hsplit Hlow Hsplit2 Hi Hur Hr Hrooms Hne Hpass. cbn [handle_command].
  rewrite (handle_command_str_dispatch _ _ _ _ _ _ _ Hsplit Hi), Hlow.
  change (dispatch_command u i cmd (now_ts c) "/join" (p0 :: rest))
    with (cmd_join u i cmd (now_ts c)).
  unfold cmd_join. rewrite Hsplit2. fold (password_arg rest2).
  apply String.eqb_neq in Hr.
  unfold_monad. cbn.
  destruct (room_passwords s !! r2) as [stored|] eqn:Hpw; cbn.
  - rewrite (Hpass stored eq_refl), String.eqb_refl. cbn.
    rewrite Hur. cbn. rewrite Hrooms, Hr. cbn.
    rewrite bool_decide_eq_true_2 by set_solver. cbn.
    rewrite discard_last_member.
    rewrite lookup_insert_ne, lookup_delete_eq, lookup_insert_eq by done.
    repeat split; reflexivity.
  - destruct (negb (String.eqb (password_arg rest2) "") && _); cbn;
      rewrite Hur; cbn; rewrite Hrooms, Hr; cbn;
      rewrite bool_decide_eq_true_2 by set_solver; cbn;
      rewrite discard_last_member;
      repeat split;
      rewrite ?lookup_insert_eq, ?lookup_insert_ne, ?lookup_delete_eq by done;
      reflexivity.
Qed.

(** A stored password gates [/join], whether or not the room exists: any
    other password argument is refused and changes nothing; the stored one
    lets the sender in. *)
Lemma join_gated_by_stored_password v info cmd p0 rest c0 rest2 c s r p :
  Py.split (Some 1%nat) cmd = p0 :: rest →
  Py.lower p0 = "/join" →
  Py.split (Some 2%nat) cmd = c0 :: r :: rest2 →
  clients s !! v = Some info →
  room_passwords s !! r = Some p →
  let run := handle_command v (JStr cmd) c s in
  (password_arg rest2 ≠ p →
   run = (Done tt, s, [Send (conn info) (system "âŒ Incorrect room password.")])) ∧
  (password_arg rest2 = p →
   user_rooms (state_of run) !! v = Some r ∧
   room_passwords (state_of run) !! r = Some p).
Proof.
  intros Hsplit Hlow Hsplit2 Hi Hpw. cbn [handle_command].
  rewrite (handle_command_str_dispatch _ _ _ _ _ _ _ Hsplit Hi), Hlow.
  change (dispatch_command v info cmd (now_ts c) "/join" (p0 :: rest))
    with (cmd_join v info cmd (now_ts c)).
  unfold cmd_join. rewrite Hsplit2. fold (password_arg rest2).
  unfold_monad. cbn. rewrite Hpw. cbn. split.
  - intros Hne. assert (String.eqb p (password_arg rest2) = false) as ->
      by (apply String.eqb_neq; congruence).
    reflexivity.
  - intros <-. rewrite String.eqb_refl. cbn.
    destruct (user_rooms s !! v) as [prev|]; cbn;
      [destruct (negb (String.eqb prev "") && _); cbn |];
      rewrite lookup_insert_eq; done.
Qed.

(** [/create] without a password argument, for a room name that is free in
    the room map, writes nothing to the password map: a password stored
    under that name stays in place. *)
Lemma create_inherits_stored_password v info cmd p0 rest c0 c s r p :
  Py.split (Some 1%nat) cmd = p0 :: rest →
  Py.lower p0 = "/create" →
  Py.split (Some 2%nat) cmd = [c0; r] →
  clients s !! v = Some info →
  stale_password s r p →
  let s' := state_of (handle_command v (JStr cmd) c s) in
  rooms s' !! r = Some {[v]} ∧ user_rooms s' !! v = Some r ∧
  room_passwords s' !! r = Some p.
Proof.
  intros Hsplit Hlow Hsplit2 Hi [Hrooms Hpw]. cbn [handle_command].
  rewrite (handle_command_str_dispatch _ _ _ _ _ _ _ Hsplit Hi), Hlow.
  change (dispatch_command v info cmd (now_ts c) "/create" (p0 :: rest))
    with (cmd_create v info cmd (now_ts c)).
  unfold cmd_create. rewrite Hsplit2. unfold_monad. cbn. rewrite Hrooms. cbn.
  rewrite !lookup_insert_eq. done.
Qed.

(** C10. Let [u] be the only member of room [r], whose stored password is
    [p].  When [u] leaves by [/leave], by a [/join] that is let into another
    room, or by disconnecting, [r] is deleted from the room map and its
    password stays stored.  In any registry where this is so, a later
    [/join r] is gated on [p]: another password argument is refused, [p]
    itself lets the sender in; and a [/create r] without a password argument
    re-creates the room with [p] still stored for it. *)
Theorem vacated_room_keeps_password u i r p c s :
  clients s !! u = Some i →
  user_rooms s !! u = Some r →
  r ≠ "" →
  rooms s !! r = Some {[u]} →
  room_passwords s !! r = Some p →
  (∀ cmd p0 rest,
     Py.split (Some 1%nat) cmd = p0 :: rest → Py.lower p0 = "/leave" →
     stale_password (state_of (handle_command u (JStr cmd) c s)) r p) ∧
  (∀ cmd p0 rest c0 r2 rest2,
     Py.split (Some 1%nat) cmd = p0 :: rest → Py.lower p0 = "/join" →
     Py.split (Some 2%nat) cmd = c0 :: r2 :: rest2 → r2 ≠ r →
     (∀ stored, room_passwords s !! r2 = Some stored → stored = password_arg rest2) →
     stale_password (state_of (handle_command u (JStr cmd) c s)) r p) ∧
  stale_password (state_of (remove_client u c s)) r p ∧
  (∀ s2 c2 v info cmd p0 rest c0 rest2,
     stale_password s2 r p →
     clients s2 !! v = Some info →
     Py.split (Some 1%nat) cmd = p0 :: rest → Py.lower p0 = "/join" →
     Py.split (Some 2%nat) cmd = c0 :: r :: rest2 →
     let run := handle_command v (JStr cmd) c2 s2 in
     (password_arg rest2 ≠ p →
      run = (Done tt, s2,
             [Send (conn info) (system "âŒ Incorrect room password.")])) ∧
     (password_arg rest2 = p → user_rooms (state_of run) !! v = Some r)) ∧
  (∀ s2 c2 v info cmd p0 rest c0,
     stale_password s2 r p →
     clients s2 !! v = Some info →
     Py.split (Some 1%nat) cmd = p0 :: rest → Py.lower p0 = "/create" →
     Py.split (Some 2%nat) cmd = [c0; r] →
     let s3 := state_of (handle_command v (JStr cmd) c2 s2) in
     rooms s3 !! r = Some {[v]} ∧ room_passwords s3 !! r = Some p).
Proof.
  intros Hi Hur Hr Hrooms Hpw.
  split; [| split; [| split; [| split]]].
  - intros cmd p0 rest Hsplit Hlow.
    destruct (leave_last_member u i cmd p0 rest c s r Hsplit Hlow Hi Hur Hr Hrooms)
      as (Hgone & _ & Hsame).
    split; [exact Hgone | by rewrite Hsame].
  - intros cmd p0 rest c0 r2 rest2 Hsplit Hlow Hsplit2 Hne Hpass.
    destruct (join_elsewhere_last_member u i cmd p0 rest c0 r2 rest2 c s r
                Hsplit Hlow Hsplit2 Hi Hur Hr Hrooms Hne Hpass)
      as (Hgone & _ & Hsame).
    split; [exact Hgone | by rewrite Hsame].
  - destruct (disconnect_last_member u c s r Hur Hr Hrooms) as (Hgone & _ & Hsame).
    split; [exact Hgone | by rewrite Hsame].
  - intros s2 c2 v info cmd p0 rest c0 rest2 [_ Hp2] Hv Hsplit Hlow Hsplit2 run.
    destruct (join_gated_by_stored_password v info cmd p0 rest c0 rest2 c2 s2 r p
                Hsplit Hlow Hsplit2 Hv Hp2) as [Hrefuse Hadmit].
    split; [exact Hrefuse | intros Harg; by apply Hadmit].
  - intros s2 c2 v info cmd p0 rest c0 Hstale Hv Hsplit Hlow Hsplit2 s3.
    destruct (create_inherits_stored_password v info cmd p0 rest c0 c2 s2 r p
                Hsplit Hlow Hsplit2 Hv Hstale) as (Hroom & _ & Hkept).
    split; [exact Hroom | exact Hkept].
Qed.

Lemma vacated_room_keeps_password_witness :
  let left_ := state_of (handle_command "alice" (JStr "/leave") ex_clock
                           ex_server_room) in
  stale_password left_ "gaming" "pw123" ∧
  handle_command "bob" (JStr "/join gaming wrongpw") ex_clock left_
  = (Done tt, left_, [Send 2 (system "âŒ Incorrect room password.")]) ∧
  room_passwords
    (state_of (handle_command "bob" (JStr "/create gaming") ex_clock left_))
    !! "gaming" = Some "pw123".
Proof.
  intros left_.
  assert (Hi : clients ex_server_room !! "alice" = Some (ex_client 1))
    by (vm_compute; reflexivity).
  assert (Hur : user_rooms ex_server_room !! "alice" = Some "gaming")
    by (vm_compute; reflexivity).
  assert (Hr : "gaming" ≠ "") by discriminate.
  assert (Hrooms : rooms ex_server_room !! "gaming" = Some {["alice"]})
    by (vm_compute; reflexivity).
  assert (Hpw : room_passwords ex_server_room !! "gaming" = Some "pw123")
    by (vm_compute; reflexivity).
  destruct (vacated_room_keeps_password "alice" (ex_client 1) "gaming" "pw123"
              ex_clock ex_server_room Hi Hur Hr Hrooms Hpw)
    as (Hleave & _ & _ & Hjoin & Hcreate).
  assert (Hstale : stale_password left_ "gaming" "pw123")
    by (apply (Hleave "/leave" "/leave" []); reflexivity).
  assert (Hbob : clients left_ !! "bob" = Some (ex_client 2))
    by (vm_compute; reflexivity).
  split; [exact Hstale |]. split.
  - apply (proj1 (Hjoin left_ ex_clock "bob" (ex_client 2) "/join gaming wrongpw"
                    "/join" ["gaming wrongpw"] "/join" ["wrongpw"]
                    Hstale Hbob eq_refl eq_refl eq_refl)).
    discriminate.
  - apply (Hcreate left_ ex_clock "bob" (ex_client 2) "/create gaming"
             "/create" ["gaming"] "/create" Hstale Hbob eq_refl eq_refl eq_refl).
Defined.

(** ** Consistency of the room maps *)

(** C2. alice creates room a and, while she is in it, room b.  After the
    first [/create] the two maps agree; the second one makes her the member
    of b and moves her pointer to b, but does not take her out of a: she is
    in two member sets, and the members of a are no longer the users whose
    pointer is a. *)
Theorem create_from_room_breaks_consistency :
  let s1 := state_of (handle_command "alice" (JStr "/create a") ex_clock ex_server) in
  let s2 := state_of (handle_command "alice" (JStr "/create b") ex_clock s1) in
  rooms_consistent ex_server ∧
  rooms_consistent s1 ∧
  rooms s2 !! "a" = Some {["alice"]} ∧
  rooms s2 !! "b" = Some {["alice"]} ∧
  user_rooms s2 !! "alice" = Some "b" ∧
  ¬ rooms_consistent s2.
Proof.
  intros s1 s2.
  assert (Hr1 : rooms s1 = {["a" := {["alice"]}]}) by (vm_compute; reflexivity).
  assert (Hu1 : user_rooms s1 = {["alice" := "a"]}) by (vm_compute; reflexivity).
  assert (Ha : rooms s2 !! "a" = Some {["alice"]}) by (vm_compute; reflexivity).
  assert (Hb : rooms s2 !! "b" = Some {["alice"]}) by (vm_compute; reflexivity).
  assert (Hp : user_rooms s2 !! "alice" = Some "b") by (vm_compute; reflexivity).
  split; [| split; [| split; [exact Ha | split; [exact Hb | split; [exact Hp |]]]]].
  - intros r u. cbn. rewrite !lookup_empty. split; [intros (? & ? & _) |]; done.
  - intros r u. rewrite Hr1, Hu1. split.
    + intros (ms & Hms & Hin). apply lookup_singleton_Some in Hms as [<- <-].
      apply elem_of_singleton in Hin as ->. apply lookup_singleton_eq.
    + intros Hptr. apply lookup_singleton_Some in Hptr as [<- <-].
      exists {["alice"]}. split; [apply lookup_singleton_eq | by apply elem_of_singleton].
  - intros Hcons.
    assert (Hbad : user_rooms s2 !! "alice" = Some "a").
    { apply Hcons. exists {["alice"]}. split; [exact Ha | by apply elem_of_singleton]. }
    rewrite Hp in Hbad. discriminate.
Qed.

(** *** What does preserve the agreement of the room maps *)

Lemma member_discard rs r u ms r' u' :
  rs !! r = Some ms →
  member (discard_member r u ms rs) r' u' ↔ member rs r' u' ∧ ¬ (r' = r ∧ u' = u).
Proof.
  intros Hms. unfold member, discard_member.
  destruct (decide (ms ∖ {[u]} = ∅)) as [Hempty | Hne]; split.
  - intros (ms' & Hl & Hin). apply lookup_delete_Some in Hl as [Hr Hl].
    split; [by exists ms' | intros [-> _]; done].
  - intros [(ms' & Hl & Hin) Hnot]. destruct (decide (r' = r)) as [-> | Hr].
    + exfalso. rewrite Hms in Hl. injection Hl as <-.
      assert (u' ∈ ms ∖ {[u]}) as Hin'
        by (apply elem_of_difference; split; [done |];
            rewrite elem_of_singleton; intros ->; by apply Hnot).
      rewrite Hempty in Hin'. by apply elem_of_empty in Hin'.
    + exists ms'. by rewrite lookup_delete_ne.
  - intros (ms' & Hl & Hin). destruct (decide (r' = r)) as [-> | Hr].
    + rewrite lookup_insert_eq in Hl. injection Hl as <-.
      apply elem_of_difference in Hin as [Hin Hu]. rewrite elem_of_singleton in Hu.
      split; [by exists ms | intros [_ ->]; done].
    + rewrite lookup_insert_ne in Hl by done.
      split; [by exists ms' | intros [-> _]; done].
  - intros [(ms' & Hl & Hin) Hnot]. destruct (decide (r' = r)) as [-> | Hr].
    + rewrite Hms in Hl. injection Hl as <-. exists (ms ∖ {[u]}).
      rewrite lookup_insert_eq. split; [done |].
      apply elem_of_difference. split; [done |].
      rewrite elem_of_singleton. intros ->. by apply Hnot.
    + exists ms'. by rewrite lookup_insert_ne.
Qed.

Lemma member_add (rs : gmap string (gset string)) r u r' u' :
  member (<[r := default ∅ (rs !! r) ∪ {[u]}]> rs) r' u'
  ↔ member rs r' u' ∨ (r' = r ∧ u' = u).
Proof.
  unfold member. destruct (decide (r' = r)) as [-> | Hr].
  - rewrite lookup_insert_eq. split.
    + intros (ms' & Hl & Hin). injection Hl as <-.
      apply elem_of_union in Hin as [Hin | Hin].
      * left. destruct (rs !! r) as [ms|]; [by exists ms |].
        by apply elem_of_empty in Hin.
      * right. by apply elem_of_singleton in Hin.
    + intros [(ms' & Hl & Hin) | [_ ->]]; eexists; (split; [done |]).
      * rewrite Hl. apply elem_of_union. by left.
      * apply elem_of_union. right. by apply elem_of_singleton.
  - rewrite lookup_insert_ne by done. split; [by left |].
    intros [H | [? _]]; done.
Qed.

(** Taking [u] out of its current room [r] and clearing its pointer. *)
Lemma vacate_consistent s st u r ms :
  rooms_consistent s → names_nonempty s →
  user_rooms s !! u = Some r →
  rooms s !! r = Some ms →
  rooms st = discard_member r u ms (rooms s) →
  user_rooms st = delete u (user_rooms s) →
  rooms_consistent st ∧ names_nonempty st.
Proof.
  intros Hcons Hne Hur Hms Hrs Hus. split.
  - intros r' u'. fold (member (rooms st) r' u'). rewrite Hrs, Hus.
    rewrite (member_discard _ _ _ _ _ _ Hms). unfold member.
    rewrite (Hcons r' u'), lookup_delete_Some. split.
    + intros [Hp Hnot]. split; [| done]. intros ->. apply Hnot.
      rewrite Hur in Hp. by injection Hp as ->.
    + intros [Hu Hp]. split; [done |]. intros [_ ->]. done.
  - intros u' r'. rewrite Hus. intros [_ Hp]%lookup_delete_Some. by eapply Hne.
Qed.

(** Moving [u] from its current room, if any, to room [r2]. *)
Lemma move_consistent s st u r2 :
  rooms_consistent s → names_nonempty s →
  r2 ≠ "" →
  let rs1 :=
    match user_rooms s !! u with
    | Some prev => discard_member prev u (default ∅ (rooms s !! prev)) (rooms s)
    | None => rooms s
    end in
  rooms st = <[r2 := default ∅ (rs1 !! r2) ∪ {[u]}]> rs1 →
  user_rooms st = <[u := r2]> (user_rooms s) →
  rooms_consistent st ∧ names_nonempty st.
Proof.
  intros Hcons Hne Hr2 rs1 Hrs Hus. split.
  - intros r' u'. fold (member (rooms st) r' u'). rewrite Hrs, Hus, member_add.
    rewrite lookup_insert_Some. subst rs1.
    destruct (user_rooms s !! u) as [prev|] eqn:Hur.
    + destruct (proj2 (Hcons prev u) Hur) as (ms & Hms & Hin). rewrite Hms. cbn.
      rewrite (member_discard _ _ _ _ _ _ Hms). unfold member.
      rewrite (Hcons r' u'). split.
      * intros [[Hp Hnot] | [-> ->]]; [right | by left].
        split; [| done]. intros ->. apply Hnot.
        rewrite Hur in Hp. by injection Hp as ->.
      * intros [[-> ->] | [Hu Hp]]; [by right | left].
        split; [done |]. intros [_ ->]. done.
    + unfold member. rewrite (Hcons r' u'). split.
      * intros [Hp | [-> ->]]; [right | by left].
        split; [| done]. intros ->. by rewrite Hur in Hp.
      * intros [[-> ->] | [Hu Hp]]; [by right | by left].
  - intros u' r'. rewrite Hus. intros [[_ <-] | [_ Hp]]%lookup_insert_Some;
      [done | by eapply Hne].
Qed.

(** X9. The disconnect path keeps the room maps in agreement: if the member
    sets and the pointers agree (and no pointer is the empty string) before
    [remove_client], they do afterwards. *)
Theorem remove_client_consistent u c s :
  rooms_consistent s → names_nonempty s →
  let s' := state_of (remove_client u c s) in
  rooms_consistent s' ∧ names_nonempty s'.
Proof.
  intros Hcons Hne. unfold remove_client. unfold_monad. cbn.
  destruct (user_rooms s !! u) as [r|] eqn:Hur; cbn.
  - pose proof (Hne _ _ Hur) as Hr. apply String.eqb_neq in Hr.
    destruct (proj2 (Hcons r u) Hur) as (ms & Hms & Hin).
    rewrite Hms, Hr. cbn. rewrite bool_decide_eq_true_2 by done. cbn.
    destruct (clients s !! u); cbn; by eapply vacate_consistent.
  - assert (Hgoal : ∀ st : server,
      rooms st = rooms s → user_rooms st = delete u (user_rooms s) →
      rooms_consistent st ∧ names_nonempty st).
    { intros st Hrs Hus.
      assert (Hsame : delete u (user_rooms s) = user_rooms s)
        by (by apply delete_id).
      rewrite Hsame in Hus. split.
      - intros r' u'. rewrite Hrs, Hus. apply Hcons.
      - intros u' r'. rewrite Hus. apply Hne. }
    destruct (clients s !! u); cbn; by apply Hgoal.
Qed.

(** X10. [/leave] keeps the room maps in agreement, whatever the sender's
    situation: in a room with others, alone in it, or in no room. *)
Theorem leave_consistent u i cmd p0 rest c s :
  Py.split (Some 1%nat) cmd = p0 :: rest →
  Py.lower p0 = "/leave" →
  clients s !! u = Some i →
  rooms_consistent s → names_nonempty s →
  let s' := state_of (handle_command u (JStr cmd) c s) in
  rooms_consistent s' ∧ names_nonempty s'.
Proof.
  intros Hsplit Hlow Hi Hcons Hne. cbn [handle_command].
  rewrite (handle_command_str_dispatch _ _ _ _ _ _ _ Hsplit Hi), Hlow.
  change (dispatch_command u i cmd (now_ts c) "/leave" (p0 :: rest))
    with (cmd_leave u i (now_ts c)).
  unfold cmd_leave. unfold_monad. cbn.
  destruct (user_rooms s !! u) as [r|] eqn:Hur; cbn; [| done].
  pose proof (Hne _ _ Hur) as Hr. apply String.eqb_neq in Hr. rewrite Hr. cbn.
  destruct (proj2 (Hcons r u) Hur) as (ms & Hms & Hin). rewrite Hms. cbn.
  by eapply vacate_consistent.
Qed.

Lemma rev_app_nonempty w acc : acc ≠ "" → String.rev_app w acc ≠ "".
Proof.
  revert acc. induction w as [|a w IH]; intros acc Hacc; [done |].
  cbn. by apply IH.
Qed.

(** The pieces of [split] are never empty. *)
Lemma split_go_nonempty s maxsplit cur :
  (∀ w, cur = Some w → w ≠ "") →
  Forall (λ t, t ≠ "") (Py.split_go maxsplit cur s).
Proof.
  revert maxsplit cur. induction s as [|a s IH]; intros maxsplit cur Hcur; cbn.
  - destruct cur as [w|]; [| constructor].
    constructor; [| constructor].
    destruct w as [|b w]; [by exfalso; eapply Hcur |].
    unfold String.rev. cbn. by apply rev_app_nonempty.
  - destruct cur as [w|].
    + destruct (Py.is_space a).
      * constructor; [| by apply IH].
        destruct w as [|b w]; [by exfalso; eapply Hcur |].
        unfold String.rev. cbn. by apply rev_app_nonempty.
      * apply IH. by intros ? [= <-].
    + destruct (Py.is_space a); [by apply IH |].
      destruct maxsplit as [[|n]|];
        [by repeat constructor | apply IH; by intros ? [= <-] ..].
Qed.

Lemma split_nonempty maxsplit s t : t ∈ Py.split maxsplit s → t ≠ "".
Proof.
  intros Hin. pose proof (split_go_nonempty s maxsplit None) as Hall.
  rewrite Forall_forall in Hall. apply Hall; [done | exact Hin].
Qed.

(** X11. [/join] keeps the room maps in agreement, whatever its arguments
    and outcome: usage error, refused password, a new room, a move from a
    previous room (which is deleted when it becomes empty) or a re-join of
    the current one. *)
Theorem join_consistent u i cmd p0 rest c s :
  Py.split (Some 1%nat) cmd = p0 :: rest →
  Py.lower p0 = "/join" →
  clients s !! u = Some i →
  rooms_consistent s → names_nonempty s →
  let s' := state_of (handle_command u (JStr cmd) c s) in
  rooms_consistent s' ∧ names_nonempty s'.
Proof.
  intros Hsplit Hlow Hi Hcons Hne. cbn [handle_command].
  rewrite (handle_command_str_dispatch _ _ _ _ _ _ _ Hsplit Hi), Hlow.
  change (dispatch_command u i cmd (now_ts c) "/join" (p0 :: rest))
    with (cmd_join u i cmd (now_ts c)).
  unfold cmd_join.
  destruct (Py.split (Some 2%nat) cmd) as [|c0 [|r2 rest2]] eqn:Hs2; [done .. |].
  assert (Hr2 : r2 ≠ "").
  { apply (split_nonempty (Some 2%nat) cmd). rewrite Hs2.
    apply list_elem_of_further, list_elem_of_here. }
  fold (password_arg rest2). unfold_monad. cbn.
  assert (Hdone : ∀ st : server,
    rooms st
    = <[r2 := default ∅
                (match user_rooms s !! u with
                 | Some prev =>
                     discard_member prev u (default ∅ (rooms s !! prev)) (rooms s)
                 | None => rooms s
                 end !! r2) ∪ {[u]}]>
        (match user_rooms s !! u with
         | Some prev => discard_member prev u (default ∅ (rooms s !! prev)) (rooms s)
         | None => rooms s
         end) →
    user_rooms st = <[u := r2]> (user_rooms s) →
    rooms_consistent st ∧ names_nonempty st)
    by (intros st; by apply move_consistent).
  destruct (room_passwords s !! r2) as [stored|]; cbn;
    [destruct (String.eqb stored (password_arg rest2)); cbn; [| done]
    | destruct (negb (String.eqb (password_arg rest2) "") && _); cbn];
    (destruct (user_rooms s !! u) as [prev|] eqn:Hur; cbn;
     [pose proof (Hne _ _ Hur) as Hp; apply String.eqb_neq in Hp;
      destruct (proj2 (Hcons prev u) Hur) as (ms & Hms & Hin);
      rewrite Hms, Hp; cbn; rewrite bool_decide_eq_true_2 by done; cbn;
      apply Hdone; cbn; rewrite ?Hms; reflexivity
     | apply Hdone; reflexivity]).
Qed.

(** X12. [/create] by a sender that is in no room keeps the room maps in
    agreement, whether the room is created or the name is already taken. *)
Theorem create_outside_consistent u i cmd p0 rest c s :
  Py.split (Some 1%nat) cmd = p0 :: rest →
  Py.lower p0 = "/create" →
  clients s !! u = Some i →
  user_rooms s !! u = None →
  rooms_consistent s → names_nonempty s →
  let s' := state_of (handle_command u (JStr cmd) c s) in
  rooms_consistent s' ∧ names_nonempty s'.
Proof.
  intros Hsplit Hlow Hi Hur Hcons Hne. cbn [handle_command].
  rewrite (handle_command_str_dispatch _ _ _ _ _ _ _ Hsplit Hi), Hlow.
  change (dispatch_command u i cmd (now_ts c) "/create" (p0 :: rest))
    with (cmd_create u i cmd (now_ts c)).
  unfold cmd_create.
  destruct (Py.split (Some 2%nat) cmd) as [|c0 [|r2 rest2]] eqn:Hs2; [done .. |].
  assert (Hr2 : r2 ≠ "").
  { apply (split_nonempty (Some 2%nat) cmd). rewrite Hs2.
    apply list_elem_of_further, list_elem_of_here. }
  fold (password_arg rest2). unfold_monad. cbn.
  destruct (rooms s !! r2) as [ms|] eqn:Hfree; cbn; [done |].
  assert (Hdone : ∀ st : server,
    rooms st = <[r2 := {[u]}]> (rooms s) →
    user_rooms st = <[u := r2]> (user_rooms s) →
    rooms_consistent st ∧ names_nonempty st).
  { intros st Hrs Hus. apply (move_consistent s st u r2); try done.
    rewrite Hur, Hfree. cbn. rewrite Hrs. f_equal. by rewrite union_empty_l_L. }
  destruct (String.eqb (password_arg rest2) ""); cbn;
    match goal with |- rooms_consistent ?st ∧ _ => by apply (Hdone st) end.
Qed.

(** [/create] by a sender that is in a room leaves the sender in the member
    set of that room while the pointer moves to the new room: the maps
    disagree afterwards, whatever the registry was. *)
Lemma create_inside_inconsistent u i cmd p0 rest c0 r2 rest2 c s r ms :
  Py.split (Some 1%nat) cmd = p0 :: rest →
  Py.lower p0 = "/create" →
  Py.split (Some 2%nat) cmd = c0 :: r2 :: rest2 →
  clients s !! u = Some i →
  user_rooms s !! u = Some r →
  rooms s !! r = Some ms → u ∈ ms →
  rooms s !! r2 = None →
  let s' := state_of (handle_command u (JStr cmd) c s) in
  member (rooms s') r u ∧ member (rooms s') r2 u ∧ r ≠ r2 ∧
  ¬ rooms_consistent s'.
Proof.
  intros Hsplit Hlow Hs2 Hi Hur Hms Hin Hfree. cbn [handle_command].
  rewrite (handle_command_str_dispatch _ _ _ _ _ _ _ Hsplit Hi), Hlow.
  change (dispatch_command u i cmd (now_ts c) "/create" (p0 :: rest))
    with (cmd_create u i cmd (now_ts c)).
  unfold cmd_create. rewrite Hs2. fold (password_arg rest2). unfold_monad. cbn.
  rewrite Hfree. cbn.
  assert (Hne : r ≠ r2) by (intros ->; congruence).
  assert (Hdone : ∀ st : server,
    rooms st = <[r2 := {[u]}]> (rooms s) →
    user_rooms st = <[u := r2]> (user_rooms s) →
    member (rooms st) r u ∧ member (rooms st) r2 u ∧ r ≠ r2 ∧ ¬ rooms_consistent st).
  { intros st Hrs Hus.
    assert (Hold : member (rooms st) r u).
    { exists ms. by rewrite Hrs, lookup_insert_ne. }
    split; [exact Hold |]. split; [| split; [exact Hne |]].
    - exists {[u]}. rewrite Hrs, lookup_insert_eq.
      split; [done | by apply elem_of_singleton].
    - intros Hcons. apply Hcons in Hold.
      rewrite Hus, lookup_insert_eq in Hold. by injection Hold as ->. }
  destruct (String.eqb (password_arg rest2) "");
    match goal with |- member (rooms ?st) _ _ ∧ _ => by apply (Hdone st) end.
Qed.

(** The example registry with alice in the room gaming has consistent room
    maps. *)
Lemma ex_server_room_consistent :
  rooms_consistent ex_server_room ∧ names_nonempty ex_server_room.
Proof.
  assert (Hr : rooms ex_server_room = {["gaming" := {["alice"]}]})
    by (vm_compute; reflexivity).
  assert (Hu : user_rooms ex_server_room = {["alice" := "gaming"]})
    by (vm_compute; reflexivity).
  split.
  - intros r u. rewrite Hr, Hu. split.
    + intros (ms & Hms & Hin). apply lookup_singleton_Some in Hms as [<- <-].
      apply elem_of_singleton in Hin as ->. apply lookup_singleton_eq.
    + intros Hptr. apply lookup_singleton_Some in Hptr as [<- <-].
      exists {["alice"]}. split; [apply lookup_singleton_eq | by apply elem_of_singleton].
  - intros u r. rewrite Hu. intros [_ <-]%lookup_singleton_Some. discriminate.
Qed.

Lemma remove_client_consistent_witness :
  rooms_consistent (state_of (remove_client "alice" ex_clock ex_server_room)).
Proof.
  apply (remove_client_consistent "alice" ex_clock ex_server_room);
    apply ex_server_room_consistent.
Defined.

Lemma leave_consistent_witness :
  rooms_consistent
    (state_of (handle_command "alice" (JStr "/leave") ex_clock ex_server_room)).
Proof.
  apply (leave_consistent "alice" (ex_client 1) "/leave" "/leave" [] ex_clock
           ex_server_room);
    [vm_compute; reflexivity .. | apply ex_server_room_consistent
    | apply ex_server_room_consistent].
Defined.

Lemma join_consistent_witness :
  rooms_consistent
    (state_of (handle_command "bob" (JStr "/join gaming pw123") ex_clock
                 ex_server_room)).
Proof.
  apply (join_consistent "bob" (ex_client 2) "/join gaming pw123" "/join"
           ["gaming pw123"] ex_clock ex_server_room);
    [vm_compute; reflexivity .. | apply ex_server_room_consistent
    | apply ex_server_room_consistent].
Defined.

Lemma create_outside_consistent_witness :
  rooms_consistent
    (state_of (handle_command "bob" (JStr "/create chess") ex_clock ex_server_room)).
Proof.
  apply (create_outside_consistent "bob" (ex_client 2) "/create chess" "/create"
           ["chess"] ex_clock ex_server_room);
    [vm_compute; reflexivity .. | apply ex_server_room_consistent
    | apply ex_server_room_consistent].
Defined.

(** * Further properties of the modelled code *)

(** ** Credential file *)

(** X1. Registering a fresh username succeeds and stores the password: from
    then on [authenticate_user] accepts exactly that password for the name,
    and its answers for every other name are as before. *)
Theorem register_then_authenticate username password c s :
  users_db s !! username = None →
  let r := register_user username password c s in
  result_of r = Done true ∧
  (∀ pw c', result_of (authenticate_user username pw c' (state_of r))
            = Done (bool_decide (pw = password))) ∧
  (∀ other pw c', other ≠ username →
     result_of (authenticate_user other pw c' (state_of r))
     = result_of (authenticate_user other pw c' s)).
Proof.
  intros Hfree. unfold register_user, authenticate_user. unfold_monad. cbn.
  rewrite Hfree. cbn. split; [done |]. split.
  - intros pw _. rewrite lookup_insert_eq. f_equal.
    apply bool_decide_ext. split; [by intros [= ->] | by intros ->].
  - intros other pw _ Hne. by rewrite lookup_insert_ne.
Qed.

Lemma register_then_authenticate_witness :
  let r := register_user "carol" "s3cret" ex_clock ex_server in
  result_of r = Done true ∧
  result_of (authenticate_user "carol" "s3cret" ex_clock (state_of r)) = Done true ∧
  result_of (authenticate_user "carol" "other" ex_clock (state_of r)) = Done false.
Proof.
  intros r.
  destruct (register_then_authenticate "carol" "s3cret" ex_clock ex_server eq_refl)
    as (Hok & Hauth & _).
  split; [exact Hok |]. split; [exact (Hauth "s3cret" ex_clock) |].
  exact (Hauth "other" ex_clock).
Defined.

(** X2. Registering a username that already has an account is refused,
    writes nothing, and the password on file keeps being the one that
    authenticates: there is no way to change a password through
    [register_user]. *)
Theorem register_existing_keeps_password username password old c s :
  users_db s !! username = Some old →
  register_user username password c s = (Done false, s, []) ∧
  (∀ pw c', result_of (authenticate_user username pw c' s)
            = Done (bool_decide (pw = old))).
Proof.
  intros Hold. unfold register_user, authenticate_user. unfold_monad. cbn.
  rewrite Hold. split; [done |]. intros pw _. cbn. f_equal.
  apply bool_decide_ext. split; [by intros [= ->] | by intros ->].
Qed.

Lemma register_existing_keeps_password_witness :
  register_user "alice" "hacked" ex_clock ex_server = (Done false, ex_server, []) ∧
  result_of (authenticate_user "alice" "hacked" ex_clock ex_server) = Done false ∧
  result_of (authenticate_user "alice" "secret1" ex_clock ex_server) = Done true.
Proof.
  destruct (register_existing_keeps_password "alice" "hacked" "secret1" ex_clock
              ex_server eq_refl) as [Hreg Hauth].
  split; [exact Hreg |]. split; [exact (Hauth "hacked" ex_clock) |].
  exact (Hauth "secret1" ex_clock).
Defined.

(** ** Sessions that are let in *)

Lemma checks_accepted s username password register :
  checks_in_order s username password register = Accepted →
  (3 ≤ String.length username)%nat ∧ (4 ≤ String.length password)%nat ∧
  register = false ∧
  users_db s !! username = Some password ∧
  (username ∉ banned s) ∧ clients s !! username = None.
Proof.
  unfold checks_in_order.
  destruct (String.eqb username ""); [done |].
  destruct (Nat.ltb_spec (String.length username) 3); [done |].
  destruct (String.eqb password ""); [done |].
  destruct (Nat.ltb_spec (String.length password) 4); [done |].
  destruct register; [by case_bool_decide |].
  case_bool_decide as Hdb; [| done]. cbn.
  case_bool_decide as Hban; [done |].
  case_bool_decide as Hcl; [done |]. intros _.
  repeat split; try done.
  destruct (clients s !! username) eqn:E; [| done]. exfalso. apply Hcl. eauto.
Qed.

(** What [handle_client] has checked when a session enters the main loop. *)
Lemma auth_accepted cn ad frame c s name :
  result_of (handle_client_auth cn ad frame c s) = Done (Some name) →
  (3 ≤ String.length name)%nat ∧
  (∃ password, (4 ≤ String.length password)%nat ∧
               users_db s !! name = Some password) ∧
  (name ∉ banned s) ∧
  clients s !! name = None ∧
  clients (state_of (handle_client_auth cn ad frame c s)) !! name
  = Some {| conn := cn; addr := ad; muted_until := 0; is_admin := false;
            joined := time_time c |} ∧
  users_db (state_of (handle_client_auth cn ad frame c s)) = users_db s ∧
  banned (state_of (handle_client_auth cn ad frame c s)) = banned s.
Proof.
  destruct frame as [| | obj]; [done | done |].
  destruct obj as [| | | | |d]; try done.
  unfold handle_client_auth, get.
  destruct (is_str (default JNull (assoc_get d "type")) "auth") eqn:Hty;
    [| unfold bind, ret, try_except, result_of; cbn; rewrite Hty; done].
  destruct (default (JStr "") (assoc_get d "username")) as [| | |u0| |] eqn:Hu;
    try (unfold bind, ret, try_except, result_of, strip_value, raise; cbn;
         rewrite Hty; done).
  destruct (default (JStr "") (assoc_get d "password")) as [| | |p0| |] eqn:Hp;
    try (unfold bind, ret, try_except, result_of, login, get, strip_value, raise;
         cbn; rewrite Hty; cbn; rewrite Hp; cbn;
         destruct (finally_remove (Py.strip u0) c s) as [[[] ?] ?]; done).
  destruct (login_run cn ad d u0 p0 c s Hp) as [rest Hlogin].
  cbv zeta in Hlogin.
  set (v := checks_in_order s (Py.strip u0) (Py.strip p0)
              (truthy (default (JBool false) (assoc_get d "register")))) in *.
  unfold bind, ret, try_except, strip_value.
  cbn -[login finally_remove]. rewrite Hty. cbn -[login finally_remove].
  rewrite Hlogin.
  destruct v eqn:Hv; cbn -[finally_remove];
    try (destruct (finally_remove (Py.strip u0) c _) as [[[] ?] ?]; done).
  intros [= <-]. subst v. apply checks_accepted in Hv
    as (Hlen & Hplen & _ & Hdb & Hban & Hcl).
  unfold state_of. cbn. rewrite lookup_insert_eq.
  repeat split; eauto.
Qed.



(** ** Fan-out *)

Lemma recipients_spec s exclude room u i :
  (u, i) ∈ recipients s exclude room
  ↔ clients s !! u = Some i ∧ (u ∉ exclude) ∧ in_scope s room u = true.
Proof.
  unfold recipients, receives. rewrite list_elem_of_In, filter_In, <- list_elem_of_In.
  rewrite elem_of_map_to_list. cbn. rewrite andb_true_iff, bool_decide_eq_true.
  tauto.
Qed.

(** X4. [broadcast] changes nothing in the registry and sends the object
    once to each session it selects and to no other: the sessions whose
    username is not excluded and, when a non-empty room is given, whose
    current-room pointer is that room. *)
Theorem broadcast_reaches_exactly obj exclude room c s :
  let targets := recipients s exclude room in
  broadcast obj exclude room c s
  = (Done tt, s, (λ p, Send (conn p.2) obj) <$> targets) ∧
  NoDup targets ∧
  (∀ u i, (u, i) ∈ targets
          ↔ clients s !! u = Some i ∧ (u ∉ exclude) ∧
            match room with
            | Some r => r = "" ∨ user_rooms s !! u = Some r
            | None => True
            end).
Proof.
  intros targets. split; [reflexivity |]. split.
  - unfold targets, recipients. apply NoDup_ListNoDup, List.NoDup_filter.
    apply NoDup_ListNoDup, NoDup_map_to_list.
  - intros u i. unfold targets. rewrite recipients_spec. unfold in_scope.
    destruct room as [r|]; [| tauto].
    destruct (String.eqb_spec r "") as [-> | Hr].
    + split; intros (? & ? & _); repeat split; auto.
    + rewrite bool_decide_eq_true. split; intros (? & ? & H); repeat split; auto.
      by destruct H.
Qed.

(** X5. A broadcast request never comes back to a session registered under
    the sender's name, and it is scoped by the sender's pointer: a sender in
    room [r] reaches exactly the other sessions whose pointer is [r], while a
    sender in no room reaches every other session, also those that are in a
    room. *)
Theorem broadcast_request_scope username cn d ts c s :
  let room := user_rooms s !! username in
  let targets := recipients s [username] room in
  events_of (dispatch_request username cn (JDict d) (JStr "broadcast") ts c s)
  = (((λ p, Send (conn p.2)
              (JDict [("type", JStr "broadcast"); ("from", JStr username);
                      ("message", default (JStr "") (assoc_get d "message"));
                      ("timestamp", JStr ts)])) <$> targets)
     ++ [Log [Lit ("[" ++ ts ++ "] " ++ username ++ " (room:");
              Val (from_option JStr JNull room); Lit "): ";
              Val (default (JStr "") (assoc_get d "message"))]])%list ∧
  (∀ i, (username, i) ∉ targets) ∧
  (room = None →
   ∀ u i, (u, i) ∈ targets ↔ clients s !! u = Some i ∧ u ≠ username) ∧
  (∀ r, room = Some r → r ≠ "" →
   ∀ u i, (u, i) ∈ targets
          ↔ clients s !! u = Some i ∧ u ≠ username ∧ user_rooms s !! u = Some r).
Proof.
  intros room targets. split; [reflexivity |]. unfold targets.
  split; [| split].
  - intros i. rewrite recipients_spec. intros (_ & Hex & _). apply Hex.
    apply list_elem_of_here.
  - intros Hroom u i. rewrite recipients_spec, Hroom. cbn.
    rewrite list_elem_of_singleton. tauto.
  - intros r Hroom Hr u i. rewrite recipients_spec, Hroom. cbn.
    apply String.eqb_neq in Hr. rewrite Hr, bool_decide_eq_true.
    rewrite list_elem_of_singleton. tauto.
Qed.

Lemma broadcast_request_scope_witness :
  let d := [("type", JStr "broadcast"); ("message", JStr "hi")] in
  (∀ u i, (u, i) ∈ recipients ex_server_room ["bob"] (user_rooms ex_server_room !! "bob")
          ↔ clients ex_server_room !! u = Some i ∧ u ≠ "bob") ∧
  (∀ u i, (u, i) ∈ recipients ex_server_room ["alice"]
                     (user_rooms ex_server_room !! "alice")
          ↔ clients ex_server_room !! u = Some i ∧ u ≠ "alice"
            ∧ user_rooms ex_server_room !! u = Some "gaming").
Proof.
  intros d.
  destruct (broadcast_request_scope "bob" 2 d "ts" ex_clock ex_server_room)
    as (_ & _ & Hnone & _).
  destruct (broadcast_request_scope "alice" 1 d "ts" ex_clock ex_server_room)
    as (_ & _ & _ & Hroom).
  split.
  - apply Hnone. vm_compute. reflexivity.
  - apply (Hroom "gaming"); [vm_compute; reflexivity | discriminate].
Defined.

(** ** Removing a session *)

Lemma remove_client_maps u c s :
  clients (state_of (remove_client u c s)) = delete u (clients s) ∧
  user_rooms (state_of (remove_client u c s)) = delete u (user_rooms s).
Proof.
  unfold remove_client, state_of. unfold_monad. cbn.
  destruct (user_rooms s !! u) as [r|]; cbn;
    [destruct (negb (String.eqb r "") && _); cbn |];
    destruct (clients s !! u); done.
Qed.

Lemma remove_client_absent u c s :
  clients s !! u = None → user_rooms s !! u = None →
  remove_client u c s = (Done tt, s, []).
Proof.
  intros Hc Hu. unfold remove_client. unfold_monad. cbn. rewrite Hc, Hu. cbn.
  destruct s as [cs bs rs us ps db]. unfold set_user_rooms, set_clients. cbn in *.
  by rewrite !delete_id.
Qed.

(** X6. [remove_client] takes the name out of the session map and clears its
    room pointer, whether or not a session was registered; a second call for
    the same name, as the [finally] clause of a kicked session's handler
    makes, then finds nothing: it changes nothing, closes nothing and
    announces nothing. *)
Theorem remove_client_twice u c c' s :
  let s1 := state_of (remove_client u c s) in
  clients s1 !! u = None ∧ user_rooms s1 !! u = None ∧
  (∀ v, v ≠ u → clients s1 !! v = clients s !! v
                ∧ user_rooms s1 !! v = user_rooms s !! v) ∧
  remove_client u c' s1 = (Done tt, s1, []).
Proof.
  intros s1. destruct (remove_client_maps u c s) as [Hc Hu]. fold s1 in Hc, Hu.
  assert (H1 : clients s1 !! u = None) by (rewrite Hc; apply lookup_delete_eq).
  assert (H2 : user_rooms s1 !! u = None) by (rewrite Hu; apply lookup_delete_eq).
  split; [exact H1 |]. split; [exact H2 |]. split.
  - intros v Hv. rewrite Hc, Hu. by rewrite !lookup_delete_ne.
  - by apply remove_client_absent.
Qed.

(** ** Lines that follow a removal *)

(** X7. Once the session of [username] is gone from the registry (kicked,
    banned, or removed by another handler), the [for] loop of its handler
    stops at the first decoded line: whatever lines a chunk holds, none is
    dispatched, nothing is sent and the registry is unchanged. *)
Theorem lines_after_removal_are_dropped username cn t_unmute lines c s :
  clients s !! username = None →
  process_lines username cn t_unmute lines c s = (Done tt, s, []).
Proof.
  intros Hgone. induction lines as [|[data|] rest IH]; cbn [process_lines].
  - reflexivity.
  - unfold process_line. unfold_monad. cbn. by rewrite Hgone.
  - exact IH.
Qed.

Lemma lines_after_removal_are_dropped_witness :
  process_lines "carol" 3 100
    [Some (JDict [("type", JStr "broadcast"); ("message", JStr "hi")]); None;
     Some (JDict [("type", JStr "command"); ("command", JStr "/rooms")])]
    ex_clock ex_server
  = (Done tt, ex_server, []).
Proof.
  apply (lines_after_removal_are_dropped "carol" 3 100 _ ex_clock ex_server).
  vm_compute. reflexivity.
Defined.

(** ** What a sender without the admin flag cannot do *)

Lemma no_close_sends {A} (l : list A) (f : A → nat) obj :
  no_close ((λ p, Send (f p) obj) <$> l).
Proof. unfold no_close. apply Forall_fmap, Forall_true. by intros. Qed.

Lemma no_close_app evs1 evs2 : no_close evs1 → no_close evs2 → no_close (evs1 ++ evs2).
Proof. apply Forall_app_2. Qed.

Lemma no_close_cons_send cn obj evs : no_close evs → no_close (Send cn obj :: evs).
Proof. intros H. by constructor. Qed.

Lemma no_close_cons_log line evs : no_close evs → no_close (Log line :: evs).
Proof. intros H. by constructor. Qed.

Lemma no_close_nil : no_close [].
Proof. constructor. Qed.

Lemma others_untouched_refl sender s : others_untouched sender s s.
Proof. by repeat split. Qed.

Create HintDb footprint.
#[local] Hint Resolve no_close_sends no_close_app no_close_cons_send no_close_cons_log
  no_close_nil others_untouched_refl : footprint.

(** Case analysis on a scrutinee that holds no other [match]. *)
Ltac inner_case :=
  match goal with
  | |- context [match ?x with _ => _ end] =>
      lazymatch x with
      | context [match _ with _ => _ end] => fail
      | _ => destruct x eqn:?
      end
  end.

Ltac footprint_branch :=
  unfold_monad; unfold emit; cbn;
  repeat (inner_case; cbn);
  split;
  first
    [ solve [auto 20 with footprint]
    | rewrite ?app_nil_r; solve [auto 20 with footprint]
    | unfold others_untouched; cbn; split; [done |]; split; [done |];
      intros v Hv; apply not_eq_sym in Hv; rewrite ?lookup_alter_ne by done; done ].

Lemma gate_without_flag cmd0 name info c s :
  is_admin info = false →
  ∃ evs, admin_gate cmd0 name info c s = (Done false, s, evs) ∧ no_close evs.
Proof.
  intros Hadm. unfold admin_gate, admin_required. rewrite Hadm.
  destruct (String.eqb cmd0 name); eexists; (split; [reflexivity |]);
    auto with footprint.
Qed.

Lemma state_of_triple {A} (r : outcome A) s evs : state_of (r, s, evs) = s.
Proof. reflexivity. Qed.

Lemma events_of_triple {A} (r : outcome A) s evs : events_of (r, s, evs) = evs.
Proof. reflexivity. Qed.

Ltac gate_step Hadm :=
  match goal with
  | |- context [bind (admin_gate ?c0 ?name ?info) ?k ?c ?s] =>
      let evs := fresh "evs" in
      let Hg := fresh "Hg" in
      let Hnc := fresh "Hnc" in
      destruct (gate_without_flag c0 name info c s Hadm) as (evs & Hg & Hnc);
      rewrite (run_bind_done _ _ _ _ _ _ _ Hg);
      rewrite state_of_triple, events_of_triple;
      cbv beta iota
  end.

Lemma dispatch_without_flag sender info cmd ts cmd0 parts c s :
  is_admin info = false →
  let r := dispatch_command sender info cmd ts cmd0 parts c s in
  others_untouched sender s (state_of r) ∧ no_close (events_of r).
Proof.
  intros Hadm. unfold dispatch_command.
  destruct (String.eqb cmd0 "/admin");
    [unfold state_of, events_of, cmd_admin; footprint_branch |].
  destruct (String.eqb cmd0 "/list" || String.eqb cmd0 "/users");
    [unfold state_of, events_of, cmd_list; footprint_branch |].
  destruct (String.eqb cmd0 "/whoami");
    [unfold state_of, events_of, cmd_whoami; footprint_branch |].
  destruct (String.eqb cmd0 "/create");
    [unfold state_of, events_of, cmd_create; footprint_branch |].
  destruct (String.eqb cmd0 "/join");
    [unfold state_of, events_of, cmd_join; footprint_branch |].
  destruct (String.eqb cmd0 "/leave");
    [unfold state_of, events_of, cmd_leave; footprint_branch |].
  destruct (String.eqb cmd0 "/rooms");
    [unfold state_of, events_of, cmd_rooms; footprint_branch |].
  destruct (String.eqb cmd0 "/me");
    [unfold state_of, events_of, cmd_me; footprint_branch |].
  cbv zeta. do 7 gate_step Hadm.
  destruct (String.eqb cmd0 "/help" || String.eqb cmd0 "/?");
    (split; [apply others_untouched_refl |]);
    repeat (apply no_close_app; [assumption |]);
    unfold cmd_help, cmd_unknown, send_json, emit; cbn; auto with footprint.
Qed.

(** X8. Whatever command a registered sender without the admin flag issues
    (any JSON value in the [command] field), the ban set, the credential
    file and the session record of every other user are left as they were,
    and no connection is closed: such a sender can mute, kick or ban
    nobody. *)
Theorem non_admin_cannot_touch_others sender info cmd c s :
  clients s !! sender = Some info →
  is_admin info = false →
  let r := handle_command sender cmd c s in
  others_untouched sender s (state_of r) ∧ no_close (events_of r).
Proof.
  intros Hinfo Hadm.
  destruct cmd as [| b | n | text | l | d]; cbn [handle_command];
    try (destruct (truthy _); cbn;
         (split; [apply others_untouched_refl | apply no_close_nil])).
  destruct (Py.split (Some 1%nat) text) as [|p0 rest] eqn:Hsplit.
  { unfold handle_command_str. rewrite Hsplit. cbn.
    split; [apply others_untouched_refl | apply no_close_nil]. }
  rewrite (handle_command_str_dispatch _ _ _ _ _ _ _ Hsplit Hinfo).
  pose proof (dispatch_without_flag sender info text (now_ts c) (Py.lower p0)
                (p0 :: rest) c s Hadm) as [Hst Hev].
  unfold try_except, state_of, events_of in *.
  destruct (dispatch_command sender info text (now_ts c) (Py.lower p0) (p0 :: rest) c s)
    as [[[[]|e] s1] o1]; cbn in *.
  - split; [exact Hst | exact Hev].
  - split; [exact Hst |].
    apply no_close_app; [exact Hev | apply no_close_cons_send, no_close_nil].
Qed.

Lemma non_admin_cannot_touch_others_witness :
  let r := handle_command "alice" (JStr "/ban bob") ex_clock ex_server in
  banned (state_of r) = banned ex_server ∧
  clients (state_of r) !! "bob" = Some (ex_client 2) ∧
  no_close (events_of r).
Proof.
  intros r.
  destruct (non_admin_cannot_touch_others "alice" (ex_client 1) (JStr "/ban bob")
              ex_clock ex_server eq_refl eq_refl) as [(Hban & _ & Hothers) Hev].
  split; [exact Hban |]. split; [| exact Hev].
  subst r. rewrite (Hothers "bob"); [reflexivity | discriminate].
Defined.

(** ** No empty room is ever kept *)

Lemma nonempty_insert rs r (ms : gset string) :
  ms ≠ ∅ → nonempty_sets rs → nonempty_sets (<[r := ms]> rs).
Proof.
  intros Hms Hrs r' ms'. rewrite lookup_insert_Some.
  intros [[_ <-] | [_ Hl]]; [done | by eapply Hrs].
Qed.

Lemma nonempty_delete rs r : nonempty_sets rs → nonempty_sets (delete r rs).
Proof. intros Hrs r' ms' [_ Hl]%lookup_delete_Some. by eapply Hrs. Qed.

Lemma nonempty_discard rs r u ms :
  nonempty_sets rs → nonempty_sets (discard_member r u ms rs).
Proof.
  intros Hrs. unfold discard_member. destruct (decide (ms ∖ {[u]} = ∅)).
  - by apply nonempty_delete.
  - by apply nonempty_insert.
Qed.

Lemma nonempty_add rs r (ms : gset string) u :
  nonempty_sets rs → nonempty_sets (<[r := ms ∪ {[u]}]> rs).
Proof.
  intros Hrs. apply nonempty_insert; [| done].
  intros Hempty. assert (u ∈ ms ∪ {[u]}) as Hin
    by (apply elem_of_union; right; by apply elem_of_singleton).
  rewrite Hempty in Hin. by apply elem_of_empty in Hin.
Qed.

Lemma nonempty_single rs r u :
  nonempty_sets rs → nonempty_sets (<[r := {[u]}]> rs).
Proof.
  intros Hrs. apply nonempty_insert; [| done].
  intros Hempty. assert (u ∈ ({[u]} : gset string)) as Hin by (by apply elem_of_singleton).
  rewrite Hempty in Hin. by apply elem_of_empty in Hin.
Qed.

#[local] Hint Resolve nonempty_discard nonempty_add nonempty_single : footprint.

Lemma remove_client_nonempty u c s :
  nonempty_sets (rooms s) → nonempty_sets (rooms (state_of (remove_client u c s))).
Proof.
  intros Hrs. unfold remove_client, state_of. unfold_monad. cbn.
  destruct (user_rooms s !! u) as [r|]; cbn;
    [destruct (negb (String.eqb r "") && _); cbn |];
    destruct (clients s !! u); cbn; auto with footprint.
Qed.

Ltac rooms_branch :=
  unfold state_of; unfold_monad; unfold emit; cbn;
  repeat (inner_case; cbn);
  auto with footprint.

Lemma gate_run cmd0 name info c s :
  ∃ g evs, admin_gate cmd0 name info c s = (Done g, s, evs).
Proof.
  unfold admin_gate, admin_required.
  destruct (String.eqb cmd0 name); [destruct (is_admin info) |]; by eexists _, _.
Qed.

Ltac gate_run_step :=
  match goal with
  | |- context [bind (admin_gate ?c0 ?name ?info) ?k ?c ?s] =>
      let g := fresh "g" in
      let evs := fresh "evs" in
      let Hg := fresh "Hg" in
      destruct (gate_run c0 name info c s) as (g & evs & Hg);
      rewrite (run_bind_done _ _ _ _ _ _ _ Hg);
      rewrite state_of_triple;
      cbv beta iota; destruct g
  end.

Lemma dispatch_nonempty sender info cmd ts cmd0 parts c s :
  nonempty_sets (rooms s) →
  nonempty_sets (rooms (state_of (dispatch_command sender info cmd ts cmd0 parts c s))).
Proof.
  intros Hrs. unfold dispatch_command.
  destruct (String.eqb cmd0 "/admin"); [unfold cmd_admin; rooms_branch |].
  destruct (String.eqb cmd0 "/list" || String.eqb cmd0 "/users");
    [unfold cmd_list; rooms_branch |].
  destruct (String.eqb cmd0 "/whoami"); [unfold cmd_whoami; rooms_branch |].
  destruct (String.eqb cmd0 "/create"); [unfold cmd_create; rooms_branch |].
  destruct (String.eqb cmd0 "/join"); [unfold cmd_join; rooms_branch |].
  destruct (String.eqb cmd0 "/leave"); [unfold cmd_leave; rooms_branch |].
  destruct (String.eqb cmd0 "/rooms"); [unfold cmd_rooms; rooms_branch |].
  destruct (String.eqb cmd0 "/me"); [unfold cmd_me; rooms_branch |].
  cbv zeta.
  gate_run_step; [unfold cmd_mute, float_add; rooms_branch |].
  gate_run_step; [unfold cmd_unmute; rooms_branch |].
  gate_run_step.
  { unfold cmd_kick.
    destruct (Py.split None cmd) as [|c0 [|target rest]]; [rooms_branch .. |].
    unfold bind at 1, gets at 1.
    destruct (clients s !! target) as [ti|]; [| rooms_branch].
    unfold state_of, bind, send_json, emit, broadcast, send_all, save_log, gets.
    pose proof (remove_client_nonempty target c s Hrs) as Hrm.
    unfold state_of in Hrm. rewrite (remove_client_run target c s) in *.
    cbn in *. exact Hrm. }
  gate_run_step.
  { unfold cmd_ban.
    destruct (Py.split None cmd) as [|c0 [|target rest]]; [rooms_branch .. |].
    unfold state_of, bind, modify, save_banned, broadcast, send_all, save_log, gets,
      emit. cbn -[remove_client].
    pose proof (remove_client_nonempty target c
                  (set_banned (λ b, b ∪ {[target]}) s) Hrs) as Hrm.
    unfold state_of in Hrm.
    rewrite (remove_client_run target c (set_banned (λ b, b ∪ {[target]}) s)) in *.
    cbn in *. exact Hrm. }
  gate_run_step; [unfold cmd_unban, save_banned; rooms_branch |].
  gate_run_step; [unfold cmd_listbans; rooms_branch |].
  gate_run_step; [unfold cmd_announce; rooms_branch |].
  destruct (String.eqb cmd0 "/help" || String.eqb cmd0 "/?");
    [unfold cmd_help | unfold cmd_unknown]; rooms_branch.
Qed.

Lemma ex_server_room_nonempty : rooms_nonempty ex_server_room.
Proof.
  assert (Hr : rooms ex_server_room = {["gaming" := {["alice"]}]})
    by (vm_compute; reflexivity).
  intros r ms. rewrite Hr. intros [_ <-]%lookup_singleton_Some Hempty.
  assert ("alice" ∈ ({["alice"]} : gset string)) as Hin by (by apply elem_of_singleton).
  rewrite Hempty in Hin. by apply elem_of_empty in Hin.
Qed.

(** X13. No command and no disconnect leaves a room without members in the
    room map: when every listed room has a member, the same holds after
    [handle_command] for any sender (admin or not) and any command value,
    and after [remove_client] for any name. *)
Theorem no_empty_room_is_kept sender cmd c s :
  rooms_nonempty s →
  rooms_nonempty (state_of (handle_command sender cmd c s)) ∧
  rooms_nonempty (state_of (remove_client sender c s)).
Proof.
  intros Hrs. split; [| by apply remove_client_nonempty].
  destruct cmd as [| b | n | text | l | d]; cbn [handle_command];
    try (destruct (truthy _); exact Hrs).
  unfold handle_command_str.
  destruct (Py.split (Some 1%nat) text) as [|p0 rest] eqn:Hsplit; [exact Hrs |].
  cbv zeta. unfold bind at 1, gets at 1.
  destruct (clients s !! sender) as [info|] eqn:Hinfo; [| exact Hrs].
  unfold bind at 1, ask at 1.
  pose proof (dispatch_nonempty sender info text (now_ts c) (Py.lower p0)
                (p0 :: rest) c s Hrs) as Hst.
  unfold try_except, state_of, send_json, emit in *.
  destruct (dispatch_command sender info text (now_ts c) (Py.lower p0) (p0 :: rest) c s)
    as [[[[]|e] s1] o1]; cbn in *; exact Hst.
Qed.

Lemma no_empty_room_is_kept_witness :
  rooms_nonempty
    (state_of (handle_command "alice" (JStr "/leave") ex_clock ex_server_room)) ∧
  rooms_nonempty (state_of (remove_client "alice" ex_clock ex_server_room)).
Proof.
  apply (no_empty_room_is_kept "alice" (JStr "/leave") ex_clock ex_server_room).
  apply ex_server_room_nonempty.
Defined.

(** ** Moderation commands of an admin *)

(** [cmd.split(maxsplit=1)] and [cmd.split()] start with the same word. *)
Lemma split_go_head m cur s :
  head (Py.split_go (Some (S m)) cur s) = head (Py.split_go None cur s).
Proof.
  revert cur. induction s as [|a s IH]; intros cur; cbn; [done |].
  destruct cur as [w|].
  - destruct (Py.is_space a); [done | apply IH].
  - destruct (Py.is_space a); apply IH.
Qed.

Lemma split_first_word cmd p0 ws :
  Py.split None cmd = p0 :: ws → ∃ rest, Py.split (Some 1%nat) cmd = p0 :: rest.
Proof.
  intros Hs. pose proof (split_go_head 0 None cmd) as Hh.
  unfold Py.split in *. rewrite Hs in Hh. cbn in Hh.
  destruct (Py.split_go (Some 1%nat) None cmd) as [|q rest]; [done |].
  cbn in Hh. injection Hh as ->. by exists rest.
Qed.

Ltac gated_with_flag Hadm body :=
  unfold dispatch_command, admin_gate, admin_required;
  generalize body; intros k;
  cbn [String.eqb Ascii.eqb Bool.eqb orb]; rewrite Hadm;
  unfold bind, ret; cbn;
  destruct (k _ _) as [[[?|?] ?] ?]; reflexivity.

Lemma dispatch_kick sender info cmd ts parts c s :
  is_admin info = true →
  dispatch_command sender info cmd ts "/kick" parts c s = cmd_kick sender info cmd ts c s.
Proof. intros Hadm. gated_with_flag Hadm (cmd_kick sender info cmd ts). Qed.

Lemma dispatch_ban sender info cmd ts parts c s :
  is_admin info = true →
  dispatch_command sender info cmd ts "/ban" parts c s = cmd_ban sender info cmd ts c s.
Proof. intros Hadm. gated_with_flag Hadm (cmd_ban sender info cmd ts). Qed.

Lemma dispatch_unban sender info cmd ts parts c s :
  is_admin info = true →
  dispatch_command sender info cmd ts "/unban" parts c s = cmd_unban sender info cmd ts c s.
Proof. intros Hadm. gated_with_flag Hadm (cmd_unban sender info cmd ts). Qed.

(** A command whose branch returns normally is not touched by the
    [except] clause of [handle_command]. *)
Lemma handle_command_returns sender info cmd p0 ws cmd0 c s s1 o1 :
  Py.split None cmd = p0 :: ws →
  Py.lower p0 = cmd0 →
  clients s !! sender = Some info →
  (∀ parts, dispatch_command sender info cmd (now_ts c) cmd0 parts c s
            = (Done tt, s1, o1)) →
  handle_command sender (JStr cmd) c s = (Done tt, s1, o1).
Proof.
  intros Hs Hlow Hinfo Hrun. destruct (split_first_word _ _ _ Hs) as [rest Hs1].
  cbn [handle_command].
  rewrite (handle_command_str_dispatch _ _ _ _ _ _ _ Hs1 Hinfo), Hlow.
  unfold try_except. by rewrite Hrun.
Qed.

Lemma remove_client_closes u i c s :
  clients s !! u = Some i →
  ∃ evs, events_of (remove_client u c s) = Close (conn i) :: evs.
Proof.
  intros Hi. unfold remove_client, events_of. unfold_monad. cbn. rewrite Hi.
  destruct (user_rooms s !! u) as [r|]; cbn;
    [destruct (negb (String.eqb r "") && _); cbn |]; eauto.
Qed.

Lemma cmd_kick_run sender info cmd ts p0 target rest ti c s :
  Py.split None cmd = p0 :: target :: rest →
  clients s !! target = Some ti →
  cmd_kick sender info cmd ts c s =
  (Done tt, state_of (remove_client target c s),
   Send (conn ti) (system kicked_notice)
   :: events_of (remove_client target c s)
   ++ ((λ p, Send (conn p.2) (system (kick_announcement target sender)))
         <$> recipients (state_of (remove_client target c s)) [] None)
   ++ [Log [Lit ("[" ++ ts ++ "] KICK: " ++ kick_announcement target sender)]])%list.
Proof.
  intros Hs Hti. unfold cmd_kick. rewrite Hs.
  unfold bind at 1, gets at 1. rewrite Hti.
  unfold_monad. cbn -[remove_client].
  pose proof (remove_client_run target c s) as Hrun.
  unfold state_of, events_of in *.
  destruct (remove_client target c s) as [[r1 s1] o1]. cbn in *.
  injection Hrun as ->. reflexivity.
Qed.

Lemma cmd_ban_run sender info cmd ts p0 target rest c s :
  Py.split None cmd = p0 :: target :: rest →
  cmd_ban sender info cmd ts c s =
  (Done tt, state_of (remove_client target c (set_banned (λ b, b ∪ {[target]}) s)),
   SaveBanned (Py.sorted (elements (banned s ∪ {[target]})))
   :: ((λ p, Send (conn p.2) (system (ban_announcement target sender)))
         <$> recipients (set_banned (λ b, b ∪ {[target]}) s) [] None)
   ++ Log [Lit ("[" ++ ts ++ "] BAN: " ++ ban_announcement target sender)]
   :: events_of (remove_client target c (set_banned (λ b, b ∪ {[target]}) s)))%list.
Proof.
  intros Hs. unfold cmd_ban. rewrite Hs.
  unfold_monad. unfold save_banned. unfold_monad. cbn -[remove_client].
  pose proof (remove_client_run target c (set_banned (λ b, b ∪ {[target]}) s)) as Hrun.
  unfold state_of, events_of in *.
  destruct (remove_client target c _) as [[r1 s1] o1]. cbn in *.
  injection Hrun as ->. reflexivity.
Qed.

Lemma announced_to_all s obj v i :
  clients s !! v = Some i →
  Send (conn i) obj ∈ ((λ p, Send (conn p.2) obj) <$> recipients s [] None).
Proof.
  intros Hv. apply list_elem_of_fmap. exists (v, i). split; [done |].
  apply recipients_spec. split; [done |]. split; [apply not_elem_of_nil | done].
Qed.

(** X14. [/kick] by an admin.  A connected target is told, its connection is
    closed and its session removed, while the ban set and the credential
    file stay as they were, so the name can log in again at once; every
    remaining session receives the announcement.  For a name without a
    session nothing changes and the admin alone is told. *)
Theorem admin_kick sender info cmd p0 target rest c s :
  Py.split None cmd = p0 :: target :: rest →
  Py.lower p0 = "/kick" →
  clients s !! sender = Some info →
  is_admin info = true →
  let r := handle_command sender (JStr cmd) c s in
  match clients s !! target with
  | Some ti =>
      clients (state_of r) = delete target (clients s) ∧
      banned (state_of r) = banned s ∧
      users_db (state_of r) = users_db s ∧
      ∃ evs,
        events_of r
        = Send (conn ti) (system kicked_notice) :: Close (conn ti) :: evs ∧
        ∀ v i, v ≠ target → clients s !! v = Some i →
               Send (conn i) (system (kick_announcement target sender)) ∈ evs
  | None =>
      r = (Done tt, s, [Send (conn info) (system (not_found_text target))])
  end.
Proof.
  intros Hs Hlow Hinfo Hadm r. subst r.
  destruct (clients s !! target) as [ti|] eqn:Hti.
  - erewrite handle_command_returns;
      [| exact Hs | exact Hlow | exact Hinfo
       | intros parts; rewrite (dispatch_kick _ _ _ _ _ _ _ Hadm);
         exact (cmd_kick_run _ _ _ _ _ _ _ _ _ _ Hs Hti)].
    destruct (remove_client_maps target c s) as [Hcl _].
    destruct (remove_client_frame target c s) as (Hban & _ & Hdb).
    destruct (remove_client_closes target ti c s Hti) as [evs0 Hev].
    unfold state_of, events_of in *. cbn [fst snd].
    split; [exact Hcl |]. split; [exact Hban |]. split; [exact Hdb |].
    rewrite Hev. eexists. split; [reflexivity |].
    intros v i Hne Hv. apply elem_of_app. right. apply elem_of_app. left.
    apply (announced_to_all _ _ v). rewrite Hcl. by rewrite lookup_delete_ne.
  - apply (handle_command_returns sender info cmd p0 (target :: rest) "/kick");
      [exact Hs | exact Hlow | exact Hinfo |].
    intros parts. rewrite (dispatch_kick _ _ _ _ _ _ _ Hadm).
    unfold cmd_kick. rewrite Hs. unfold_monad. rewrite Hti. reflexivity.
Qed.

Lemma admin_kick_witness :
  let r := handle_command "alice" (JStr "/kick bob") ex_clock ex_server_admin in
  clients (state_of r) = delete "bob" (clients ex_server_admin) ∧
  banned (state_of r) = banned ex_server_admin ∧
  ∃ evs, events_of r = Send 2 (system kicked_notice) :: Close 2 :: evs.
Proof.
  intros r.
  pose proof (admin_kick "alice" (set_is_admin true (ex_client 1)) "/kick bob" "/kick"
                "bob" [] ex_clock ex_server_admin eq_refl eq_refl eq_refl eq_refl)
    as H.
  change (clients ex_server_admin !! "bob") with (Some (ex_client 2)) in H.
  destruct H as (Hcl & Hban & _ & evs & Hev & _).
  split; [exact Hcl |]. split; [exact Hban |]. by exists evs.
Defined.

(** X15. [/ban] by an admin adds the name to the ban set and writes the ban
    file, whether or not the name has a session or an account; a session of
    that name is closed and removed; and from then on no first frame, on any
    connection, gets that name into the main loop. *)
Theorem admin_ban_locks_out sender info cmd p0 target rest c s :
  Py.split None cmd = p0 :: target :: rest →
  Py.lower p0 = "/ban" →
  clients s !! sender = Some info →
  is_admin info = true →
  let r := handle_command sender (JStr cmd) c s in
  banned (state_of r) = banned s ∪ {[target]} ∧
  clients (state_of r) = delete target (clients s) ∧
  SaveBanned (Py.sorted (elements (banned s ∪ {[target]}))) ∈ events_of r ∧
  (∀ ti, clients s !! target = Some ti → Close (conn ti) ∈ events_of r) ∧
  ∀ cn ad frame c',
    result_of (handle_client_auth cn ad frame c' (state_of r)) ≠ Done (Some target).
Proof.
  intros Hs Hlow Hinfo Hadm r. subst r.
  erewrite handle_command_returns;
    [| exact Hs | exact Hlow | exact Hinfo
     | intros parts; rewrite (dispatch_ban _ _ _ _ _ _ _ Hadm);
       exact (cmd_ban_run _ _ _ _ _ _ _ _ _ Hs)].
  set (s0 := set_banned (λ b, b ∪ {[target]}) s).
  destruct (remove_client_maps target c s0) as [Hcl _].
  destruct (remove_client_frame target c s0) as (Hban & _ & _).
  unfold state_of, events_of in *. cbn [fst snd].
  split; [exact Hban |]. split; [exact Hcl |].
  split; [apply list_elem_of_here |].
  split.
  - intros ti Hti. destruct (remove_client_closes target ti c s0 Hti) as [evs0 Hev].
    unfold events_of in Hev. rewrite Hev.
    apply list_elem_of_further, elem_of_app. right.
    apply list_elem_of_further, list_elem_of_here.
  - intros cn ad frame c' Hin.
    apply auth_accepted in Hin as (_ & _ & Hnot & _).
    apply Hnot. unfold state_of. rewrite Hban. cbn.
    apply elem_of_union. right. by apply elem_of_singleton.
Qed.

Lemma admin_ban_locks_out_witness :
  let r := handle_command "alice" (JStr "/ban bob") ex_clock ex_server_admin in
  banned (state_of r) = banned ex_server_admin ∪ {["bob"]} ∧
  result_of (handle_client_auth 3 ("10.0.0.9", 6000) (ex_auth "bob" "hunter2" false)
               ex_clock (state_of r)) ≠ Done (Some "bob").
Proof.
  intros r.
  destruct (admin_ban_locks_out "alice" (set_is_admin true (ex_client 1)) "/ban bob"
              "/ban" "bob" [] ex_clock ex_server_admin eq_refl eq_refl eq_refl eq_refl)
    as (Hban & _ & _ & _ & Hout).
  split; [exact Hban | apply Hout].
Defined.

Lemma cmd_unban_run sender info cmd ts p0 target rest c s :
  Py.split None cmd = p0 :: target :: rest →
  cmd_unban sender info cmd ts c s =
  if bool_decide (target ∈ banned s) then
    (Done tt, set_banned (λ b, b ∖ {[target]}) s,
     SaveBanned (Py.sorted (elements (banned s ∖ {[target]})))
     :: ((λ p, Send (conn p.2) (system (unban_announcement target sender)))
           <$> recipients (set_banned (λ b, b ∖ {[target]}) s) [] None)
     ++ [Log [Lit ("[" ++ ts ++ "] UNBAN: " ++ unban_announcement target sender)]])%list
  else (Done tt, s, [Send (conn info) (system (not_banned_text target))]).
Proof.
  intros Hs. unfold cmd_unban. rewrite Hs.
  unfold_monad. unfold save_banned. unfold_monad. cbn.
  case_bool_decide; reflexivity.
Qed.

(** X16. [/unban] by an admin takes a banned name out of the ban set and
    writes the ban file, touching no session; for a name that is not banned
    nothing changes, nothing is written and the admin alone is told. *)
Theorem admin_unban sender info cmd p0 target rest c s :
  Py.split None cmd = p0 :: target :: rest →
  Py.lower p0 = "/unban" →
  clients s !! sender = Some info →
  is_admin info = true →
  let r := handle_command sender (JStr cmd) c s in
  (target ∈ banned s →
     banned (state_of r) = banned s ∖ {[target]} ∧
     clients (state_of r) = clients s ∧
     SaveBanned (Py.sorted (elements (banned s ∖ {[target]}))) ∈ events_of r) ∧
  ((target ∉ banned s) →
     r = (Done tt, s, [Send (conn info) (system (not_banned_text target))])).
Proof.
  intros Hs Hlow Hinfo Hadm r. subst r.
  pose proof (cmd_unban_run sender info cmd (now_ts c) p0 target rest c s Hs) as Hrun.
  split; intros Hin.
  - rewrite bool_decide_eq_true_2 in Hrun by done.
    erewrite handle_command_returns;
      [| exact Hs | exact Hlow | exact Hinfo
       | intros parts; rewrite (dispatch_unban _ _ _ _ _ _ _ Hadm); exact Hrun].
    unfold state_of, events_of. cbn [fst snd].
    split; [done |]. split; [done | apply list_elem_of_here].
  - rewrite bool_decide_eq_false_2 in Hrun by done.
    apply (handle_command_returns sender info cmd p0 (target :: rest) "/unban");
      [exact Hs | exact Hlow | exact Hinfo |].
    intros parts. by rewrite (dispatch_unban _ _ _ _ _ _ _ Hadm).
Qed.

Lemma admin_unban_witness :
  let r := handle_command "alice" (JStr "/unban mallory") ex_clock ex_server_admin in
  banned (state_of r) = banned ex_server_admin ∖ {["mallory"]} ∧
  clients (state_of r) = clients ex_server_admin.
Proof.
  intros r.
  destruct (admin_unban "alice" (set_is_admin true (ex_client 1)) "/unban mallory"
              "/unban" "mallory" [] ex_clock ex_server_admin
              eq_refl eq_refl eq_refl eq_refl) as [Hin _].
  destruct Hin as (Hban & Hcl & _); [| by split].
  vm_compute. reflexivity.
Defined.

(** X17. A ban followed by an unban of the same name restores the ban set,
    when the name was not banned before and is not the admin's own. *)
Theorem ban_then_unban sender info cmd1 cmd2 p1 p2 target rest1 rest2 c1 c2 s :
  Py.split None cmd1 = p1 :: target :: rest1 → Py.lower p1 = "/ban" →
  Py.split None cmd2 = p2 :: target :: rest2 → Py.lower p2 = "/unban" →
  clients s !! sender = Some info →
  is_admin info = true →
  target ≠ sender →
  (target ∉ banned s) →
  let s1 := state_of (handle_command sender (JStr cmd1) c1 s) in
  let s2 := state_of (handle_command sender (JStr cmd2) c2 s1) in
  banned s2 = banned s ∧ clients s2 = delete target (clients s) ∧
  users_db s2 = users_db s.
Proof.
  intros Hs1 Hl1 Hs2 Hl2 Hinfo Hadm Hne Hnot s1 s2. subst s2 s1.
  erewrite (handle_command_returns sender info cmd1);
    [| exact Hs1 | exact Hl1 | exact Hinfo
     | intros parts; rewrite (dispatch_ban _ _ _ _ _ _ _ Hadm);
       exact (cmd_ban_run _ _ _ _ _ _ _ _ _ Hs1)].
  set (s0 := set_banned (λ b, b ∪ {[target]}) s).
  destruct (remove_client_maps target c1 s0) as [Hcl _].
  destruct (remove_client_frame target c1 s0) as (Hban & _ & Hdb).
  unfold state_of at 2 5 8. cbn [fst snd].
  set (s1 := state_of (remove_client target c1 s0)) in *.
  assert (Hinfo1 : clients s1 !! sender = Some info).
  { rewrite Hcl. cbn. by rewrite lookup_delete_ne. }
  assert (Hin : target ∈ banned s1).
  { rewrite Hban. cbn. apply elem_of_union. right. by apply elem_of_singleton. }
  pose proof (cmd_unban_run sender info cmd2 (now_ts c2) p2 target rest2 c2 s1 Hs2)
    as Hrun.
  rewrite bool_decide_eq_true_2 in Hrun by done.
  erewrite (handle_command_returns sender info cmd2);
    [| exact Hs2 | exact Hl2 | exact Hinfo1
     | intros parts; rewrite (dispatch_unban _ _ _ _ _ _ _ Hadm); exact Hrun].
  unfold state_of. cbn [fst snd]. cbn. fold (state_of (remove_client target c1 s0)).
  fold s1. rewrite Hban, Hcl, Hdb. cbn.
  split; [| done]. apply set_eq. intros x.
  rewrite elem_of_difference, elem_of_union, elem_of_singleton.
  split; [intros [[?| ->] ?]; done |]. intros Hx. split; [by left |]. by intros ->.
Qed.

Lemma ban_then_unban_witness :
  let s1 := state_of (handle_command "alice" (JStr "/ban bob") ex_clock ex_server_admin) in
  let s2 := state_of (handle_command "alice" (JStr "/unban bob") ex_clock s1) in
  banned s2 = banned ex_server_admin.
Proof.
  intros s1 s2.
  refine (proj1 (ban_then_unban "alice" (set_is_admin true (ex_client 1)) "/ban bob"
                   "/unban bob" "/ban" "/unban" "bob" [] [] ex_clock ex_clock
                   ex_server_admin eq_refl eq_refl eq_refl eq_refl eq_refl eq_refl _ _));
    [discriminate |].
  vm_compute. discriminate.
Defined.

(** ** The admin flag *)

Lemma flags_kept_refl m : admin_flags_kept m m.
Proof. intros v i' Hv Hadm. eauto. Qed.

Lemma flags_kept_muted m t u : admin_flags_kept m (alter (set_muted_until t) u m).
Proof.
  intros v i' Hv Hadm. destruct (decide (v = u)) as [-> | Hne].
  - rewrite lookup_alter_eq in Hv. destruct (m !! u) as [i|]; [| done].
    cbn in Hv. injection Hv as <-. by exists i.
  - rewrite lookup_alter_ne in Hv by done. eauto.
Qed.

Lemma flags_kept_delete m u : admin_flags_kept m (delete u m).
Proof. intros v i' [_ Hv]%lookup_delete_Some Hadm. eauto. Qed.

Lemma flags_kept_removed u c s s0 :
  clients s0 = clients s →
  admin_flags_kept (clients s) (clients (state_of (remove_client u c s0))).
Proof.
  intros Hcl. destruct (remove_client_maps u c s0) as [-> _]. rewrite Hcl.
  apply flags_kept_delete.
Qed.

#[local] Hint Resolve flags_kept_refl flags_kept_muted flags_kept_delete : footprint.

Ltac flags_branch :=
  unfold state_of; unfold_monad; unfold emit; cbn;
  repeat (inner_case; cbn);
  auto with footprint.

(** Every branch of the chain but [/admin] keeps the admin flags. *)
Lemma dispatch_keeps_flags sender info cmd ts cmd0 parts c s :
  String.eqb cmd0 "/admin" = false →
  admin_flags_kept (clients s)
    (clients (state_of (dispatch_command sender info cmd ts cmd0 parts c s))).
Proof.
  intros Hcmd. unfold dispatch_command. rewrite Hcmd.
  destruct (String.eqb cmd0 "/list" || String.eqb cmd0 "/users");
    [unfold cmd_list; flags_branch |].
  destruct (String.eqb cmd0 "/whoami"); [unfold cmd_whoami; flags_branch |].
  destruct (String.eqb cmd0 "/create"); [unfold cmd_create; flags_branch |].
  destruct (String.eqb cmd0 "/join"); [unfold cmd_join; flags_branch |].
  destruct (String.eqb cmd0 "/leave"); [unfold cmd_leave; flags_branch |].
  destruct (String.eqb cmd0 "/rooms"); [unfold cmd_rooms; flags_branch |].
  destruct (String.eqb cmd0 "/me"); [unfold cmd_me; flags_branch |].
  cbv zeta.
  gate_run_step; [unfold cmd_mute, float_add; flags_branch |].
  gate_run_step; [unfold cmd_unmute; flags_branch |].
  gate_run_step.
  { unfold cmd_kick.
    destruct (Py.split None cmd) as [|c0 [|target rest]]; [flags_branch .. |].
    unfold bind at 1, gets at 1.
    destruct (clients s !! target) as [ti|]; [| flags_branch].
    unfold state_of, bind, send_json, emit, broadcast, send_all, save_log, gets.
    pose proof (flags_kept_removed target c s s eq_refl) as Hrm.
    unfold state_of in Hrm. rewrite (remove_client_run target c s) in *.
    cbn in *. exact Hrm. }
  gate_run_step.
  { unfold cmd_ban.
    destruct (Py.split None cmd) as [|c0 [|target rest]]; [flags_branch .. |].
    unfold state_of, bind, modify, save_banned, broadcast, send_all, save_log, gets,
      emit. cbn -[remove_client].
    pose proof (flags_kept_removed target c s
                  (set_banned (λ b, b ∪ {[target]}) s) eq_refl) as Hrm.
    unfold state_of in Hrm.
    rewrite (remove_client_run target c (set_banned (λ b, b ∪ {[target]}) s)) in *.
    cbn in *. exact Hrm. }
  gate_run_step; [unfold cmd_unban, save_banned; flags_branch |].
  gate_run_step; [unfold cmd_listbans; flags_branch |].
  gate_run_step; [unfold cmd_announce; flags_branch |].
  destruct (String.eqb cmd0 "/help" || String.eqb cmd0 "/?");
    [unfold cmd_help | unfold cmd_unknown]; flags_branch.
Qed.

(** X18. The admin flag is granted by the password only: whatever command
    any sender issues, a session that has the flag afterwards either had it
    before or is the sender's own, the first word of the command being
    [/admin] in any letter case and the second the admin password.  No
    command sets the flag of another session. *)
Theorem admin_flag_needs_password sender cmd c s v i' :
  clients (state_of (handle_command sender cmd c s)) !! v = Some i' →
  is_admin i' = true →
  (∃ i, clients s !! v = Some i ∧ is_admin i = true) ∨
  (v = sender ∧
   ∃ text, cmd = JStr text ∧
           Py.lower <$> head (Py.split None text) = Some "/admin" ∧
           Py.split None text !! 1%nat = Some ADMIN_PASSWORD).
Proof.
  intros Hv Hflag.
  destruct cmd as [| b | n | text | l | d]; cbn [handle_command] in Hv;
    try (destruct (truthy _); left; by exists i').
  unfold handle_command_str in Hv.
  destruct (Py.split (Some 1%nat) text) as [|p0 rest] eqn:Hsplit;
    [left; by exists i' |].
  cbv zeta in Hv. unfold bind at 1, gets at 1 in Hv.
  destruct (clients s !! sender) as [info|] eqn:Hinfo; [| left; by exists i'].
  unfold bind at 1, ask at 1 in Hv.
  assert (Hst : clients
                  (state_of (try_except
                     (dispatch_command sender info text (now_ts c) (Py.lower p0)
                        (p0 :: rest))
                     (λ e, send_json (conn info)
                             (system ("âŒ Command error: " ++ exn_str e))) c s))
                = clients
                    (state_of (dispatch_command sender info text (now_ts c)
                                 (Py.lower p0) (p0 :: rest) c s))).
  { unfold try_except, state_of, send_json, emit.
    by destruct (dispatch_command _ _ _ _ _ _ c s) as [[[[]|e] s1] o1]. }
  assert (Hv' : clients (state_of (dispatch_command sender info text (now_ts c)
                                     (Py.lower p0) (p0 :: rest) c s)) !! v = Some i').
  { rewrite <- Hst. unfold state_of in *.
    destruct (try_except _ _ c s) as [[r1 s1] o1]. exact Hv. }
  clear Hv Hst.
  destruct (String.eqb (Py.lower p0) "/admin") eqn:Hcmd.
  - apply String.eqb_eq in Hcmd.
    unfold dispatch_command in Hv'. rewrite Hcmd in Hv'. cbn [String.eqb Ascii.eqb Bool.eqb] in Hv'.
    unfold cmd_admin in Hv'.
    case_bool_decide as Hpw.
    + destruct (decide (v = sender)) as [-> | Hne].
      * right. split; [done |]. exists text. split; [done |]. split; [| done].
        pose proof (split_go_head 0 None text) as Hh. unfold Py.split in *.
        rewrite Hsplit in Hh. rewrite <- Hh. cbn. by rewrite Hcmd.
      * left. unfold state_of in Hv'. unfold_monad. cbn in Hv'.
        rewrite lookup_alter_ne in Hv' by done. eauto.
    + left. unfold state_of in Hv'. unfold_monad. cbn in Hv'. eauto.
  - left. by eapply dispatch_keeps_flags.
Qed.

Lemma admin_flag_needs_password_witness :
  (∃ i, clients ex_server !! "alice" = Some i ∧ is_admin i = true) ∨
  ("alice" = "alice" ∧
   ∃ text, JStr "/Admin admin123" = JStr text ∧
           Py.lower <$> head (Py.split None text) = Some "/admin" ∧
           Py.split None text !! 1%nat = Some ADMIN_PASSWORD).
Proof.
  apply (admin_flag_needs_password "alice" (JStr "/Admin admin123") ex_clock ex_server
           "alice" (set_is_admin true (ex_client 1)));
    vm_compute; reflexivity.
Defined.

(** ** Requests that are not commands *)

(** X19. Only a command changes the registry.  Whatever else a session
    sends (a broadcast, a private message, a typing notice, a file, an
    unknown type, or a value that is no JSON object at all), the body of the
    loop leaves every map as it was, apart from clearing an expired mute of
    the sender, and closes no connection. *)
Theorem only_commands_change_registry username cn t data c s :
  (∀ d, data = JDict d →
        is_str (default JNull (assoc_get d "type")) "command" = false) →
  let r := process_line username cn t data c s in
  state_of r = after_unmute username t s ∧ no_close (events_of r).
Proof.
  intros Hty r. subst r.
  unfold process_line, after_unmute, state_of, events_of, dispatch_request,
    clients_get, hashable, get.
  unfold_monad. unfold emit. cbn.
  destruct (clients s !! username) as [i|]; cbn; [| split; [done | constructor]].
  destruct (muted_until i <? t); cbn.
  all: destruct data as [| b | n | text | l | d];
    try (repeat (inner_case; cbn);
         (split; [reflexivity | auto 20 with footprint])).
  all: specialize (Hty d eq_refl).
  all: rewrite ?Hty; cbn.
  all: repeat (inner_case; cbn).
  all: try discriminate.
  all: split; [reflexivity | rewrite ?app_nil_r; auto 20 with footprint].
Qed.

Lemma only_commands_change_registry_witness :
  let data := JDict [("type", JStr "broadcast"); ("message", JStr "hi")] in
  let r := process_line "alice" 1 100 data ex_clock ex_server in
  state_of r = after_unmute "alice" 100 ex_server ∧ no_close (events_of r).
Proof.
  intros data r.
  apply (only_commands_change_registry "alice" 1 100 data ex_clock ex_server).
  intros d [= <-]. reflexivity.
Defined.

(** X20. A typing notice is relayed to every other session, whatever room
    the sender and the receiver are in, and to nobody else; the [status]
    value goes out as it came in, and the registry is unchanged. *)
Theorem typing_ignores_rooms username cn d ts c s :
  let notice := JDict [("type", JStr "typing"); ("user", JStr username);
                       ("status", default (JBool false) (assoc_get d "status"))] in
  let r := dispatch_request username cn (JDict d) (JStr "typing") ts c s in
  state_of r = s ∧
  (∀ v i, clients s !! v = Some i → v ≠ username →
          Send (conn i) notice ∈ events_of r) ∧
  (∀ e, e ∈ events_of r →
        ∃ v i, clients s !! v = Some i ∧ v ≠ username ∧ e = Send (conn i) notice).
Proof.
  intros notice r.
  assert (Hr : r = (Done tt, s, (λ p, Send (conn p.2) notice)
                                  <$> recipients s [username] None))
    by reflexivity.
  rewrite Hr. unfold state_of, events_of. cbn [fst snd].
  split; [done |]. split.
  - intros v i Hv Hne. apply list_elem_of_fmap. exists (v, i). split; [done |].
    apply recipients_spec. split; [done |]. split; [| done].
    by intros ->%list_elem_of_singleton.
  - intros e [[v i] [-> Hin]]%list_elem_of_fmap.
    apply recipients_spec in Hin as (Hv & Hne & _).
    exists v, i. split; [done |]. split; [| done].
    intros ->. apply Hne, list_elem_of_here.
Qed.

(** ** The end of a handler *)

(** X21. One round of the main loop never lets an exception escape, and
    when it ends the handler (the peer has closed, [recv] has failed, or a
    request has raised outside the inner [try]), the session and the room
    pointer of its username are gone from the registry. *)
Theorem closed_handler_removes_session username cn t chunk c s :
  username ≠ "" →
  let r := handle_chunk username cn t chunk c s in
  ∃ st, result_of r = Done st ∧
        (chunk = None → st = Closed) ∧
        (st = Closed →
           clients (state_of r) !! username = None ∧
           user_rooms (state_of r) !! username = None).
Proof.
  intros Hne r. subst r.
  assert (Hfin : ∀ s1, finally_remove username c s1
                       = (Done tt, state_of (remove_client username c s1),
                          events_of (remove_client username c s1))).
  { intros s1. unfold finally_remove.
    destruct (String.eqb_spec username ""); [done | apply remove_client_run]. }
  assert (Hgone : ∀ s1,
             clients (state_of (remove_client username c s1)) !! username = None ∧
             user_rooms (state_of (remove_client username c s1)) !! username = None).
  { intros s1. destruct (remove_client_maps username c s1) as [-> ->].
    by rewrite !lookup_delete_eq. }
  destruct chunk as [lines|]; unfold handle_chunk, try_except, bind.
  - destruct (process_lines username cn t lines c s) as [[[[]|e] s1] o1].
    + exists Active. unfold result_of, ret. cbn. by repeat split.
    + rewrite Hfin. unfold result_of, ret. cbn.
      exists Closed. split; [done |]. split; [done |]. intros _. apply Hgone.
  - rewrite Hfin. unfold result_of, ret. cbn.
    exists Closed. split; [done |]. split; [done |]. intros _. apply Hgone.
Qed.

Lemma closed_handler_removes_session_witness :
  let r := handle_chunk "alice" 1 100 (Some [Some (JNum 7)]) ex_clock ex_server in
  ∃ st, result_of r = Done st ∧
        (Some [Some (JNum 7)] = (None : option (list (option json))) → st = Closed) ∧
        (st = Closed →
           clients (state_of r) !! "alice" = None ∧
           user_rooms (state_of r) !! "alice" = None).
Proof.
  apply (closed_handler_removes_session "alice" 1 100 (Some [Some (JNum 7)])
           ex_clock ex_server).
  discriminate.
Defined.

(** ** Commands that are ignored *)

Lemma split_blank m s : Py.strip s = "" → Py.split m s = [].
Proof.
  unfold Py.strip, Py.strip_by, Py.split.
  induction s as [|a s IH]; [done |]. cbn [Py.lstrip_by Py.split_go].
  destruct (Py.is_space a) eqn:Ha; [exact IH |].
  cbn [Py.rstrip_by]. destruct (Py.rstrip_by Py.is_space s); by rewrite ?Ha.
Qed.

(** X22. A command that is blank (the empty string, blanks only, or a falsy
    JSON value such as [null], [0] or [false]) and a command sent under a
    name that has no session are dropped without a reply and without any
    change. *)
Theorem ignored_commands sender cmd c s :
  match cmd with
  | JStr text => Py.strip text = "" ∨ clients s !! sender = None
  | _ => truthy cmd = false
  end →
  handle_command sender cmd c s = (Done tt, s, []).
Proof.
  destruct cmd as [| b | n | text | l | d]; cbn [handle_command];
    try (by intros ->).
  intros [Hblank | Hnone]; unfold handle_command_str.
  - by rewrite (split_blank _ _ Hblank).
  - destruct (Py.split (Some 1%nat) text); [done |].
    unfold bind, gets. by rewrite Hnone.
Qed.

Lemma ignored_commands_witness :
  handle_command "alice" (JStr "  ") ex_clock ex_server = (Done tt, ex_server, []) ∧
  handle_command "zed" (JStr "/list") ex_clock ex_server = (Done tt, ex_server, []) ∧
  handle_command "alice" (JNum 0) ex_clock ex_server = (Done tt, ex_server, []).
Proof.
  split; [| split].
  - apply (ignored_commands "alice" (JStr "  ") ex_clock ex_server). by left.
  - apply (ignored_commands "zed" (JStr "/list") ex_clock ex_server). by right.
  - apply (ignored_commands "alice" (JNum 0) ex_clock ex_server). reflexivity.
Defined.

(** ** The ban file *)

Lemma string_app_cons x (a b : string) : String x a ++ b = String x (a ++ b).
Proof. reflexivity. Qed.

Lemma string_app_assoc (a b c : string) : (a ++ b) ++ c = a ++ (b ++ c).
Proof. induction a as [|x a IH]; [done |]. rewrite !string_app_cons. by f_equal. Qed.

Lemma file_lines_written_line linesep u rest :
  linesep = nl ∨ linesep = crlf →
  no_line_break u = true →
  file_lines (written linesep (u ++ nl ++ rest))
  = (u ++ nl) :: file_lines (written linesep rest).
Proof.
  intros Hsep. induction u as [|a u IH]; intros Hu.
  - destruct Hsep as [-> | ->]; reflexivity.
  - cbn in Hu. apply andb_prop in Hu as [Ha Hu]. apply andb_prop in Ha as [Hlf Hcr].
    apply negb_true_iff in Hlf, Hcr.
    rewrite string_app_cons. cbn [written]. rewrite Hlf. cbn [file_lines].
    rewrite Hlf, Hcr.
    by rewrite (IH Hu).
Qed.

Lemma file_lines_written linesep names :
  linesep = nl ∨ linesep = crlf →
  Forall (λ u, no_line_break u = true) names →
  file_lines (written linesep (foldr (λ u acc, u ++ nl ++ acc) "" names))
  = (λ u, u ++ nl) <$> names.
Proof.
  intros Hsep. induction 1 as [|u names Hu _ IH]; [done |]. cbn [foldr fmap list_fmap].
  by rewrite (file_lines_written_line _ _ _ Hsep Hu), IH.
Qed.

Lemma rstrip_by_length f s : (String.length (Py.rstrip_by f s) ≤ String.length s)%nat.
Proof.
  induction s as [|a s IH]; [done |]. cbn [Py.rstrip_by].
  destruct (Py.rstrip_by f s); [destruct (f a) |]; cbn in *; lia.
Qed.

Lemma lstrip_by_fixed f s :
  (String.length s ≤ String.length (Py.lstrip_by f s))%nat → Py.lstrip_by f s = s.
Proof.
  destruct s as [|a s]; [done |]. cbn [Py.lstrip_by]. destruct (f a); [| done].
  intros Hlen. exfalso.
  assert (∀ t, String.length (Py.lstrip_by f t) ≤ String.length t)%nat as Hle.
  { induction t as [|b t IH]; [done |]. cbn [Py.lstrip_by].
    destruct (f b); cbn; [lia | done]. }
  specialize (Hle s). cbn in Hlen. lia.
Qed.

Lemma rstrip_by_line f u :
  f (ascii_of_nat 10) = true →
  Py.rstrip_by f (u ++ nl) = Py.rstrip_by f u.
Proof.
  intros Hf. induction u as [|a u IH].
  { change ("" ++ nl) with (String (ascii_of_nat 10) ""). cbn [Py.rstrip_by].
    by rewrite Hf. }
  rewrite string_app_cons. cbn [Py.rstrip_by]. by rewrite IH.
Qed.

(** A name without blanks around it is what [strip] finds on its line. *)
Lemma strip_line u : u ≠ "" → Py.strip u = u → Py.strip (u ++ nl) = u.
Proof.
  intros Hne Hu. unfold Py.strip, Py.strip_by in *.
  assert (Hl : Py.lstrip_by Py.is_space u = u).
  { apply lstrip_by_fixed. rewrite <- Hu at 1. apply rstrip_by_length. }
  rewrite Hl in Hu.
  destruct u as [|a u]; [done |]. cbn [Py.lstrip_by] in Hl.
  rewrite string_app_cons. cbn [Py.lstrip_by].
  destruct (Py.is_space a) eqn:Ha.
  - exfalso. assert (∀ t, String.length (Py.lstrip_by Py.is_space t) ≤ String.length t)%nat
      as Hle.
    { induction t as [|b t IH]; [done |]. cbn [Py.lstrip_by].
      destruct (Py.is_space b); cbn; [lia | done]. }
    specialize (Hle u). rewrite Hl in Hle. cbn in Hle. lia.
  - rewrite <- string_app_cons. rewrite rstrip_by_line by reflexivity. exact Hu.
Qed.

Lemma load_lines names :
  Forall (λ u, u ≠ "" ∧ Py.strip u = u) names →
  Py.strip <$> List.filter (λ x, negb (String.eqb (Py.strip x) ""))
                 ((λ u, u ++ nl) <$> names)
  = names.
Proof.
  induction 1 as [|u names [Hne Hu] _ IH]; [done |].
  cbn [fmap list_fmap List.filter]. rewrite (strip_line u Hne Hu).
  destruct (String.eqb_spec u ""); [done |]. cbn.
  by rewrite IH, (strip_line u Hne Hu).
Qed.

(** X23. The ban list survives a restart: [load_banned] reads back from the
    file that [save_banned] wrote exactly the ban set, on a platform whose
    line separator is LF or CR LF, when no banned name is empty, starts or
    ends with a blank, or holds a line break. *)
Theorem ban_file_round_trip linesep b b0 :
  linesep = nl ∨ linesep = crlf →
  (∀ u, u ∈ b → u ≠ "" ∧ Py.strip u = u ∧ no_line_break u = true) →
  load_banned (Some (ban_file linesep b)) b0 = b.
Proof.
  intros Hsep Hb. unfold load_banned, ban_file, Py.sorted.
  assert (Hall : ∀ u, u ∈ merge_sort String.le (elements b) →
                      u ≠ "" ∧ Py.strip u = u ∧ no_line_break u = true).
  { intros u Hu. apply Hb. rewrite merge_sort_Permutation in Hu.
    by apply elem_of_elements in Hu. }
  rewrite file_lines_written; [| exact Hsep |].
  - rewrite load_lines.
    + rewrite (list_to_set_perm_L _ _ (merge_sort_Permutation String.le (elements b))).
      apply list_to_set_elements_L.
    + apply Forall_forall. intros u Hu. destruct (Hall u Hu) as (? & ? & _). by split.
  - apply Forall_forall. intros u Hu. by destruct (Hall u Hu) as (_ & _ & ?).
Qed.

Lemma ban_file_round_trip_witness :
  load_banned (Some (ban_file crlf {["mallory"; "eve"]})) ∅ = {["mallory"; "eve"]}.
Proof.
  apply (ban_file_round_trip crlf {["mallory"; "eve"]} ∅); [by right |].
  intros u [->%elem_of_singleton | ->%elem_of_singleton]%elem_of_union;
    repeat split; done.
Defined.

(** ** Line framing *)

Lemma split_lines_cons s : ∃ l ls, split_lines s = l :: ls.
Proof.
  destruct s as [|c t]; [by eexists _, _ |]. cbn [split_lines].
  destruct (is_lf c); [by eexists _, _ |].
  destruct (split_lines t); by eexists _, _.
Qed.

Lemma removelast_cons {A} (x y : A) l : removelast (x :: y :: l) = x :: removelast (y :: l).
Proof. reflexivity. Qed.

Lemma last_cons {A} (x y : A) l d : List.last (x :: y :: l) d = List.last (y :: l) d.
Proof. reflexivity. Qed.

Lemma split_lines_app s t :
  split_lines (s ++ t)
  = (removelast (split_lines s)
     ++ split_lines (List.last (split_lines s) "" ++ t))%list.
Proof.
  induction s as [|c s IH]; [done |].
  rewrite string_app_cons. cbn [split_lines].
  destruct (split_lines_cons s) as (l & ls & Hs). rewrite Hs in IH.
  destruct (is_lf c) eqn:Hc.
  - rewrite Hs, removelast_cons, last_cons, IH. reflexivity.
  - rewrite IH, Hs. destruct ls as [|l' ls].
    + cbn [removelast List.last app]. rewrite string_app_cons. cbn [split_lines].
      by rewrite Hc.
    + rewrite !removelast_cons, !last_cons. reflexivity.
Qed.

Lemma removelast_app_cons {A} (l1 : list A) x l2 :
  removelast (l1 ++ x :: l2) = (l1 ++ removelast (x :: l2))%list.
Proof.
  induction l1 as [|a l1 IH]; [done |]. cbn [app].
  destruct l1; cbn [app] in *; rewrite removelast_cons; by f_equal.
Qed.

Lemma last_app_cons {A} (l1 : list A) x l2 d :
  List.last (l1 ++ x :: l2) d = List.last (x :: l2) d.
Proof.
  induction l1 as [|a l1 IH]; [done |]. cbn [app].
  destruct l1; cbn [app] in *; by rewrite last_cons.
Qed.

(** X24. The lines that the server processes do not depend on how the
    decoded stream is cut into chunks: framing a chunk [c1 ++ c2] gives the
    lines of [c1] followed by the lines of [c2] framed with the buffer that
    [c1] left, and leaves the same buffer. *)
Theorem frame_chunking buffer c1 c2 :
  frame buffer (c1 ++ c2)
  = ((frame buffer c1).1 ++ (frame (frame buffer c1).2 c2).1,
     (frame (frame buffer c1).2 c2).2)%list.
Proof.
  unfold frame. cbn [fst snd]. rewrite <- string_app_assoc, split_lines_app.
  destruct (split_lines_cons (List.last (split_lines (buffer ++ c1)) "" ++ c2))
    as (l & ls & ->).
  by rewrite removelast_app_cons, last_app_cons.
Qed.

Lemma is_lf_eq c : is_lf c = true → c = ascii_of_nat 10.
Proof. apply Ascii.eqb_eq. Qed.

(** X25. Framing loses nothing and moves nothing: the lines to process,
    each followed by LF, and then the buffer that is kept, spell the old
    buffer followed by the chunk; no line and no kept buffer holds an LF. *)
Theorem frame_lossless buffer chunk :
  foldr (λ line acc, line ++ nl ++ acc) (frame buffer chunk).2 (frame buffer chunk).1
  = buffer ++ chunk ∧
  Forall (λ line, has_lf line = false) (frame buffer chunk).1 ∧
  has_lf (frame buffer chunk).2 = false.
Proof.
  unfold frame. cbn [fst snd]. generalize (buffer ++ chunk). clear. intros s.
  assert (Hlf : Forall (λ line, has_lf line = false) (split_lines s)).
  { induction s as [|c s IH]; [by repeat constructor |]. cbn [split_lines].
    destruct (is_lf c) eqn:Hc; [by constructor |].
    destruct (split_lines s) as [|l ls]; [repeat constructor; cbn; by rewrite Hc |].
    inversion IH as [|? ? Hl Hls]; subst.
    constructor; [cbn; by rewrite Hc | done]. }
  split; [| split].
  - clear Hlf. induction s as [|c s IH]; [done |]. cbn [split_lines].
    destruct (split_lines_cons s) as (l & ls & Hs). rewrite Hs in *.
    destruct (is_lf c) eqn:Hc.
    + rewrite removelast_cons, last_cons. cbn [foldr]. rewrite IH.
      by rewrite (is_lf_eq c Hc).
    + destruct ls as [|l' ls].
      * cbn in IH |- *. by rewrite IH.
      * rewrite removelast_cons, last_cons in *. cbn [foldr] in *.
        by rewrite string_app_cons, IH.
  - destruct (split_lines_cons s) as (l & ls & Hs). rewrite Hs in *.
    clear Hs. revert l Hlf. induction ls as [|l' ls IH]; intros l Hlf; [constructor |].
    rewrite removelast_cons. inversion Hlf; subst. constructor; [done | by apply IH].
  - destruct (split_lines_cons s) as (l & ls & Hs). rewrite Hs in *.
    clear Hs. revert l Hlf. induction ls as [|l' ls IH]; intros l Hlf.
    + by inversion Hlf.
    + rewrite last_cons. inversion Hlf; subst. by apply IH.
Qed.

Lemma cut_line_spec s :
  match cut_line s with
  | Some (line, rest) =>
      split_lines s = line :: split_lines rest ∧
      (String.length rest < String.length s)%nat
  | None => split_lines s = [s]
  end.
Proof.
  induction s as [|c s IH]; [done |]. cbn [cut_line split_lines].
  destruct (is_lf c); [cbn; split; [done | lia] |].
  destruct (cut_line s) as [[line rest]|].
  - destruct IH as [-> Hlen]. split; [done | cbn; lia].
  - by rewrite IH.
Qed.

(** X26. The client cuts the stream as the server does: with enough rounds
    for the text it holds, the [while] loop of [reader_thread] takes off the
    lines that the server's [split] finds and leaves the same buffer. *)
Theorem reader_matches_server fuel buffer chunk :
  (String.length (buffer ++ chunk) ≤ fuel)%nat →
  reader_lines fuel (buffer ++ chunk) = frame buffer chunk.
Proof.
  unfold frame. generalize (buffer ++ chunk). clear. intros s. revert s.
  induction fuel as [|fuel IH]; intros s Hlen.
  - destruct s; [done | cbn in Hlen; lia].
  - cbn [reader_lines]. pose proof (cut_line_spec s) as Hcut.
    destruct (cut_line s) as [[line rest]|].
    + destruct Hcut as [-> Hrest]. rewrite IH by lia.
      destruct (split_lines_cons rest) as (l & ls & ->). reflexivity.
    + by rewrite Hcut.
Qed.

Lemma reader_matches_server_witness :
  reader_lines 9 ("ab" ++ nl ++ "c" ++ nl ++ "de") = (["ab"; "c"], "de") ∧
  frame "a" ("b" ++ nl ++ "c" ++ nl ++ "de") = (["ab"; "c"], "de").
Proof.
  pose proof (reader_matches_server 9 "a" ("b" ++ nl ++ "c" ++ nl ++ "de")) as H.
  split; [| reflexivity].
  etransitivity; [apply H; vm_compute; lia | reflexivity].
Defined.
